(** * Workflow-generation state machine

    A shallow embedding of [src/lib/workflow-generation-state.ts]: the state
    enum, the transition table, the execution-state aggregate, the methods of
    [WorkflowGenerationStateManager] and the two wizard-step mappings.

    The manager is a mutable object; its methods are embedded in a small
    state-and-exception monad over a [World] that holds the object's two
    private fields together with the two pieces of the environment the
    methods touch: the console and the wall clock. *)

From Stdlib Require Import Ascii.
From stdpp Require Import base strings gmap list pretty.

(** ** The state enum *)

Inductive WorkflowGenerationState : Type :=
  | STATE_0_IDLE
  | STATE_1_USER_PROMPT_RECEIVED
  | STATE_2_CLARIFICATION_ACTIVE
  | STATE_3_UNDERSTANDING_CONFIRMED
  | STATE_4_CREDENTIAL_COLLECTION
  | STATE_5_WORKFLOW_BUILDING
  | STATE_6_WORKFLOW_VALIDATION
  | STATE_7_WORKFLOW_READY
  | STATE_ERROR_HANDLING.

Global Instance WorkflowGenerationState_eq_dec : EqDecision WorkflowGenerationState.
Proof. solve_decision. Defined.

(** The enum is string-valued; [enum_value] is the string a member denotes,
    which is what template literals and [join] print. *)
Definition enum_value (s : WorkflowGenerationState) : string :=
  match s with
  | STATE_0_IDLE => "STATE_0_IDLE"
  | STATE_1_USER_PROMPT_RECEIVED => "STATE_1_USER_PROMPT_RECEIVED"
  | STATE_2_CLARIFICATION_ACTIVE => "STATE_2_CLARIFICATION_ACTIVE"
  | STATE_3_UNDERSTANDING_CONFIRMED => "STATE_3_UNDERSTANDING_CONFIRMED"
  | STATE_4_CREDENTIAL_COLLECTION => "STATE_4_CREDENTIAL_COLLECTION"
  | STATE_5_WORKFLOW_BUILDING => "STATE_5_WORKFLOW_BUILDING"
  | STATE_6_WORKFLOW_VALIDATION => "STATE_6_WORKFLOW_VALIDATION"
  | STATE_7_WORKFLOW_READY => "STATE_7_WORKFLOW_READY"
  | STATE_ERROR_HANDLING => "STATE_ERROR_HANDLING"
  end.

(** ** The transition table

    [ALLOWED_TRANSITIONS] is a [Record] with one array per enum member, so the
    lookup is a total function and the [|| []] of [canTransitionTo] never
    fires. *)
Definition ALLOWED_TRANSITIONS (s : WorkflowGenerationState)
  : list WorkflowGenerationState :=
  match s with
  | STATE_0_IDLE => [ STATE_1_USER_PROMPT_RECEIVED ]
  | STATE_1_USER_PROMPT_RECEIVED => [ STATE_2_CLARIFICATION_ACTIVE ]
  | STATE_2_CLARIFICATION_ACTIVE =>
      [ STATE_3_UNDERSTANDING_CONFIRMED; STATE_2_CLARIFICATION_ACTIVE ]
  | STATE_3_UNDERSTANDING_CONFIRMED =>
      [ STATE_4_CREDENTIAL_COLLECTION; STATE_2_CLARIFICATION_ACTIVE;
        STATE_5_WORKFLOW_BUILDING ]
  | STATE_4_CREDENTIAL_COLLECTION => [ STATE_5_WORKFLOW_BUILDING ]
  | STATE_5_WORKFLOW_BUILDING =>
      [ STATE_6_WORKFLOW_VALIDATION; STATE_4_CREDENTIAL_COLLECTION ]
  | STATE_6_WORKFLOW_VALIDATION =>
      [ STATE_7_WORKFLOW_READY; STATE_5_WORKFLOW_BUILDING; STATE_ERROR_HANDLING ]
  | STATE_7_WORKFLOW_READY => []
  | STATE_ERROR_HANDLING => [ STATE_2_CLARIFICATION_ACTIVE; STATE_0_IDLE ]
  end.

(** ** The transition graph as a set of edges *)

(** The pipeline order, and the edges between consecutive members of a
    list. *)
Definition pipeline_order : list WorkflowGenerationState :=
  [ STATE_0_IDLE; STATE_1_USER_PROMPT_RECEIVED; STATE_2_CLARIFICATION_ACTIVE;
    STATE_3_UNDERSTANDING_CONFIRMED; STATE_4_CREDENTIAL_COLLECTION;
    STATE_5_WORKFLOW_BUILDING; STATE_6_WORKFLOW_VALIDATION;
    STATE_7_WORKFLOW_READY ].

Fixpoint consecutive {A : Type} (l : list A) : list (A * A) :=
  match l with
  | a :: (b :: _) as rest => (a, b) :: consecutive rest
  | _ => []
  end.

(** The edge set in the words of the specification: the pipeline order,
    three deviations (the self-loop on ClarificationActive, the shortcut
    UnderstandingConfirmed to WorkflowBuilding, the backward edge
    WorkflowBuilding to CredentialCollection) and the two exits of
    ErrorHandling.  It is compared with [ALLOWED_TRANSITIONS] below. *)
Definition specified_edges
  : list (WorkflowGenerationState * WorkflowGenerationState) :=
  consecutive pipeline_order
  ++ [ (STATE_2_CLARIFICATION_ACTIVE, STATE_2_CLARIFICATION_ACTIVE);
       (STATE_3_UNDERSTANDING_CONFIRMED, STATE_5_WORKFLOW_BUILDING);
       (STATE_5_WORKFLOW_BUILDING, STATE_4_CREDENTIAL_COLLECTION) ]
  ++ [ (STATE_ERROR_HANDLING, STATE_2_CLARIFICATION_ACTIVE);
       (STATE_ERROR_HANDLING, STATE_0_IDLE) ].

(** The same set with the three further edges the table lists: back from
    UnderstandingConfirmed to ClarificationActive, the retry edge
    WorkflowValidation to WorkflowBuilding, and WorkflowValidation to
    ErrorHandling. *)
Definition table_edges
  : list (WorkflowGenerationState * WorkflowGenerationState) :=
  specified_edges
  ++ [ (STATE_3_UNDERSTANDING_CONFIRMED, STATE_2_CLARIFICATION_ACTIVE);
       (STATE_6_WORKFLOW_VALIDATION, STATE_5_WORKFLOW_BUILDING);
       (STATE_6_WORKFLOW_VALIDATION, STATE_ERROR_HANDLING) ].

(** ** JavaScript values used by the methods *)

(** [Array.prototype.join] on an array of strings. *)
Fixpoint join (sep : string) (l : list string) : string :=
  match l with
  | [] => ""
  | [x] => x
  | x :: rest => x +:+ sep +:+ join sep rest
  end.

(** Truthiness of an optional string: [undefined] and the empty string are
    falsy. *)
Definition truthy (o : option string) : bool :=
  match o with
  | Some EmptyString => false
  | Some _ => true
  | None => false
  end.

(** [o || d] for an optional string [o] and a string [d]. *)
Definition or_else (o : option string) (d : string) : string :=
  match o with
  | Some EmptyString => d
  | Some s => s
  | None => d
  end.

(** [s.replace(/_/g, '_')]: every underscore is replaced by an underscore. *)
Fixpoint replace_underscores (s : string) : string :=
  match s with
  | EmptyString => EmptyString
  | String c rest =>
      if Ascii.eqb c "_"%char then String "_"%char (replace_underscores rest)
      else String c (replace_underscores rest)
  end.

(** [String.prototype.toLowerCase] on strings of ASCII characters, used to
    instantiate the lower-casing primitive in concrete runs. *)
Definition ascii_toLowerCase_char (c : ascii) : ascii :=
  let n := nat_of_ascii c in
  if (65 <=? n)%nat && (n <=? 90)%nat then ascii_of_nat (n + 32) else c.

Fixpoint ascii_toLowerCase (s : string) : string :=
  match s with
  | EmptyString => EmptyString
  | String c rest => String (ascii_toLowerCase_char c) (ascii_toLowerCase rest)
  end.

(** ** Records of the data model *)

Record ClarifyingQuestion : Type := {
  q_id : string;
  q_text : string;
  q_options : list string;
}.

Record ValidationError : Type := {
  ve_type : string;
  ve_message : string;
  ve_nodeId : option string;
}.

Record HistoryEntry : Type := {
  h_state : WorkflowGenerationState;
  h_timestamp : string;
  h_reason : option string;
}.

(** The value a method returns: [{ success, error? }]. *)
Record OpResult : Type := {
  success : bool;
  error : option string;
}.

(** The value [canTransitionTo] returns: [{ valid, reason? }]. *)
Record Validation : Type := {
  valid : bool;
  v_reason : option string;
}.

Inductive ConsoleLevel : Type := ConsoleLog | ConsoleError.

(** One call of [console.log] or [console.error] with its arguments. *)
Record ConsoleCall : Type := {
  c_level : ConsoleLevel;
  c_args : list string;
}.

(** The completion of a method call: a returned value or a thrown [Error]
    with its message. *)
Inductive Completion (A : Type) : Type :=
  | Normal (a : A)
  | Throw (msg : string).
Arguments Normal {A} a.
Arguments Throw {A} msg.

(** A clock for concrete runs: it answers [T0], [T1], ... *)
Definition sample_clock (n : nat) : string := "T" +:+ pretty n.

Definition sample_error : ValidationError :=
  {| ve_type := "missing_edge"; ve_message := "node has no input";
     ve_nodeId := Some "n1" |}.

(** ** Property reads on plain objects

    [stepMap] and [credentials_provided] are plain objects read with
    [obj[key]].  Such a read looks first among the properties the object holds
    itself and then along its prototype chain, which for a plain object (an
    object literal, or what [JSON.parse] returns) is [Object.prototype]
    alone. *)

(** The names of the members of [Object.prototype], those of Annex B
    included. *)
Definition Object_prototype : list string :=
  [ "constructor"; "hasOwnProperty"; "isPrototypeOf"; "propertyIsEnumerable";
    "toLocaleString"; "toString"; "valueOf"; "__proto__";
    "__defineGetter__"; "__defineSetter__"; "__lookupGetter__";
    "__lookupSetter__" ].

(** What a read returns when it is not [undefined]: a value the object holds
    itself, or the member of [Object.prototype] of the given name, which is a
    function (for [__proto__], the prototype object). *)
Inductive Value (A : Type) : Type :=
  | Data (a : A)
  | Inherited (name : string).
Arguments Data {A} a.
Arguments Inherited {A} name.

(** The value itself, when the read returned one the object holds. *)
Definition data {A : Type} (v : Value A) : option A :=
  match v with
  | Data a => Some a
  | Inherited _ => None
  end.

(** [obj[key]]. *)
Definition get_property {A : Type} (obj : gmap string A) (key : string)
  : option (Value A) :=
  match obj !! key with
  | Some a => Some (Data a)
  | None =>
      if bool_decide (key ∈ Object_prototype) then Some (Inherited key) else None
  end.

(** Truthiness of what a read of a string-valued object returns: functions
    and objects are truthy. *)
Definition truthy_value (v : option (Value string)) : bool :=
  match v with
  | Some (Data s) => truthy (Some s)
  | Some (Inherited _) => true
  | None => false
  end.

(** ** The wizard-step mappings *)

(** The object literal [stepMap] of [mapWizardStepToState]: the properties the
    literal declares.  It is read with [get_property], as a plain object. *)
Definition stepMap : gmap string WorkflowGenerationState :=
  list_to_map
    [ ("idle", STATE_0_IDLE);
      ("analyzing", STATE_1_USER_PROMPT_RECEIVED);
      ("questioning", STATE_2_CLARIFICATION_ACTIVE);
      ("refining", STATE_2_CLARIFICATION_ACTIVE);
      ("confirmation", STATE_3_UNDERSTANDING_CONFIRMED);
      ("credentials", STATE_4_CREDENTIAL_COLLECTION);
      ("building", STATE_5_WORKFLOW_BUILDING);
      ("complete", STATE_7_WORKFLOW_READY) ].

(** [stepMap[step] || STATE_0_IDLE]: the fallback is taken when the read is
    [undefined] or a falsy enum value.  A member inherited from
    [Object.prototype] is truthy, so the function returns it as it is, whatever
    its declared return type says. *)
Definition mapWizardStepToState (step : string) : Value WorkflowGenerationState :=
  match get_property stepMap step with
  | Some (Data s) =>
      if truthy (Some (enum_value s)) then Data s else Data STATE_0_IDLE
  | Some (Inherited name) => Inherited name
  | None => Data STATE_0_IDLE
  end.

(** The object literal [stateMap] of [mapStateToWizardStep], a [Record] with
    one entry per enum member. *)
Definition stateMap (s : WorkflowGenerationState) : string :=
  match s with
  | STATE_0_IDLE => "idle"
  | STATE_1_USER_PROMPT_RECEIVED => "analyzing"
  | STATE_2_CLARIFICATION_ACTIVE => "questioning"
  | STATE_3_UNDERSTANDING_CONFIRMED => "confirmation"
  | STATE_4_CREDENTIAL_COLLECTION => "credentials"
  | STATE_5_WORKFLOW_BUILDING => "building"
  | STATE_6_WORKFLOW_VALIDATION => "building"
  | STATE_7_WORKFLOW_READY => "complete"
  | STATE_ERROR_HANDLING => "idle"
  end.

Definition mapStateToWizardStep (state : WorkflowGenerationState) : string :=
  or_else (Some (stateMap state)) "idle".

(** The eight steps of the wizard vocabulary. *)
Definition wizard_steps : list string :=
  [ "idle"; "analyzing"; "questioning"; "refining"; "confirmation";
    "credentials"; "building"; "complete" ].

Section Manager.

(** Blueprint nodes and edges are of the TypeScript type [any]; the manager
    never looks inside them. *)
Context {any : Type}.

(** [String.prototype.toLowerCase]. *)
Variable toLowerCase : string → string.

(** The wall clock: [clock n] is what the [n]-th evaluation of
    [new Date().toISOString()] returns. *)
Variable clock : nat → string.

Record Blueprint : Type := {
  nodes : option (list any);
  edges : option (list any);
  structure : option any;
}.

(** The object literal [{}]. *)
Definition empty_blueprint : Blueprint :=
  {| nodes := None; edges := None; structure := None |}.

(** [interface ExecutionState].  The two [Record<string, string>] fields are
    plain objects, given by the properties they hold themselves;
    [clarifying_answers] is never read by the manager and
    [credentials_provided] is read with [get_property].  [retry_count] is a
    counter that starts at 0 and is only ever incremented. *)
Record ExecutionState : Type := {
  current_state : WorkflowGenerationState;
  user_prompt : string;
  clarifying_questions : list ClarifyingQuestion;
  clarifying_answers : gmap string string;
  final_understanding : string;
  credentials_required : list string;
  credentials_provided : gmap string string;
  workflow_blueprint : Blueprint;
  validation_errors : list ValidationError;
  retry_count : nat;
  last_error : option string;
  debug_mode : option bool;
  state_history : list HistoryEntry;
}.

(** Field assignments [this.executionState.f = v]. *)
Definition set_current_state (v : WorkflowGenerationState) (e : ExecutionState) :=
  {| current_state := v; user_prompt := user_prompt e;
     clarifying_questions := clarifying_questions e;
     clarifying_answers := clarifying_answers e;
     final_understanding := final_understanding e;
     credentials_required := credentials_required e;
     credentials_provided := credentials_provided e;
     workflow_blueprint := workflow_blueprint e;
     validation_errors := validation_errors e;
     retry_count := retry_count e; last_error := last_error e;
     debug_mode := debug_mode e; state_history := state_history e |}.

Definition set_user_prompt (v : string) (e : ExecutionState) :=
  {| current_state := current_state e; user_prompt := v;
     clarifying_questions := clarifying_questions e;
     clarifying_answers := clarifying_answers e;
     final_understanding := final_understanding e;
     credentials_required := credentials_required e;
     credentials_provided := credentials_provided e;
     workflow_blueprint := workflow_blueprint e;
     validation_errors := validation_errors e;
     retry_count := retry_count e; last_error := last_error e;
     debug_mode := debug_mode e; state_history := state_history e |}.

Definition set_clarifying_questions (v : list ClarifyingQuestion) (e : ExecutionState) :=
  {| current_state := current_state e; user_prompt := user_prompt e;
     clarifying_questions := v;
     clarifying_answers := clarifying_answers e;
     final_understanding := final_understanding e;
     credentials_required := credentials_required e;
     credentials_provided := credentials_provided e;
     workflow_blueprint := workflow_blueprint e;
     validation_errors := validation_errors e;
     retry_count := retry_count e; last_error := last_error e;
     debug_mode := debug_mode e; state_history := state_history e |}.

Definition set_clarifying_answers (v : gmap string string) (e : ExecutionState) :=
  {| current_state := current_state e; user_prompt := user_prompt e;
     clarifying_questions := clarifying_questions e;
     clarifying_answers := v;
     final_understanding := final_understanding e;
     credentials_required := credentials_required e;
     credentials_provided := credentials_provided e;
     workflow_blueprint := workflow_blueprint e;
     validation_errors := validation_errors e;
     retry_count := retry_count e; last_error := last_error e;
     debug_mode := debug_mode e; state_history := state_history e |}.

Definition set_final_understanding (v : string) (e : ExecutionState) :=
  {| current_state := current_state e; user_prompt := user_prompt e;
     clarifying_questions := clarifying_questions e;
     clarifying_answers := clarifying_answers e;
     final_understanding := v;
     credentials_required := credentials_required e;
     credentials_provided := credentials_provided e;
     workflow_blueprint := workflow_blueprint e;
     validation_errors := validation_errors e;
     retry_count := retry_count e; last_error := last_error e;
     debug_mode := debug_mode e; state_history := state_history e |}.

Definition set_credentials_required (v : list string) (e : ExecutionState) :=
  {| current_state := current_state e; user_prompt := user_prompt e;
     clarifying_questions := clarifying_questions e;
     clarifying_answers := clarifying_answers e;
     final_understanding := final_understanding e;
     credentials_required := v;
     credentials_provided := credentials_provided e;
     workflow_blueprint := workflow_blueprint e;
     validation_errors := validation_errors e;
     retry_count := retry_count e; last_error := last_error e;
     debug_mode := debug_mode e; state_history := state_history e |}.

Definition set_credentials_provided (v : gmap string string) (e : ExecutionState) :=
  {| current_state := current_state e; user_prompt := user_prompt e;
     clarifying_questions := clarifying_questions e;
     clarifying_answers := clarifying_answers e;
     final_understanding := final_understanding e;
     credentials_required := credentials_required e;
     credentials_provided := v;
     workflow_blueprint := workflow_blueprint e;
     validation_errors := validation_errors e;
     retry_count := retry_count e; last_error := last_error e;
     debug_mode := debug_mode e; state_history := state_history e |}.

Definition set_workflow_blueprint (v : Blueprint) (e : ExecutionState) :=
  {| current_state := current_state e; user_prompt := user_prompt e;
     clarifying_questions := clarifying_questions e;
     clarifying_answers := clarifying_answers e;
     final_understanding := final_understanding e;
     credentials_required := credentials_required e;
     credentials_provided := credentials_provided e;
     workflow_blueprint := v;
     validation_errors := validation_errors e;
     retry_count := retry_count e; last_error := last_error e;
     debug_mode := debug_mode e; state_history := state_history e |}.

Definition set_validation_errors (v : list ValidationError) (e : ExecutionState) :=
  {| current_state := current_state e; user_prompt := user_prompt e;
     clarifying_questions := clarifying_questions e;
     clarifying_answers := clarifying_answers e;
     final_understanding := final_understanding e;
     credentials_required := credentials_required e;
     credentials_provided := credentials_provided e;
     workflow_blueprint := workflow_blueprint e;
     validation_errors := v;
     retry_count := retry_count e; last_error := last_error e;
     debug_mode := debug_mode e; state_history := state_history e |}.

Definition set_retry_count (v : nat) (e : ExecutionState) :=
  {| current_state := current_state e; user_prompt := user_prompt e;
     clarifying_questions := clarifying_questions e;
     clarifying_answers := clarifying_answers e;
     final_understanding := final_understanding e;
     credentials_required := credentials_required e;
     credentials_provided := credentials_provided e;
     workflow_blueprint := workflow_blueprint e;
     validation_errors := validation_errors e;
     retry_count := v; last_error := last_error e;
     debug_mode := debug_mode e; state_history := state_history e |}.

Definition set_last_error (v : option string) (e : ExecutionState) :=
  {| current_state := current_state e; user_prompt := user_prompt e;
     clarifying_questions := clarifying_questions e;
     clarifying_answers := clarifying_answers e;
     final_understanding := final_understanding e;
     credentials_required := credentials_required e;
     credentials_provided := credentials_provided e;
     workflow_blueprint := workflow_blueprint e;
     validation_errors := validation_errors e;
     retry_count := retry_count e; last_error := v;
     debug_mode := debug_mode e; state_history := state_history e |}.

Definition set_state_history (v : list HistoryEntry) (e : ExecutionState) :=
  {| current_state := current_state e; user_prompt := user_prompt e;
     clarifying_questions := clarifying_questions e;
     clarifying_answers := clarifying_answers e;
     final_understanding := final_understanding e;
     credentials_required := credentials_required e;
     credentials_provided := credentials_provided e;
     workflow_blueprint := workflow_blueprint e;
     validation_errors := validation_errors e;
     retry_count := retry_count e; last_error := last_error e;
     debug_mode := debug_mode e; state_history := v |}.

(** ** The world and the monad of method calls *)

(** [executionState] and [debugMode] are the private fields of the manager;
    [console] collects the console calls made so far and [dates] counts the
    clock readings made so far. *)
Record World : Type := {
  executionState : ExecutionState;
  debugMode : bool;
  console : list ConsoleCall;
  dates : nat;
}.

Definition M (A : Type) : Type := World → Completion A * World.

Definition ret {A : Type} (a : A) : M A := λ w, (Normal a, w).

Definition throw {A : Type} (msg : string) : M A := λ w, (Throw msg, w).

Definition bind {A B : Type} (m : M A) (k : A → M B) : M B :=
  λ w, match m w with
       | (Normal a, w') => k a w'
       | (Throw msg, w') => (Throw msg, w')
       end.

Notation "'let*' x ':=' m 'in' k" := (bind m (λ x, k))
  (at level 10, x name, m at level 100, k at level 200).
Notation "m1 ';;' m2" := (bind m1 (λ _, m2))
  (at level 100, m2 at level 200, right associativity).

(** Reading [this.executionState] and [this.debugMode]. *)
Definition get_state : M ExecutionState := λ w, (Normal (executionState w), w).
Definition get_debugMode : M bool := λ w, (Normal (debugMode w), w).

(** Writing [this.executionState]: a field assignment or a whole new
    object. *)
Definition modify (f : ExecutionState → ExecutionState) : M unit :=
  λ w, (Normal (),
        {| executionState := f (executionState w); debugMode := debugMode w;
           console := console w; dates := dates w |}).

(** [new Date().toISOString()]. *)
Definition new_Date_toISOString : M string :=
  λ w, (Normal (clock (dates w)),
        {| executionState := executionState w; debugMode := debugMode w;
           console := console w; dates := S (dates w) |}).

Definition console_call (lvl : ConsoleLevel) (args : list string) : M unit :=
  λ w, (Normal (),
        {| executionState := executionState w; debugMode := debugMode w;
           console := console w ++ [ {| c_level := lvl; c_args := args |} ];
           dates := dates w |}).

(** [if (this.debugMode) { body }]. *)
Definition when_debug (body : M unit) : M unit :=
  let* d := get_debugMode in if d then body else ret ().

Definition ok : OpResult := {| success := true; error := None |}.
Definition failure (msg : string) : OpResult :=
  {| success := false; error := Some msg |}.

(** ** Construction *)

(** The object literal of [initializeState], given the value of
    [this.debugMode] and the clock reading. *)
Definition initial_record (d : bool) (ts : string) : ExecutionState :=
  {| current_state := STATE_0_IDLE;
     user_prompt := "";
     clarifying_questions := [];
     clarifying_answers := ∅;
     final_understanding := "";
     credentials_required := [];
     credentials_provided := ∅;
     workflow_blueprint := empty_blueprint;
     validation_errors := [];
     retry_count := 0;
     last_error := None;
     debug_mode := Some d;
     state_history :=
       [ {| h_state := STATE_0_IDLE; h_timestamp := ts;
            h_reason := Some "Initialized" |} ] |}.

Definition initializeState : M ExecutionState :=
  let* d := get_debugMode in
  let* ts := new_Date_toISOString in
  ret (initial_record d ts).

(** [new WorkflowGenerationStateManager(debugMode)] in a world with an empty
    console and an unread clock. *)
Definition constructor (d : bool) : World :=
  {| executionState := initial_record d (clock 0); debugMode := d;
     console := []; dates := 1 |}.

(** ** The transition primitive *)

Definition canTransitionTo (newState : WorkflowGenerationState) : M Validation :=
  let* e := get_state in
  let currentState := current_state e in
  let allowedStates := ALLOWED_TRANSITIONS currentState in
  if bool_decide (newState ∈ allowedStates) then
    ret {| valid := true; v_reason := None |}
  else
    ret {| valid := false;
           v_reason := Some ("Invalid transition from " +:+ enum_value currentState
                             +:+ " to " +:+ enum_value newState
                             +:+ ". Allowed states: "
                             +:+ join ", " (enum_value <$> allowedStates)) |}.

(** [state_history[state_history.length - 2]?.state] inside a template
    literal: the state of the entry before the last one, or [undefined] when
    there is none. *)
Definition previous_state_text (h : list HistoryEntry) : string :=
  match reverse h with
  | _ :: prev :: _ => enum_value (h_state prev)
  | _ => "undefined"
  end.

Definition transitionTo (newState : WorkflowGenerationState)
    (reason : option string) : M OpResult :=
  let* validation := canTransitionTo newState in
  if negb (valid validation) then
    let error := or_else (v_reason validation) "Invalid state transition" in
    when_debug (console_call ConsoleError [ "[StateManager] " +:+ error ]) ;;
    ret (failure error)
  else
    let* ts := new_Date_toISOString in
    modify (λ e, set_state_history
                   (state_history e ++
                      [ {| h_state := newState; h_timestamp := ts;
                           h_reason := Some (or_else reason "State transition") |} ])
                   e) ;;
    modify (set_current_state newState) ;;
    when_debug
      (let* e := get_state in
       console_call ConsoleLog
         [ "[StateManager] Transitioned: " +:+ previous_state_text (state_history e)
             +:+ " → " +:+ enum_value newState;
           if truthy reason then "(" +:+ or_else reason "" +:+ ")" else "" ]) ;;
    ret ok.

(** ** The guarded operations *)

Definition setUserPrompt (prompt : string) : M unit :=
  let* e := get_state in
  if negb (bool_decide (current_state e = STATE_0_IDLE)) then
    throw "Can only set user prompt from IDLE state"
  else
    modify (set_user_prompt prompt) ;;
    transitionTo STATE_1_USER_PROMPT_RECEIVED (Some "User prompt received") ;;
    ret ().

Definition setClarifyingQuestions (questions : list ClarifyingQuestion) : M unit :=
  modify (set_clarifying_questions questions) ;;
  let* e := get_state in
  if bool_decide (current_state e = STATE_1_USER_PROMPT_RECEIVED) then
    transitionTo STATE_2_CLARIFICATION_ACTIVE (Some "Clarifying questions generated") ;;
    ret ()
  else ret ().

Definition setClarifyingAnswers (answers : gmap string string) : M unit :=
  modify (set_clarifying_answers answers).

Definition confirmUnderstanding (finalUnderstanding : string) : M OpResult :=
  let* e := get_state in
  if negb (bool_decide (current_state e = STATE_2_CLARIFICATION_ACTIVE)) then
    ret (failure "Can only confirm understanding from CLARIFICATION_ACTIVE state")
  else
    modify (set_final_understanding finalUnderstanding) ;;
    transitionTo STATE_3_UNDERSTANDING_CONFIRMED (Some "Understanding confirmed by user").

Definition setRequiredCredentials (credentials : list string) : M unit :=
  modify (set_credentials_required credentials) ;;
  let* e := get_state in
  if bool_decide (current_state e = STATE_3_UNDERSTANDING_CONFIRMED) then
    transitionTo STATE_4_CREDENTIAL_COLLECTION (Some "Credentials required identified") ;;
    ret ()
  else if bool_decide (current_state e = STATE_5_WORKFLOW_BUILDING) then
    transitionTo STATE_4_CREDENTIAL_COLLECTION
      (Some "Credentials required detected during building") ;;
    ret ()
  else ret ().

Definition setProvidedCredentials (credentials : gmap string string) : M unit :=
  modify (set_credentials_provided credentials).

(** The predicate of the [filter] in [startBuilding]: reading
    [credentials_provided] under the credential's name gives nothing truthy,
    and neither does reading it under the lower-cased name. *)
Definition is_missing (provided : gmap string string) (cred : string) : bool :=
  negb (truthy_value (get_property provided cred))
  && negb (truthy_value
             (get_property provided (replace_underscores (toLowerCase cred)))).

Definition missingCredentials (e : ExecutionState) : list string :=
  List.filter (is_missing (credentials_provided e)) (credentials_required e).

Definition startBuilding : M OpResult :=
  let* e := get_state in
  (* first guard: [Some r] stands for an early [return r] *)
  let* early :=
    (if (0 <? length (credentials_required e))%nat then
       if (0 <? length (missingCredentials e))%nat then
         ret (Some (failure ("Cannot build workflow: Missing required credentials: "
                             +:+ join ", " (missingCredentials e))))
       else ret None
     else ret None) in
  match early with
  | Some r => ret r
  | None =>
      if negb (truthy (Some (final_understanding e))) then
        ret (failure "Cannot build workflow: Understanding not confirmed")
      else
        transitionTo STATE_5_WORKFLOW_BUILDING (Some "Workflow building started")
  end.

Definition setWorkflowBlueprint (blueprint : Blueprint) : M unit :=
  modify (set_workflow_blueprint blueprint) ;;
  transitionTo STATE_6_WORKFLOW_VALIDATION (Some "Workflow blueprint generated") ;;
  ret ().

Definition addValidationError (err : ValidationError) : M unit :=
  modify (λ e, set_validation_errors (validation_errors e ++ [ err ]) e).

Definition clearValidationErrors : M unit :=
  modify (set_validation_errors []).

Definition retryBuilding : M OpResult :=
  let* e := get_state in
  if (3 <=? retry_count e)%nat then
    ret (failure "Maximum retry count (3) reached. Moving to error handling.")
  else
    modify (λ e, set_retry_count (retry_count e + 1) e) ;;
    modify (set_workflow_blueprint empty_blueprint) ;;
    clearValidationErrors ;;
    when_debug
      (let* e := get_state in
       console_call ConsoleLog
         [ "[StateManager] Retry attempt " +:+ pretty (retry_count e) +:+ "/3" ]) ;;
    let* e := get_state in
    transitionTo STATE_5_WORKFLOW_BUILDING
      (Some ("Retry " +:+ pretty (retry_count e) +:+ "/3")).

(** [!blueprint.nodes || blueprint.nodes.length === 0]: an array is truthy
    whatever its length. *)
Definition no_nodes (b : Blueprint) : bool :=
  match nodes b with
  | None => true
  | Some l => (length l =? 0)%nat
  end.

Definition markWorkflowReady : M OpResult :=
  let* e := get_state in
  if (0 <? length (validation_errors e))%nat then
    ret (failure ("Cannot mark workflow as ready: "
                  +:+ pretty (length (validation_errors e))
                  +:+ " validation errors remain"))
  else if no_nodes (workflow_blueprint e) then
    ret (failure "Cannot mark workflow as ready: No workflow blueprint")
  else
    transitionTo STATE_7_WORKFLOW_READY (Some "Workflow validated and ready").

Definition handleError (err : string) : M unit :=
  modify (set_last_error (Some err)) ;;
  transitionTo STATE_ERROR_HANDLING (Some ("Error: " +:+ err)) ;;
  ret ().

Definition reset : M unit :=
  let* e := initializeState in
  modify (λ _, e) ;;
  when_debug (console_call ConsoleLog [ "[StateManager] State reset to IDLE" ]).

(** ** Read-only accessors *)

(** [getExecutionState] returns a copy of the aggregate; values are
    immutable here, so the copy is the value. *)
Definition getExecutionState : M ExecutionState := get_state.

Definition getCurrentState : M WorkflowGenerationState :=
  let* e := get_state in ret (current_state e).

Definition getStateHistory : M (list HistoryEntry) :=
  let* e := get_state in ret (state_history e).

Definition isTerminalState : M bool :=
  let* e := get_state in
  ret (bool_decide (current_state e = STATE_7_WORKFLOW_READY)
       || bool_decide (current_state e = STATE_ERROR_HANDLING)).

(** ** Orchestration helpers *)

Definition ensureStateForBuilding : M OpResult :=
  let* e := get_state in
  let currentState := current_state e in
  if bool_decide (currentState = STATE_0_IDLE)
     || bool_decide (currentState = STATE_1_USER_PROMPT_RECEIVED) then
    ret (failure "Cannot build: Understanding not confirmed")
  else
    (* step 2: [Some r] stands for an early [return r] *)
    let* early :=
      (if bool_decide (currentState = STATE_2_CLARIFICATION_ACTIVE) then
         if negb (truthy (Some (final_understanding e))) then
           ret (Some (failure "Cannot build: Final understanding not set"))
         else
           let* transitionResult := confirmUnderstanding (final_understanding e) in
           if negb (success transitionResult) then ret (Some transitionResult)
           else ret None
       else ret None) in
    match early with
    | Some r => ret r
    | None =>
        let* e := get_state in
        let newState := current_state e in
        (* step 3 *)
        let* early :=
          (if bool_decide (newState = STATE_3_UNDERSTANDING_CONFIRMED) then
             if (0 <? length (credentials_required e))%nat then
               let* transitionResult :=
                 transitionTo STATE_4_CREDENTIAL_COLLECTION
                   (Some "Moving to credential collection") in
               if negb (success transitionResult) then ret (Some transitionResult)
               else ret None
             else
               let* r := startBuilding in ret (Some r)
           else ret None) in
        match early with
        | Some r => ret r
        | None =>
            let* e := get_state in
            (* step 4 *)
            if bool_decide (current_state e = STATE_4_CREDENTIAL_COLLECTION) then
              startBuilding
            (* step 5 *)
            else if bool_decide (current_state e = STATE_5_WORKFLOW_BUILDING)
                    || bool_decide (current_state e = STATE_6_WORKFLOW_VALIDATION)
                    || bool_decide (current_state e = STATE_7_WORKFLOW_READY) then
              ret ok
            else
              ret (failure ("Invalid state for building: "
                            +:+ enum_value (current_state e)))
        end
    end.

Definition moveToValidation (blueprint : Blueprint) : M OpResult :=
  let* e := get_state in
  let currentState := current_state e in
  let* early :=
    (if negb (bool_decide (currentState = STATE_5_WORKFLOW_BUILDING)) then
       let* buildResult := ensureStateForBuilding in
       if negb (success buildResult) then ret (Some buildResult) else ret None
     else ret None) in
  match early with
  | Some r => ret r
  | None =>
      modify (set_workflow_blueprint blueprint) ;;
      transitionTo STATE_6_WORKFLOW_VALIDATION (Some "Workflow blueprint generated")
  end.

Definition moveToReady : M OpResult :=
  let* e := get_state in
  let currentState := current_state e in
  if bool_decide (currentState = STATE_6_WORKFLOW_VALIDATION) then
    markWorkflowReady
  else if bool_decide (currentState = STATE_5_WORKFLOW_BUILDING) then
    let* valResult := moveToValidation (workflow_blueprint e) in
    if negb (success valResult) then ret valResult
    else markWorkflowReady
  else
    ret (failure ("Cannot mark ready from state: " +:+ enum_value currentState)).

(** ** Calls on the manager *)

(** The operations of the guarded operation set, with their arguments. *)
Inductive GuardedOp : Type :=
  | SetUserPrompt (prompt : string)
  | SetClarifyingQuestions (questions : list ClarifyingQuestion)
  | SetClarifyingAnswers (answers : gmap string string)
  | ConfirmUnderstanding (finalUnderstanding : string)
  | SetRequiredCredentials (credentials : list string)
  | SetProvidedCredentials (credentials : gmap string string)
  | StartBuilding
  | SetWorkflowBlueprint (blueprint : Blueprint)
  | AddValidationError (err : ValidationError)
  | ClearValidationErrors
  | RetryBuilding
  | MarkWorkflowReady
  | HandleError (err : string)
  | Reset.

(** Every public method that can write to the manager. *)
Inductive Call : Type :=
  | Guarded (op : GuardedOp)
  | TransitionTo (newState : WorkflowGenerationState) (reason : option string)
  | EnsureStateForBuilding
  | MoveToValidation (blueprint : Blueprint)
  | MoveToReady.

(** Methods declared [void] return nothing; the others return an
    [OpResult]. *)
Definition void (m : M unit) : M (option OpResult) := m ;; ret None.
Definition returning (m : M OpResult) : M (option OpResult) :=
  let* r := m in ret (Some r).

Definition invoke_op (op : GuardedOp) : M (option OpResult) :=
  match op with
  | SetUserPrompt prompt => void (setUserPrompt prompt)
  | SetClarifyingQuestions questions => void (setClarifyingQuestions questions)
  | SetClarifyingAnswers answers => void (setClarifyingAnswers answers)
  | ConfirmUnderstanding u => returning (confirmUnderstanding u)
  | SetRequiredCredentials credentials => void (setRequiredCredentials credentials)
  | SetProvidedCredentials credentials => void (setProvidedCredentials credentials)
  | StartBuilding => returning startBuilding
  | SetWorkflowBlueprint blueprint => void (setWorkflowBlueprint blueprint)
  | AddValidationError err => void (addValidationError err)
  | ClearValidationErrors => void clearValidationErrors
  | RetryBuilding => returning retryBuilding
  | MarkWorkflowReady => returning markWorkflowReady
  | HandleError err => void (handleError err)
  | Reset => void reset
  end.

Definition invoke (c : Call) : M (option OpResult) :=
  match c with
  | Guarded op => invoke_op op
  | TransitionTo newState reason => returning (transitionTo newState reason)
  | EnsureStateForBuilding => returning ensureStateForBuilding
  | MoveToValidation blueprint => returning (moveToValidation blueprint)
  | MoveToReady => returning moveToReady
  end.

(** A call failed when it threw or returned [{ success: false }]. *)
Definition failed (c : Completion (option OpResult)) : bool :=
  match c with
  | Throw _ => true
  | Normal (Some r) => negb (success r)
  | Normal None => false
  end.

(** The world after a call, and after a sequence of calls made by a caller
    that catches what is thrown. *)
Definition after (c : Call) (w : World) : World := (invoke c w).2.

Definition run (cs : list Call) (w : World) : World :=
  foldl (λ w c, after c w) w cs.

(** The value a method call completes with, and the world it leaves. *)
Definition result_of {A : Type} (m : M A) (w : World) : Completion A := (m w).1.
Definition world_of {A : Type} (m : M A) (w : World) : World := (m w).2.

(** ** Notions used to state the properties *)

(** [allowed s t]: the table lists [t] under [s]. *)
Definition allowed (s t : WorkflowGenerationState) : bool :=
  bool_decide (t ∈ ALLOWED_TRANSITIONS s).

(** The message of a rejected transition from [s] to [t]. *)
Definition invalid_transition (s t : WorkflowGenerationState) : string :=
  "Invalid transition from " +:+ enum_value s +:+ " to " +:+ enum_value t
  +:+ ". Allowed states: " +:+ join ", " (enum_value <$> ALLOWED_TRANSITIONS s).

(** The entry a successful transition to [t] at time [ts] appends. *)
Definition entry (t : WorkflowGenerationState) (reason : option string)
    (ts : string) : HistoryEntry :=
  {| h_state := t; h_timestamp := ts;
     h_reason := Some (or_else reason "State transition") |}.

(** The execution state after a successful transition to [t] at time [ts]:
    one entry appended, [current_state] moved, nothing else touched. *)
Definition committed (t : WorkflowGenerationState) (reason : option string)
    (ts : string) (e : ExecutionState) : ExecutionState :=
  set_current_state t
    (set_state_history (state_history e ++ [ entry t reason ts ]) e).

(** What a transition attempt prints in debug mode. *)
Definition transition_trace (t : WorkflowGenerationState) (reason : option string)
    (e : ExecutionState) (ts : string) : ConsoleCall :=
  if allowed (current_state e) t then
    {| c_level := ConsoleLog;
       c_args :=
         [ "[StateManager] Transitioned: "
             +:+ previous_state_text (state_history (committed t reason ts e))
             +:+ " → " +:+ enum_value t;
           if truthy reason then "(" +:+ or_else reason "" +:+ ")" else "" ] |}
  else
    {| c_level := ConsoleError;
       c_args := [ "[StateManager] " +:+ invalid_transition (current_state e) t ] |}.

(** The state of the first entry of the history, if there is one. *)
Definition first_state (e : ExecutionState) : option WorkflowGenerationState :=
  h_state <$> head (state_history e).

(** [preserves P m]: running [m] keeps the property [P] of the execution
    state, whatever [m] returns or throws. *)
Definition preserves (P : ExecutionState → Prop) {A : Type} (m : M A) : Prop :=
  ∀ w, P (executionState w) → P (executionState (m w).2).

(** The history starts with an Idle entry. *)
Definition starts_idle (e : ExecutionState) : Prop :=
  first_state e = Some STATE_0_IDLE.

(** The three writes [retryBuilding] makes once its budget guard has passed,
    before it asks for the transition. *)
Definition retry_writes (e : ExecutionState) : ExecutionState :=
  set_validation_errors []
    (set_workflow_blueprint empty_blueprint
       (set_retry_count (retry_count e + 1) e)).

Definition retry_exhausted : string :=
  "Maximum retry count (3) reached. Moving to error handling.".

(** ** Sample runs *)

(** A manager constructed with [debugMode = false]. *)
Definition fresh : World := constructor false.

(** Calls that take a fresh manager to UnderstandingConfirmed. *)
Definition to_confirmed : list Call :=
  [ Guarded (SetUserPrompt "post new orders to a channel");
    Guarded (SetClarifyingQuestions []);
    Guarded (ConfirmUnderstanding "post every new order to a channel") ].

Definition one_node (node : any) : Blueprint :=
  {| nodes := Some [ node ]; edges := Some []; structure := None |}.

(** Calls that take a fresh manager to WorkflowValidation with a blueprint
    of one node. *)
Definition to_validation (node : any) : list Call :=
  to_confirmed
  ++ [ Guarded StartBuilding; Guarded (SetWorkflowBlueprint (one_node node)) ].

Definition in_confirmed : World := run to_confirmed fresh.
Definition in_validation (node : any) : World := run (to_validation node) fresh.
Definition in_ready (node : any) : World :=
  run (to_validation node ++ [ Guarded MarkWorkflowReady ]) fresh.

(** A manager in WorkflowValidation whose blueprint is [{}]. *)
Definition in_validation_without_nodes : World :=
  run (to_confirmed
       ++ [ Guarded StartBuilding; Guarded (SetWorkflowBlueprint empty_blueprint) ])
    fresh.

(** A manager in WorkflowValidation with one validation error recorded. *)
Definition in_validation_with_error (node : any) : World :=
  run (to_validation node ++ [ Guarded (AddValidationError sample_error) ]) fresh.

(** A fresh manager told that google and slack are required and given a
    google token. *)
Definition slack_missing : World :=
  run [ Guarded (SetRequiredCredentials [ "google"; "slack" ]);
        Guarded (SetProvidedCredentials {[ "google" := "token" ]}) ] fresh.

(** A manager in CredentialCollection that requires [Google] and was given a
    token under [google]. *)
Definition google_capitalised : World :=
  run (to_confirmed
       ++ [ Guarded (SetProvidedCredentials {[ "google" := "token" ]});
            Guarded (SetRequiredCredentials [ "Google" ]) ]) fresh.

(** ** Notions used to state further properties *)

(** The states the history went through, oldest first. *)
Definition history_states (e : ExecutionState) : list WorkflowGenerationState :=
  h_state <$> state_history e.

(** Every step of a list of states is an edge of the table. *)
Definition legal_path (l : list WorkflowGenerationState) : Prop :=
  Forall (λ p, p.2 ∈ ALLOWED_TRANSITIONS p.1) (consecutive l).

(** The history begins in Idle, ends in the current state, and each of its
    steps is an edge of the table. *)
Definition history_is_a_path (e : ExecutionState) : Prop :=
  head (history_states e) = Some STATE_0_IDLE
  ∧ last (history_states e) = Some (current_state e)
  ∧ legal_path (history_states e).

(** What a call may write besides a table-checked transition, the final
    understanding and the blueprint: [writes_keep P c] says that the writes
    particular to the call [c] keep the property [P]. *)
Definition writes_keep (P : ExecutionState → Prop) (c : Call) : Prop :=
  match c with
  | Guarded (SetUserPrompt prompt) =>
      ∀ e, current_state e = STATE_0_IDLE → P e → P (set_user_prompt prompt e)
  | Guarded (SetClarifyingQuestions questions) =>
      ∀ e, P e → P (set_clarifying_questions questions e)
  | Guarded (SetClarifyingAnswers answers) =>
      ∀ e, P e → P (set_clarifying_answers answers e)
  | Guarded (SetRequiredCredentials credentials) =>
      ∀ e, P e → P (set_credentials_required credentials e)
  | Guarded (SetProvidedCredentials credentials) =>
      ∀ e, P e → P (set_credentials_provided credentials e)
  | Guarded (AddValidationError err) =>
      ∀ e, P e → P (set_validation_errors (validation_errors e ++ [ err ]) e)
  | Guarded ClearValidationErrors =>
      ∀ e, P e → P (set_validation_errors [] e)
  | Guarded RetryBuilding =>
      ∀ e, retry_count e < 3 → P e → P (retry_writes e)
  | Guarded (HandleError err) =>
      ∀ e, P e → P (set_last_error (Some err) e)
  | Guarded Reset =>
      ∀ d ts, P (initial_record d ts)
  | _ => True
  end.

(** [keeps Q m]: running [m] keeps the property [Q] of the whole world. *)
Definition keeps (Q : World → Prop) {A : Type} (m : M A) : Prop :=
  ∀ w, Q w → Q (m w).2.

(** Debug mode is off and the console holds exactly [c]. *)
Definition quiet (c : list ConsoleCall) (w : World) : Prop :=
  debugMode w = false ∧ console w = c.

(** ** More sample runs *)

Definition in_prompt_received : World :=
  run [ Guarded (SetUserPrompt "post new orders to a channel") ] fresh.

(** ClarificationActive, no final understanding yet. *)
Definition in_clarification : World :=
  run [ Guarded (SetUserPrompt "post new orders to a channel");
        Guarded (SetClarifyingQuestions []) ] fresh.

Definition in_building : World := run (to_confirmed ++ [ Guarded StartBuilding ]) fresh.

(** WorkflowBuilding, with a slack token provided although nothing is
    required yet. *)
Definition in_building_with_slack_provided : World :=
  run [ Guarded (SetProvidedCredentials {[ "slack" := "xoxb" ]}) ] in_building.

(** CredentialCollection, with a required credential called [constructor]
    and nothing provided. *)
Definition constructor_required : World :=
  run (to_confirmed ++ [ Guarded (SetRequiredCredentials [ "constructor" ]) ])
    fresh.

(** ErrorHandling, entered from WorkflowValidation. *)
Definition in_error (node : any) : World :=
  run (to_validation node ++ [ Guarded (HandleError "validation crashed") ]) fresh.

(** ClarificationActive again, for an edit, with the final understanding of
    the first confirmation still set. *)
Definition editing : World :=
  run (to_confirmed
       ++ [ TransitionTo STATE_2_CLARIFICATION_ACTIVE (Some "edit") ]) fresh.

(** The same, with slack required: once provided, once not. *)
Definition editing_with_slack_provided : World :=
  run [ Guarded (SetRequiredCredentials [ "slack" ]);
        Guarded (SetProvidedCredentials {[ "slack" := "xoxb" ]}) ] editing.

Definition editing_with_slack_missing : World :=
  run [ Guarded (SetRequiredCredentials [ "slack" ]) ] editing.



(** A manager constructed with [debugMode = true]. *)
Definition fresh_debugging : World := constructor true.

(** * Properties *)

(** ** The transition primitive *)

Lemma or_else_invalid_transition s t d :
  or_else (Some (invalid_transition s t)) d = invalid_transition s t.
Proof. destruct s; reflexivity. Qed.

Lemma canTransitionTo_eq t w :
  canTransitionTo t w =
    (Normal (if allowed (current_state (executionState w)) t
             then {| valid := true; v_reason := None |}
             else {| valid := false;
                     v_reason := Some (invalid_transition
                                         (current_state (executionState w)) t) |}),
     w).
Proof.
  unfold canTransitionTo, bind, get_state, allowed, invalid_transition.
  destruct (bool_decide _); reflexivity.
Qed.

(** The complete effect of [transitionTo] on the world. *)
Lemma transitionTo_eq t reason w :
  transitionTo t reason w =
    let e := executionState w in
    let ts := clock (dates w) in
    (Normal (if allowed (current_state e) t then ok
             else failure (invalid_transition (current_state e) t)),
     {| executionState := if allowed (current_state e) t
                          then committed t reason ts e else e;
        debugMode := debugMode w;
        console := if debugMode w
                   then console w ++ [ transition_trace t reason e ts ]
                   else console w;
        dates := if allowed (current_state e) t then S (dates w) else dates w |}).
Proof.
  unfold transitionTo, transition_trace, bind at 1. rewrite canTransitionTo_eq.
  destruct w as [e d c n]. cbn [executionState debugMode console dates].
  destruct (allowed _ t); cbn [valid v_reason negb].
  - unfold bind, new_Date_toISOString, modify, when_debug, get_debugMode, get_state, console_call, ret.
    destruct d; reflexivity.
  - rewrite or_else_invalid_transition.
    unfold bind, when_debug, get_debugMode, console_call, ret.
    destruct d; reflexivity.
Qed.

Lemma transitionTo_result t reason w :
  result_of (transitionTo t reason) w =
    Normal (if allowed (current_state (executionState w)) t then ok
            else failure (invalid_transition (current_state (executionState w)) t)).
Proof. unfold result_of. rewrite transitionTo_eq. reflexivity. Qed.

Lemma transitionTo_state t reason w :
  executionState (world_of (transitionTo t reason) w) =
    if allowed (current_state (executionState w)) t
    then committed t reason (clock (dates w)) (executionState w)
    else executionState w.
Proof. unfold world_of. rewrite transitionTo_eq. reflexivity. Qed.

Lemma allowed_table_edges s t : allowed s t = bool_decide ((s, t) ∈ table_edges).
Proof. destruct s, t; vm_compute; reflexivity. Qed.

Lemma allowed_elem_of s t : allowed s t = true ↔ t ∈ ALLOWED_TRANSITIONS s.
Proof. unfold allowed. apply bool_decide_eq_true. Qed.

(** C4 (as amended): the legal transitions are exactly the pipeline order,
    the three deviations the specification names, the two exits of
    ErrorHandling, and three more edges: UnderstandingConfirmed back to
    ClarificationActive, WorkflowValidation back to WorkflowBuilding, and
    WorkflowValidation to ErrorHandling.  WorkflowReady has no successor,
    ErrorHandling is listed as a successor of WorkflowValidation and of no
    other state, and [canTransitionTo] answers valid exactly on these edges,
    for all 81 pairs of states. *)
Theorem legal_transitions_are_the_table_edges :
  (∀ s t, t ∈ ALLOWED_TRANSITIONS s ↔ (s, t) ∈ table_edges)
  ∧ ALLOWED_TRANSITIONS STATE_7_WORKFLOW_READY = []
  ∧ (∀ s, STATE_ERROR_HANDLING ∈ ALLOWED_TRANSITIONS s
          ↔ s = STATE_6_WORKFLOW_VALIDATION)
  ∧ (∀ (w : World) t,
       ∃ v, canTransitionTo t w = (Normal v, w)
            ∧ (valid v = true
               ↔ (current_state (executionState w), t) ∈ table_edges)).
Proof.
  split; [| split; [| split]].
  - intros s t. rewrite <- allowed_elem_of, allowed_table_edges.
    apply bool_decide_eq_true.
  - reflexivity.
  - intros s. rewrite <- allowed_elem_of. split.
    + destruct s; vm_compute; congruence.
    + intros ->. reflexivity.
  - intros w t. rewrite canTransitionTo_eq. eexists. split; [reflexivity |].
    rewrite <- (bool_decide_eq_true (_ ∈ table_edges)), <- allowed_table_edges.
    destruct (allowed _ t); cbn; split; congruence.
Qed.

(** ** Preservation through the monad *)

Section Preservation.

Variable P : ExecutionState → Prop.

Lemma preserves_ret {A} (a : A) : preserves P (ret a).
Proof. intros w H. exact H. Qed.

Lemma preserves_throw {A} msg : preserves P (throw (A:=A) msg).
Proof. intros w H. exact H. Qed.

Lemma preserves_bind {A B} (m : M A) (k : A → M B) :
  preserves P m → (∀ a, preserves P (k a)) → preserves P (bind m k).
Proof.
  intros Hm Hk w H. unfold bind. specialize (Hm w H).
  destruct (m w) as [[a | msg] w1]; cbn in *.
  - apply Hk, Hm.
  - exact Hm.
Qed.

Lemma preserves_get_state : preserves P get_state.
Proof. intros w H. exact H. Qed.

Lemma preserves_get_debugMode : preserves P get_debugMode.
Proof. intros w H. exact H. Qed.

Lemma preserves_new_Date : preserves P new_Date_toISOString.
Proof. intros w H. exact H. Qed.

Lemma preserves_console_call lvl args : preserves P (console_call lvl args).
Proof. intros w H. exact H. Qed.

Lemma preserves_when_debug body : preserves P body → preserves P (when_debug body).
Proof.
  intros Hb. apply preserves_bind; [apply preserves_get_debugMode |].
  intros [|]; [exact Hb | apply preserves_ret].
Qed.

Lemma preserves_modify f : (∀ e, P e → P (f e)) → preserves P (modify f).
Proof. intros Hf w H. apply Hf, H. Qed.

Lemma preserves_canTransitionTo t : preserves P (canTransitionTo t).
Proof. intros w H. rewrite canTransitionTo_eq. exact H. Qed.

End Preservation.

(** Decomposes a preservation goal along the structure of the method body;
    what is left are the field writes and the calls of other methods. *)
Ltac preserve :=
  repeat match goal with
    | |- preserves _ (ret _) => apply preserves_ret
    | |- preserves _ (throw _) => apply preserves_throw
    | |- preserves _ get_state => apply preserves_get_state
    | |- preserves _ get_debugMode => apply preserves_get_debugMode
    | |- preserves _ new_Date_toISOString => apply preserves_new_Date
    | |- preserves _ (console_call _ _) => apply preserves_console_call
    | |- preserves _ (canTransitionTo _) => apply preserves_canTransitionTo
    | |- preserves _ (when_debug _) => apply preserves_when_debug
    | |- preserves _ (bind _ _) => apply preserves_bind; [| intros ?]
    | |- preserves _ (modify _) => apply preserves_modify; intros ? ?
    | |- preserves _ (if ?b then _ else _) => destruct b
    | |- preserves _ (match ?o with Some _ => _ | None => _ end) => destruct o
    end.

(** ** The first history entry *)

Lemma starts_idle_append (e : ExecutionState) h :
  starts_idle e →
  starts_idle (set_state_history (state_history e ++ h) e).
Proof.
  unfold starts_idle, first_state. cbn.
  destruct (state_history e); [discriminate | intros H; exact H].
Qed.

Lemma starts_idle_transitionTo t reason :
  preserves starts_idle (transitionTo t reason).
Proof.
  intros w H. rewrite transitionTo_eq. cbn.
  destruct (allowed _ t); [| exact H].
  exact (starts_idle_append _ _ H).
Qed.

Lemma starts_idle_reset w : starts_idle (executionState (reset w).2).
Proof.
  unfold reset, initializeState, bind, get_debugMode, new_Date_toISOString, ret, modify, when_debug.
  cbn. destruct (debugMode w); reflexivity.
Qed.

Lemma starts_idle_setUserPrompt p : preserves starts_idle (setUserPrompt p).
Proof. unfold setUserPrompt. preserve; auto using starts_idle_transitionTo. Qed.

Lemma starts_idle_setClarifyingQuestions q :
  preserves starts_idle (setClarifyingQuestions q).
Proof. unfold setClarifyingQuestions. preserve; auto using starts_idle_transitionTo. Qed.

Lemma starts_idle_confirmUnderstanding u :
  preserves starts_idle (confirmUnderstanding u).
Proof. unfold confirmUnderstanding. preserve; auto using starts_idle_transitionTo. Qed.

Lemma starts_idle_setRequiredCredentials c :
  preserves starts_idle (setRequiredCredentials c).
Proof. unfold setRequiredCredentials. preserve; auto using starts_idle_transitionTo. Qed.

Lemma starts_idle_startBuilding : preserves starts_idle startBuilding.
Proof. unfold startBuilding. preserve; auto using starts_idle_transitionTo. Qed.

Lemma starts_idle_setWorkflowBlueprint b :
  preserves starts_idle (setWorkflowBlueprint b).
Proof. unfold setWorkflowBlueprint. preserve; auto using starts_idle_transitionTo. Qed.

Lemma starts_idle_retryBuilding : preserves starts_idle retryBuilding.
Proof.
  unfold retryBuilding, clearValidationErrors.
  preserve; auto using starts_idle_transitionTo.
Qed.

Lemma starts_idle_markWorkflowReady : preserves starts_idle markWorkflowReady.
Proof. unfold markWorkflowReady. preserve; auto using starts_idle_transitionTo. Qed.

Lemma starts_idle_handleError err : preserves starts_idle (handleError err).
Proof. unfold handleError. preserve; auto using starts_idle_transitionTo. Qed.

Lemma starts_idle_ensureStateForBuilding :
  preserves starts_idle ensureStateForBuilding.
Proof.
  unfold ensureStateForBuilding.
  preserve;
    auto using starts_idle_transitionTo, starts_idle_confirmUnderstanding,
      starts_idle_startBuilding.
Qed.

Lemma starts_idle_moveToValidation b : preserves starts_idle (moveToValidation b).
Proof.
  unfold moveToValidation.
  preserve; auto using starts_idle_transitionTo, starts_idle_ensureStateForBuilding.
Qed.

Lemma starts_idle_moveToReady : preserves starts_idle moveToReady.
Proof.
  unfold moveToReady.
  preserve; auto using starts_idle_markWorkflowReady, starts_idle_moveToValidation.
Qed.

Lemma starts_idle_invoke c : preserves starts_idle (invoke c).
Proof.
  destruct c as [op | t reason | | b |]; cbn [invoke].
  - destruct op; cbn [invoke_op]; unfold void, returning;
      try (preserve;
           auto using starts_idle_setUserPrompt, starts_idle_setClarifyingQuestions,
             starts_idle_confirmUnderstanding, starts_idle_setRequiredCredentials,
             starts_idle_startBuilding, starts_idle_setWorkflowBlueprint,
             starts_idle_retryBuilding, starts_idle_markWorkflowReady,
             starts_idle_handleError; fail).
    + unfold setClarifyingAnswers. preserve. assumption.
    + unfold setProvidedCredentials. preserve. assumption.
    + unfold addValidationError. preserve. assumption.
    + unfold clearValidationErrors. preserve. assumption.
    + apply preserves_bind; [| intros ?; apply preserves_ret].
      intros w _. apply starts_idle_reset.
  - unfold returning. preserve. apply starts_idle_transitionTo.
  - unfold returning. preserve. apply starts_idle_ensureStateForBuilding.
  - unfold returning. preserve. apply starts_idle_moveToValidation.
  - unfold returning. preserve. apply starts_idle_moveToReady.
Qed.

Lemma starts_idle_run cs w :
  starts_idle (executionState w) → starts_idle (executionState (run cs w)).
Proof.
  revert w. induction cs as [| c cs IH]; intros w H; cbn; [exact H |].
  apply IH. apply starts_idle_invoke, H.
Qed.

(** C6: from every current state and for every target, [transitionTo] either
    succeeds, appending exactly one entry (the target, the clock reading, the
    reason) to [state_history] and setting [current_state] to the target
    while leaving every other field alone, or returns a structured failure
    without throwing and without changing any field.  So the history grows by
    one on success and by nothing on failure; and whatever calls follow the
    construction or a [reset], the first entry of the history is Idle. *)
Theorem transitionTo_appends_one_entry_or_changes_nothing :
  (∀ (w : World) t reason,
     let e := executionState w in
     let e' := executionState (world_of (transitionTo t reason) w) in
     (result_of (transitionTo t reason) w = Normal ok
      ∧ state_history e' =
          state_history e ++
            [ {| h_state := t; h_timestamp := clock (dates w);
                 h_reason := Some (or_else reason "State transition") |} ]
      ∧ current_state e' = t
      ∧ e' = committed t reason (clock (dates w)) e
      ∧ length (state_history e') = S (length (state_history e)))
     ∨ ((∃ msg, result_of (transitionTo t reason) w = Normal (failure msg))
        ∧ e' = e
        ∧ length (state_history e') = length (state_history e)))
  ∧ (∀ d cs,
       first_state (executionState (run cs (constructor d))) = Some STATE_0_IDLE)
  ∧ (∀ w cs,
       first_state (executionState (run cs (world_of reset w))) = Some STATE_0_IDLE).
Proof.
  split; [| split].
  - intros w t reason e e'. subst e e'.
    rewrite transitionTo_result, transitionTo_state.
    destruct (allowed _ t); [left | right].
    + repeat split; try reflexivity.
      cbn. rewrite length_app. cbn. lia.
    + repeat split; try reflexivity. eexists; reflexivity.
  - intros d cs. apply starts_idle_run. reflexivity.
  - intros w cs. apply starts_idle_run. apply starts_idle_reset.
Qed.

(** ** The guarded operations, as functions of the state before the call *)

Ltac step_through :=
  unfold world_of, result_of, bind, get_state, modify, ret, throw;
  cbn [executionState debugMode console dates fst snd];
  rewrite ?transitionTo_eq;
  cbn [executionState debugMode console dates fst snd].

Lemma handleError_state err w :
  executionState (world_of (handleError err) w) =
    let e := set_last_error (Some err) (executionState w) in
    if allowed (current_state (executionState w)) STATE_ERROR_HANDLING
    then committed STATE_ERROR_HANDLING (Some ("Error: " +:+ err))
           (clock (dates w)) e
    else e.
Proof. unfold handleError. step_through. reflexivity. Qed.

Lemma retryBuilding_eq w :
  let e := executionState w in
  let e1 := set_validation_errors []
              (set_workflow_blueprint empty_blueprint
                 (set_retry_count (retry_count e + 1) e)) in
  result_of retryBuilding w =
    Normal (if (3 <=? retry_count e)%nat
            then failure "Maximum retry count (3) reached. Moving to error handling."
            else if allowed (current_state e) STATE_5_WORKFLOW_BUILDING then ok
            else failure (invalid_transition (current_state e)
                            STATE_5_WORKFLOW_BUILDING))
  ∧ executionState (world_of retryBuilding w) =
      (if (3 <=? retry_count e)%nat then e
       else if allowed (current_state e) STATE_5_WORKFLOW_BUILDING
            then committed STATE_5_WORKFLOW_BUILDING
                   (Some ("Retry " +:+ pretty (retry_count e + 1) +:+ "/3"))
                   (clock (dates w)) e1
            else e1).
Proof.
  intros e e1. subst e e1. unfold retryBuilding, clearValidationErrors, when_debug,
    get_debugMode, console_call.
  step_through.
  destruct (3 <=? _)%nat; [split; reflexivity |].
  destruct (debugMode w); step_through; split; reflexivity.
Qed.

Lemma allowed_error_handling s :
  allowed s STATE_ERROR_HANDLING = bool_decide (s = STATE_6_WORKFLOW_VALIDATION).
Proof. destruct s; vm_compute; reflexivity. Qed.

(** C1 (what the code does): [handleError] always records the message in
    [last_error], but it moves to ErrorHandling and appends its history entry
    only when the current state is WorkflowValidation, the one state under
    which the table lists ErrorHandling; from every other state
    [current_state] and [state_history] stay as they were.  In particular a
    freshly constructed manager stays in Idle with its single history
    entry. *)
Theorem handleError_moves_only_from_validation :
  (∀ (w : World) err,
     let e := executionState w in
     let e' := executionState (world_of (handleError err) w) in
     let from_validation :=
       bool_decide (current_state e = STATE_6_WORKFLOW_VALIDATION) in
     last_error e' = Some err
     ∧ current_state e' =
         (if from_validation then STATE_ERROR_HANDLING else current_state e)
     ∧ state_history e' =
         (if from_validation
          then state_history e ++
                 [ entry STATE_ERROR_HANDLING (Some ("Error: " +:+ err))
                     (clock (dates w)) ]
          else state_history e))
  ∧ (∀ d err,
       let e' := executionState (world_of (handleError err) (constructor d)) in
       current_state e' = STATE_0_IDLE
       ∧ length (state_history e') = 1
       ∧ last_error e' = Some err).
Proof.
  split.
  - intros w err e e' fv. subst e e' fv.
    rewrite handleError_state, allowed_error_handling. cbn zeta.
    destruct (bool_decide _); repeat split; reflexivity.
  - intros d err e'. subst e'.
    rewrite handleError_state, allowed_error_handling. repeat split.
Qed.

(** Where each guarded operation can fail. *)

Lemma setUserPrompt_throws p w :
  failed (result_of (void (setUserPrompt p)) w) = true →
  executionState (world_of (void (setUserPrompt p)) w) = executionState w.
Proof.
  unfold void, setUserPrompt. step_through.
  case_bool_decide as E; cbn [negb]; step_through; [| reflexivity].
  discriminate.
Qed.

Lemma confirmUnderstanding_fails u w :
  failed (result_of (returning (confirmUnderstanding u)) w) = true →
  executionState (world_of (returning (confirmUnderstanding u)) w) = executionState w.
Proof.
  unfold returning, confirmUnderstanding. step_through.
  case_bool_decide as E; cbn [negb]; step_through; [| reflexivity].
  cbn [current_state set_final_understanding]. rewrite E. cbn. discriminate.
Qed.

Lemma startBuilding_eq w :
  let e := executionState w in
  result_of startBuilding w =
    Normal (if (0 <? length (credentials_required e))%nat
               && (0 <? length (missingCredentials e))%nat
            then failure ("Cannot build workflow: Missing required credentials: "
                          +:+ join ", " (missingCredentials e))
            else if negb (truthy (Some (final_understanding e)))
            then failure "Cannot build workflow: Understanding not confirmed"
            else if allowed (current_state e) STATE_5_WORKFLOW_BUILDING then ok
            else failure (invalid_transition (current_state e)
                            STATE_5_WORKFLOW_BUILDING))
  ∧ executionState (world_of startBuilding w) =
      (if (0 <? length (credentials_required e))%nat
          && (0 <? length (missingCredentials e))%nat
       then e
       else if negb (truthy (Some (final_understanding e))) then e
       else if allowed (current_state e) STATE_5_WORKFLOW_BUILDING
            then committed STATE_5_WORKFLOW_BUILDING
                   (Some "Workflow building started") (clock (dates w)) e
            else e).
Proof.
  intros e. subst e. unfold startBuilding. step_through.
  destruct (0 <? length (credentials_required _))%nat;
    [destruct (0 <? length (missingCredentials _))%nat |];
    cbn [andb]; step_through; try (split; reflexivity);
    destruct (negb _); step_through; split; reflexivity.
Qed.

Lemma markWorkflowReady_eq w :
  let e := executionState w in
  result_of markWorkflowReady w =
    Normal (if (0 <? length (validation_errors e))%nat
            then failure ("Cannot mark workflow as ready: "
                          +:+ pretty (length (validation_errors e))
                          +:+ " validation errors remain")
            else if no_nodes (workflow_blueprint e)
            then failure "Cannot mark workflow as ready: No workflow blueprint"
            else if allowed (current_state e) STATE_7_WORKFLOW_READY then ok
            else failure (invalid_transition (current_state e)
                            STATE_7_WORKFLOW_READY))
  ∧ executionState (world_of markWorkflowReady w) =
      (if (0 <? length (validation_errors e))%nat then e
       else if no_nodes (workflow_blueprint e) then e
       else if allowed (current_state e) STATE_7_WORKFLOW_READY
            then committed STATE_7_WORKFLOW_READY
                   (Some "Workflow validated and ready") (clock (dates w)) e
            else e).
Proof.
  intros e. subst e. unfold markWorkflowReady. step_through.
  destruct (0 <? _)%nat; [split; reflexivity |].
  destruct (no_nodes _); step_through; split; reflexivity.
Qed.

Lemma returning_result (m : M OpResult) w r :
  result_of m w = Normal r → result_of (returning m) w = Normal (Some r).
Proof.
  unfold result_of, returning, bind, ret. destruct (m w) as [[a | msg] w1]; cbn; congruence.
Qed.

Lemma returning_world (m : M OpResult) w :
  executionState (world_of (returning m) w) = executionState (world_of m w).
Proof.
  unfold world_of, returning, bind, ret. destruct (m w) as [[a | msg] w1]; reflexivity.
Qed.

(** C2 (as amended): when a guarded operation throws or returns a failure,
    the execution state is exactly as it was before the call, with one
    exception: [retryBuilding] called with budget left.  It increments
    [retry_count] and clears [workflow_blueprint] and [validation_errors]
    before it asks for the transition, so when the transition to
    WorkflowBuilding is then rejected it returns the failure with these three
    writes made and with [current_state] and [state_history] unchanged.  With
    the budget exhausted it fails with nothing changed. *)
Theorem failed_operation_changes_nothing_but_retry_writes :
  ∀ (w : World) (op : GuardedOp),
    failed (result_of (invoke_op op) w) = true →
    let e := executionState w in
    let e' := executionState (world_of (invoke_op op) w) in
    (op ≠ RetryBuilding → e' = e)
    ∧ (op = RetryBuilding → 3 ≤ retry_count e →
       e' = e ∧ result_of retryBuilding w = Normal (failure retry_exhausted))
    ∧ (op = RetryBuilding → retry_count e < 3 →
       e' = retry_writes e
       ∧ retry_count e' = retry_count e + 1
       ∧ workflow_blueprint e' = empty_blueprint
       ∧ validation_errors e' = []
       ∧ current_state e' = current_state e
       ∧ state_history e' = state_history e
       ∧ result_of retryBuilding w =
           Normal (failure (invalid_transition (current_state e)
                              STATE_5_WORKFLOW_BUILDING))).
Proof.
  intros w op Hfail e e'. subst e e'.
  destruct op; cbn [invoke_op] in *;
    try (split; [| split; intros ?; discriminate]; intros _).
  - (* setUserPrompt *) apply setUserPrompt_throws, Hfail.
  - (* setClarifyingQuestions *)
    exfalso. revert Hfail. unfold void, setClarifyingQuestions. step_through.
    case_bool_decide; step_through; discriminate.
  - (* setClarifyingAnswers *) discriminate Hfail.
  - (* confirmUnderstanding *) apply confirmUnderstanding_fails, Hfail.
  - (* setRequiredCredentials *)
    exfalso. revert Hfail. unfold void, setRequiredCredentials. step_through.
    repeat (case_bool_decide; step_through); discriminate.
  - (* setProvidedCredentials *) discriminate Hfail.
  - (* startBuilding *)
    destruct (startBuilding_eq w) as [R S]. cbn zeta in R, S.
    rewrite (returning_result _ _ _ R) in Hfail. rewrite returning_world, S.
    cbn [failed] in Hfail.
    repeat match goal with
           | |- context [if ?b then _ else _] => destruct b
           end; try reflexivity; discriminate.
  - (* setWorkflowBlueprint *)
    exfalso. revert Hfail. unfold void, setWorkflowBlueprint. step_through.
    discriminate.
  - (* addValidationError *) discriminate Hfail.
  - (* clearValidationErrors *) discriminate Hfail.
  - (* retryBuilding *)
    destruct (retryBuilding_eq w) as [R S]. cbn zeta in R, S.
    rewrite (returning_result _ _ _ R) in Hfail. rewrite returning_world, S, R.
    cbn [failed] in Hfail. split; [congruence |]. split; intros _ Hn.
    + apply Nat.leb_le in Hn. rewrite Hn. split; reflexivity.
    + apply Nat.leb_gt in Hn. rewrite Hn in *.
      destruct (allowed _ _); [discriminate |]. repeat split.
  - (* markWorkflowReady *)
    destruct (markWorkflowReady_eq w) as [R S]. cbn zeta in R, S.
    rewrite (returning_result _ _ _ R) in Hfail. rewrite returning_world, S.
    cbn [failed] in Hfail.
    repeat match goal with
           | |- context [if ?b then _ else _] => destruct b
           end; try reflexivity; discriminate.
  - (* handleError *)
    exfalso. revert Hfail. unfold void, handleError. step_through. discriminate.
  - (* reset *)
    exfalso. revert Hfail.
    unfold void, reset, initializeState, when_debug, get_debugMode, new_Date_toISOString, console_call.
    step_through. destruct (debugMode w); discriminate.
Qed.

(** C3 (as amended): starting in WorkflowValidation with [retry_count = 0],
    four consecutive [retryBuilding] calls behave as follows.  Attempt 1
    succeeds: [retry_count] becomes 1, blueprint and validation errors are
    cleared, one history entry is appended and [current_state] is
    WorkflowBuilding.  Attempts 2 and 3 are made from WorkflowBuilding, which
    is not its own successor in the table: each returns an invalid-transition
    failure and appends nothing to the history, while [retry_count] still
    goes to 2 and then 3, blueprint and errors stay cleared and
    [current_state] stays WorkflowBuilding.  Attempt 4 returns the
    retry-budget-exhaustion failure, which differs from the invalid-transition
    failure, and leaves all state unchanged. *)
Theorem four_consecutive_retries :
  ∀ w : World,
    current_state (executionState w) = STATE_6_WORKFLOW_VALIDATION →
    retry_count (executionState w) = 0 →
    let w1 := world_of retryBuilding w in
    let w2 := world_of retryBuilding w1 in
    let w3 := world_of retryBuilding w2 in
    let w4 := world_of retryBuilding w3 in
    let e := executionState w in
    let e1 := executionState w1 in
    let e2 := executionState w2 in
    let e3 := executionState w3 in
    let e4 := executionState w4 in
    let rejected :=
      failure (invalid_transition STATE_5_WORKFLOW_BUILDING
                 STATE_5_WORKFLOW_BUILDING) in
    (result_of retryBuilding w = Normal ok
     ∧ retry_count e1 = 1
     ∧ workflow_blueprint e1 = empty_blueprint ∧ validation_errors e1 = []
     ∧ current_state e1 = STATE_5_WORKFLOW_BUILDING
     ∧ state_history e1 =
         state_history e ++
           [ entry STATE_5_WORKFLOW_BUILDING (Some "Retry 1/3") (clock (dates w)) ])
    ∧ (result_of retryBuilding w1 = Normal rejected
       ∧ retry_count e2 = 2
       ∧ workflow_blueprint e2 = empty_blueprint ∧ validation_errors e2 = []
       ∧ current_state e2 = STATE_5_WORKFLOW_BUILDING
       ∧ state_history e2 = state_history e1)
    ∧ (result_of retryBuilding w2 = Normal rejected
       ∧ retry_count e3 = 3
       ∧ workflow_blueprint e3 = empty_blueprint ∧ validation_errors e3 = []
       ∧ current_state e3 = STATE_5_WORKFLOW_BUILDING
       ∧ state_history e3 = state_history e1)
    ∧ (result_of retryBuilding w3 = Normal (failure retry_exhausted)
       ∧ failure retry_exhausted ≠ rejected
       ∧ e4 = e3).
Proof.
  intros w Hs Hn w1 w2 w3 w4 e e1 e2 e3 e4 rejected.
  destruct (retryBuilding_eq w) as [R1 S1].
  destruct (retryBuilding_eq w1) as [R2 S2].
  destruct (retryBuilding_eq w2) as [R3 S3].
  destruct (retryBuilding_eq w3) as [R4 S4].
  cbn zeta in R1, S1, R2, S2, R3, S3, R4, S4.
  fold w1 in S1. fold w2 in S2. fold w3 in S3. fold w4 in S4.
  subst e e1 e2 e3 e4 rejected.
  rewrite Hs, Hn in R1, S1. cbn in R1, S1.
  change (allowed STATE_6_WORKFLOW_VALIDATION STATE_5_WORKFLOW_BUILDING)
    with true in R1, S1.
  rewrite S1 in R2, S2. cbn in R2, S2.
  change (allowed STATE_5_WORKFLOW_BUILDING STATE_5_WORKFLOW_BUILDING)
    with false in R2, S2.
  rewrite S2 in R3, S3. cbn in R3, S3.
  change (allowed STATE_5_WORKFLOW_BUILDING STATE_5_WORKFLOW_BUILDING)
    with false in R3, S3.
  rewrite S3 in R4, S4. cbn in R4, S4.
  split; [| split; [| split]].
  - rewrite R1, S1. repeat split.
  - rewrite R2, S2, S1. repeat split.
  - rewrite R3, S3, S1. repeat split.
  - rewrite R4, S4, S3. repeat split. discriminate.
Qed.

(** ** Building and readiness guards *)

Lemma replace_underscores_id s : replace_underscores s = s.
Proof.
  induction s as [| c s IH]; cbn; [reflexivity |]. rewrite IH.
  destruct (Ascii.eqb c "_") eqn:E; [| reflexivity].
  apply Ascii.eqb_eq in E. subst c. reflexivity.
Qed.

Lemma positive_length_nonempty {A} (l : list A) :
  (0 <? length l)%nat = true ↔ l ≠ [].
Proof. destruct l; cbn; split; intros; congruence. Qed.

Lemma missing_guard_fires (e : ExecutionState) :
  missingCredentials e ≠ [] →
  (0 <? length (credentials_required e))%nat
  && (0 <? length (missingCredentials e))%nat = true.
Proof.
  intros H. apply andb_true_intro. split; apply positive_length_nonempty; [| exact H].
  intros Hr. apply H. unfold missingCredentials. rewrite Hr. reflexivity.
Qed.

Lemma missing_guard_passes (e : ExecutionState) :
  missingCredentials e = [] →
  (0 <? length (credentials_required e))%nat
  && (0 <? length (missingCredentials e))%nat = false.
Proof. intros ->. apply andb_false_r. Qed.

Lemma allowed_building s :
  allowed s STATE_5_WORKFLOW_BUILDING =
    bool_decide (s ∈ [ STATE_3_UNDERSTANDING_CONFIRMED;
                       STATE_4_CREDENTIAL_COLLECTION;
                       STATE_6_WORKFLOW_VALIDATION ]).
Proof. destruct s; vm_compute; reflexivity. Qed.

(** A name that [Object.prototype] does not hold is read among the
    properties the object holds itself. *)
Lemma get_property_own (provided : gmap string string) (key : string) :
  key ∉ Object_prototype →
  truthy_value (get_property provided key) = truthy (provided !! key).
Proof.
  intros H. unfold get_property. destruct (provided !! key); [reflexivity |].
  rewrite (bool_decide_eq_false_2 _ H). reflexivity.
Qed.

(** C5 (as amended): for required names that, as they are and lower-cased,
    are not names of members of [Object.prototype], [startBuilding] treats a
    name as missing when [credentials_provided] holds no non-empty value under
    that name nor under its lower-cased form.  Whenever some required name is
    missing it fails, changes nothing, and its message lists exactly the
    missing names, in the order of [credentials_required], joined by a comma
    and a space; with [credentials_required = ["google", "slack"]] and
    [credentials_provided = {"google": "token"}] the message names exactly
    slack.  It also fails, changing nothing, when [final_understanding] is
    empty.  When both guards pass it hands over to [transitionTo]: it moves
    to WorkflowBuilding when the current state is UnderstandingConfirmed,
    CredentialCollection or WorkflowValidation, and otherwise returns the
    invalid-transition failure with nothing changed. *)
Theorem startBuilding_guards :
  (∀ e : ExecutionState,
     Forall (λ cred, (cred ∉ Object_prototype) ∧ (toLowerCase cred ∉ Object_prototype))
       (credentials_required e) →
     missingCredentials e =
       List.filter
         (λ cred, negb (truthy (credentials_provided e !! cred))
                  && negb (truthy (credentials_provided e !! toLowerCase cred)))
         (credentials_required e))
  ∧ (∀ w : World,
       missingCredentials (executionState w) ≠ [] →
       result_of startBuilding w =
         Normal (failure ("Cannot build workflow: Missing required credentials: "
                          +:+ join ", " (missingCredentials (executionState w))))
       ∧ executionState (world_of startBuilding w) = executionState w)
  ∧ (toLowerCase "slack" = "slack" →
     ∀ w : World,
       credentials_required (executionState w) = [ "google"; "slack" ] →
       credentials_provided (executionState w) = {[ "google" := "token" ]} →
       missingCredentials (executionState w) = [ "slack" ]
       ∧ result_of startBuilding w =
           Normal (failure
                     "Cannot build workflow: Missing required credentials: slack")
       ∧ executionState (world_of startBuilding w) = executionState w)
  ∧ (∀ w : World,
       final_understanding (executionState w) = "" →
       (∃ msg, result_of startBuilding w = Normal (failure msg))
       ∧ executionState (world_of startBuilding w) = executionState w)
  ∧ (∀ w : World,
       missingCredentials (executionState w) = [] →
       final_understanding (executionState w) ≠ "" →
       let e := executionState w in
       let e' := executionState (world_of startBuilding w) in
       if bool_decide (current_state e ∈ [ STATE_3_UNDERSTANDING_CONFIRMED;
                                          STATE_4_CREDENTIAL_COLLECTION;
                                          STATE_6_WORKFLOW_VALIDATION ])
       then result_of startBuilding w = Normal ok
            ∧ current_state e' = STATE_5_WORKFLOW_BUILDING
            ∧ e' = committed STATE_5_WORKFLOW_BUILDING
                     (Some "Workflow building started") (clock (dates w)) e
       else result_of startBuilding w =
              Normal (failure (invalid_transition (current_state e)
                                 STATE_5_WORKFLOW_BUILDING))
            ∧ e' = e).
Proof.
  assert (Hmissing : ∀ w : World,
            missingCredentials (executionState w) ≠ [] →
            result_of startBuilding w =
              Normal (failure ("Cannot build workflow: Missing required credentials: "
                               +:+ join ", " (missingCredentials (executionState w))))
            ∧ executionState (world_of startBuilding w) = executionState w).
  { intros w H. destruct (startBuilding_eq w) as [R S]. cbn zeta in R, S.
    rewrite R, S, (missing_guard_fires _ H). split; reflexivity. }
  split; [| split; [| split; [| split]]].
  - intros e Hplain. unfold missingCredentials, is_missing.
    apply List.filter_ext_in. intros cred Hin.
    apply list_elem_of_In in Hin.
    destruct (proj1 (Forall_forall _ _) Hplain cred Hin) as [H1 H2].
    rewrite replace_underscores_id, !get_property_own by assumption.
    reflexivity.
  - exact Hmissing.
  - intros Hlow w Hreq Hprov.
    assert (Hm : missingCredentials (executionState w) = [ "slack" ]).
    { unfold missingCredentials, is_missing. rewrite Hreq, Hprov.
      cbn [List.filter]. rewrite !replace_underscores_id, Hlow.
      vm_compute. reflexivity. }
    split; [exact Hm |].
    destruct (Hmissing w) as [R S]; [rewrite Hm; discriminate |].
    rewrite R, S, Hm. split; reflexivity.
  - intros w H. destruct (startBuilding_eq w) as [R S]. cbn zeta in R, S.
    rewrite R, S, H. cbn [truthy negb].
    destruct (_ && _); split; try reflexivity; eexists; reflexivity.
  - intros w Hm Hu e e'. subst e e'.
    destruct (startBuilding_eq w) as [R S]. cbn zeta in R, S.
    rewrite R, S, (missing_guard_passes _ Hm), allowed_building.
    destruct (final_understanding (executionState w)) eqn:E; [congruence |].
    cbn [truthy negb].
    destruct (bool_decide _); repeat split.
Qed.

(** C7 (as amended): [setClarifyingAnswers] overwrites [clarifying_answers]
    with its argument: after a call the mapping is exactly the mapping
    passed, so after two calls a binding of the first call is present only if
    the second call passes it again.  No call changes [current_state],
    [state_history] or any other field, and no call fails. *)
Theorem setClarifyingAnswers_overwrites :
  (∀ (w : World) answers,
     let e := executionState w in
     let e' := executionState (world_of (setClarifyingAnswers answers) w) in
     result_of (setClarifyingAnswers answers) w = Normal ()
     ∧ clarifying_answers e' = answers
     ∧ current_state e' = current_state e
     ∧ state_history e' = state_history e
     ∧ e' = set_clarifying_answers answers e)
  ∧ (∀ (w : World) earlier later id,
       let w1 := world_of (setClarifyingAnswers earlier) w in
       let w2 := world_of (setClarifyingAnswers later) w1 in
       clarifying_answers (executionState w2) !! id = later !! id).
Proof. split; intros; repeat split. Qed.

Lemma length_append_string (a b : string) :
  String.length (a +:+ b) = String.length a + String.length b.
Proof. induction a as [| c a IH]; simpl; [reflexivity |]. rewrite IH. reflexivity. Qed.

Lemma errors_remain_is_not_no_blueprint (n : nat) :
  "Cannot mark workflow as ready: " +:+ pretty n +:+ " validation errors remain"
  ≠ "Cannot mark workflow as ready: No workflow blueprint".
Proof.
  intros H. apply (f_equal String.length) in H.
  rewrite !length_append_string in H. cbn in H. lia.
Qed.

(** C8: [markWorkflowReady] fails whenever [validation_errors] is non-empty;
    with no validation errors it fails, with a different message, whenever
    [workflow_blueprint.nodes] is absent or an empty list; in both cases the
    state is unchanged.  When both guards pass in WorkflowValidation it moves
    to WorkflowReady, which has no successor. *)
Theorem markWorkflowReady_guards :
  (∀ w : World,
     validation_errors (executionState w) ≠ [] →
     result_of markWorkflowReady w =
       Normal (failure ("Cannot mark workflow as ready: "
                        +:+ pretty (length (validation_errors (executionState w)))
                        +:+ " validation errors remain"))
     ∧ executionState (world_of markWorkflowReady w) = executionState w)
  ∧ (∀ w : World,
       validation_errors (executionState w) = [] →
       nodes (workflow_blueprint (executionState w)) = None
       ∨ nodes (workflow_blueprint (executionState w)) = Some [] →
       result_of markWorkflowReady w =
         Normal (failure "Cannot mark workflow as ready: No workflow blueprint")
       ∧ executionState (world_of markWorkflowReady w) = executionState w)
  ∧ (∀ n : nat,
       failure ("Cannot mark workflow as ready: " +:+ pretty n
                +:+ " validation errors remain")
       ≠ failure "Cannot mark workflow as ready: No workflow blueprint")
  ∧ (∀ (w : World) node rest,
       validation_errors (executionState w) = [] →
       nodes (workflow_blueprint (executionState w)) = Some (node :: rest) →
       current_state (executionState w) = STATE_6_WORKFLOW_VALIDATION →
       let e := executionState w in
       let e' := executionState (world_of markWorkflowReady w) in
       result_of markWorkflowReady w = Normal ok
       ∧ current_state e' = STATE_7_WORKFLOW_READY
       ∧ e' = committed STATE_7_WORKFLOW_READY
                (Some "Workflow validated and ready") (clock (dates w)) e
       ∧ ALLOWED_TRANSITIONS (current_state e') = []).
Proof.
  split; [| split; [| split]].
  - intros w H. destruct (markWorkflowReady_eq w) as [R S]. cbn zeta in R, S.
    apply positive_length_nonempty in H. rewrite R, S, H. split; reflexivity.
  - intros w He Hn. destruct (markWorkflowReady_eq w) as [R S]. cbn zeta in R, S.
    rewrite R, S, He. unfold no_nodes. cbn [length Nat.ltb Nat.leb].
    destruct Hn as [-> | ->]; split; reflexivity.
  - intros n H. apply (errors_remain_is_not_no_blueprint n).
    exact (f_equal (λ r, default "" (error r)) H).
  - intros w node rest He Hn Hs e e'. subst e e'.
    destruct (markWorkflowReady_eq w) as [R S]. cbn zeta in R, S.
    rewrite R, S, He. unfold no_nodes. rewrite Hn, Hs. repeat split.
Qed.

(** * Further properties of the manager *)

(** Evaluates the table and the state tests on concrete states. *)
Ltac table_facts :=
  repeat match goal with
    | |- context [allowed ?a ?b] =>
        is_constructor a; is_constructor b;
        let v := eval vm_compute in (allowed a b) in
        change (allowed a b) with v
    | |- context [bool_decide (?a = ?b)] =>
        is_constructor a; is_constructor b;
        let v := eval vm_compute in (bool_decide (a = b)) in
        change (bool_decide (a = b)) with v
    end.

(** One step of running a method body on a world. *)
Ltac exec_step :=
  step_through;
  cbn [current_state committed set_current_state set_state_history
       set_final_understanding set_workflow_blueprint set_retry_count
       set_validation_errors set_last_error set_user_prompt
       set_clarifying_questions set_clarifying_answers
       set_credentials_required set_credentials_provided
       final_understanding credentials_required credentials_provided
       workflow_blueprint validation_errors retry_count last_error user_prompt
       negb orb andb success error ok failure];
  table_facts.

(** ** The remaining operations, as functions of the state before the call *)

Lemma setUserPrompt_eq p w :
  let e := executionState w in
  result_of (setUserPrompt p) w =
    (if bool_decide (current_state e = STATE_0_IDLE) then Normal ()
     else Throw "Can only set user prompt from IDLE state")
  ∧ executionState (world_of (setUserPrompt p) w) =
      (if bool_decide (current_state e = STATE_0_IDLE)
       then committed STATE_1_USER_PROMPT_RECEIVED (Some "User prompt received")
              (clock (dates w)) (set_user_prompt p e)
       else e).
Proof.
  intros e. subst e. unfold setUserPrompt. step_through.
  case_bool_decide as E; cbn [negb]; step_through; [| split; reflexivity].
  cbn [current_state set_user_prompt]. rewrite E. split; reflexivity.
Qed.

Lemma setClarifyingQuestions_eq q w :
  let e := executionState w in
  result_of (setClarifyingQuestions q) w = Normal ()
  ∧ executionState (world_of (setClarifyingQuestions q) w) =
      (if bool_decide (current_state e = STATE_1_USER_PROMPT_RECEIVED)
       then committed STATE_2_CLARIFICATION_ACTIVE
              (Some "Clarifying questions generated") (clock (dates w))
              (set_clarifying_questions q e)
       else set_clarifying_questions q e).
Proof.
  intros e. subst e. unfold setClarifyingQuestions. step_through.
  cbn [current_state set_clarifying_questions].
  case_bool_decide as E; step_through; [| split; reflexivity].
  cbn [current_state set_clarifying_questions]. rewrite E. split; reflexivity.
Qed.

Lemma confirmUnderstanding_eq u w :
  let e := executionState w in
  result_of (confirmUnderstanding u) w =
    Normal (if bool_decide (current_state e = STATE_2_CLARIFICATION_ACTIVE) then ok
            else failure
                   "Can only confirm understanding from CLARIFICATION_ACTIVE state")
  ∧ executionState (world_of (confirmUnderstanding u) w) =
      (if bool_decide (current_state e = STATE_2_CLARIFICATION_ACTIVE)
       then committed STATE_3_UNDERSTANDING_CONFIRMED
              (Some "Understanding confirmed by user") (clock (dates w))
              (set_final_understanding u e)
       else e).
Proof.
  intros e. subst e. unfold confirmUnderstanding. step_through.
  case_bool_decide as E; cbn [negb]; step_through; [| split; reflexivity].
  cbn [current_state set_final_understanding]. rewrite E. split; reflexivity.
Qed.

Lemma setRequiredCredentials_eq c w :
  let e := executionState w in
  result_of (setRequiredCredentials c) w = Normal ()
  ∧ executionState (world_of (setRequiredCredentials c) w) =
      (if bool_decide (current_state e = STATE_3_UNDERSTANDING_CONFIRMED)
       then committed STATE_4_CREDENTIAL_COLLECTION
              (Some "Credentials required identified") (clock (dates w))
              (set_credentials_required c e)
       else if bool_decide (current_state e = STATE_5_WORKFLOW_BUILDING)
       then committed STATE_4_CREDENTIAL_COLLECTION
              (Some "Credentials required detected during building")
              (clock (dates w)) (set_credentials_required c e)
       else set_credentials_required c e).
Proof.
  intros e. subst e. unfold setRequiredCredentials. step_through.
  cbn [current_state set_credentials_required].
  case_bool_decide as E; step_through.
  - cbn [current_state set_credentials_required]. rewrite E. split; reflexivity.
  - case_bool_decide as E'; step_through; [| split; reflexivity].
    cbn [current_state set_credentials_required]. rewrite E'. split; reflexivity.
Qed.

Lemma allowed_validation s :
  allowed s STATE_6_WORKFLOW_VALIDATION
  = bool_decide (s = STATE_5_WORKFLOW_BUILDING).
Proof. destruct s; vm_compute; reflexivity. Qed.

Lemma allowed_ready s :
  allowed s STATE_7_WORKFLOW_READY
  = bool_decide (s = STATE_6_WORKFLOW_VALIDATION).
Proof. destruct s; vm_compute; reflexivity. Qed.

Lemma setWorkflowBlueprint_eq b w :
  let e := executionState w in
  result_of (setWorkflowBlueprint b) w = Normal ()
  ∧ executionState (world_of (setWorkflowBlueprint b) w) =
      (if bool_decide (current_state e = STATE_5_WORKFLOW_BUILDING)
       then committed STATE_6_WORKFLOW_VALIDATION
              (Some "Workflow blueprint generated") (clock (dates w))
              (set_workflow_blueprint b e)
       else set_workflow_blueprint b e).
Proof.
  intros e. subst e. unfold setWorkflowBlueprint. step_through.
  cbn [current_state set_workflow_blueprint]. rewrite allowed_validation.
  split; reflexivity.
Qed.

Lemma reset_eq w :
  result_of reset w = Normal ()
  ∧ executionState (world_of reset w)
    = initial_record (debugMode w) (clock (dates w)).
Proof.
  unfold reset, initializeState, when_debug, get_debugMode, new_Date_toISOString,
    console_call.
  step_through. destruct (debugMode w); split; reflexivity.
Qed.

(** ** An invariant principle for calls

    A property of the execution state that survives a table-checked
    transition, a write of the final understanding, a write of the blueprint
    and the writes particular to a call, survives the call. *)

Section Invariant.

Variable P : ExecutionState → Prop.

Hypothesis P_committed :
  ∀ t reason ts e, allowed (current_state e) t = true → P e →
                   P (committed t reason ts e).
Hypothesis P_final_understanding :
  ∀ u e, current_state e = STATE_2_CLARIFICATION_ACTIVE → P e →
         P (set_final_understanding u e).
Hypothesis P_workflow_blueprint : ∀ b e, P e → P (set_workflow_blueprint b e).

Lemma invariant_transitionTo t reason : preserves P (transitionTo t reason).
Proof.
  intros w H. rewrite transitionTo_eq. cbn.
  destruct (allowed _ t) eqn:E; [apply P_committed |]; assumption.
Qed.

Lemma invariant_confirmUnderstanding u : preserves P (confirmUnderstanding u).
Proof.
  intros w H. destruct (confirmUnderstanding_eq u w) as [_ S]. cbn zeta in S.
  unfold world_of in S. rewrite S. case_bool_decide as E; [| exact H].
  apply P_committed; [cbn; rewrite E; reflexivity |].
  apply P_final_understanding; assumption.
Qed.

Lemma invariant_startBuilding : preserves P startBuilding.
Proof. unfold startBuilding. preserve. apply invariant_transitionTo. Qed.

Lemma invariant_markWorkflowReady : preserves P markWorkflowReady.
Proof. unfold markWorkflowReady. preserve. apply invariant_transitionTo. Qed.

Lemma invariant_ensureStateForBuilding : preserves P ensureStateForBuilding.
Proof.
  unfold ensureStateForBuilding.
  preserve;
    auto using invariant_transitionTo, invariant_confirmUnderstanding,
      invariant_startBuilding.
Qed.

Lemma invariant_moveToValidation b : preserves P (moveToValidation b).
Proof.
  unfold moveToValidation.
  preserve; auto using invariant_transitionTo, invariant_ensureStateForBuilding.
Qed.

Lemma invariant_moveToReady : preserves P moveToReady.
Proof.
  unfold moveToReady.
  preserve; auto using invariant_markWorkflowReady, invariant_moveToValidation.
Qed.

Lemma invariant_invoke c : writes_keep P c → preserves P (invoke c).
Proof.
  intros Hc w H. change ((invoke c w).2) with (world_of (invoke c) w).
  destruct c as [op | t reason | | b |]; cbn [invoke invoke_op writes_keep] in *.
  - destruct op; cbn [invoke_op writes_keep] in *.
    + (* setUserPrompt *)
      destruct (setUserPrompt_eq prompt w) as [_ S]. cbn zeta in S.
      replace (executionState (world_of (void (setUserPrompt prompt)) w))
        with (executionState (world_of (setUserPrompt prompt) w)).
      2:{ unfold world_of, void, bind, ret.
          destruct (setUserPrompt prompt w) as [[[] | msg] w1]; reflexivity. }
      rewrite S. case_bool_decide as E; [| exact H].
      apply P_committed; [cbn; rewrite E; reflexivity |]. apply Hc; assumption.
    + (* setClarifyingQuestions *)
      apply (preserves_bind P); [| intros ?; apply preserves_ret | exact H].
      unfold setClarifyingQuestions. preserve; auto using invariant_transitionTo.
    + apply (preserves_bind P); [| intros ?; apply preserves_ret | exact H].
      unfold setClarifyingAnswers. preserve. auto.
    + apply (preserves_bind P); [| intros ?; apply preserves_ret | exact H].
      apply invariant_confirmUnderstanding.
    + apply (preserves_bind P); [| intros ?; apply preserves_ret | exact H].
      unfold setRequiredCredentials. preserve; auto using invariant_transitionTo.
    + apply (preserves_bind P); [| intros ?; apply preserves_ret | exact H].
      unfold setProvidedCredentials. preserve. auto.
    + apply (preserves_bind P); [| intros ?; apply preserves_ret | exact H].
      apply invariant_startBuilding.
    + apply (preserves_bind P); [| intros ?; apply preserves_ret | exact H].
      unfold setWorkflowBlueprint. preserve; auto using invariant_transitionTo.
    + apply (preserves_bind P); [| intros ?; apply preserves_ret | exact H].
      unfold addValidationError. preserve. auto.
    + apply (preserves_bind P); [| intros ?; apply preserves_ret | exact H].
      unfold clearValidationErrors. preserve. auto.
    + (* retryBuilding *)
      destruct (retryBuilding_eq w) as [_ S]. cbn zeta in S.
      rewrite returning_world, S.
      destruct (3 <=? _)%nat eqn:E; [exact H |]. apply Nat.leb_gt in E.
      specialize (Hc _ E H).
      destruct (allowed _ _) eqn:E'; [| exact Hc].
      apply P_committed; [exact E' | exact Hc].
    + apply (preserves_bind P); [| intros ?; apply preserves_ret | exact H].
      apply invariant_markWorkflowReady.
    + apply (preserves_bind P); [| intros ?; apply preserves_ret | exact H].
      unfold handleError. preserve; auto using invariant_transitionTo.
    + (* reset *)
      destruct (reset_eq w) as [_ S].
      replace (executionState (world_of (void reset) w))
        with (executionState (world_of reset w)).
      2:{ unfold world_of, void, bind, ret.
          destruct (reset w) as [[[] | msg] w1]; reflexivity. }
      rewrite S. apply Hc.
  - apply (preserves_bind P); [| intros ?; apply preserves_ret | exact H].
    apply invariant_transitionTo.
  - apply (preserves_bind P); [| intros ?; apply preserves_ret | exact H].
    apply invariant_ensureStateForBuilding.
  - apply (preserves_bind P); [| intros ?; apply preserves_ret | exact H].
    apply invariant_moveToValidation.
  - apply (preserves_bind P); [| intros ?; apply preserves_ret | exact H].
    apply invariant_moveToReady.
Qed.

Lemma invariant_run cs w :
  (∀ c, writes_keep P c) → P (executionState w) → P (executionState (run cs w)).
Proof.
  intros Hc. revert w. induction cs as [| c cs IH]; intros w H; cbn; [exact H |].
  apply IH. apply invariant_invoke; [apply Hc | exact H].
Qed.

End Invariant.

(** ** Invariants of the history and of the retry counter *)

Lemma history_states_committed t reason ts (e : ExecutionState) :
  history_states (committed t reason ts e) = history_states e ++ [ t ].
Proof. unfold history_states. cbn. rewrite fmap_app. reflexivity. Qed.

Lemma consecutive_snoc {A} (l : list A) y x :
  last l = Some y → consecutive (l ++ [ x ]) = consecutive l ++ [ (y, x) ].
Proof.
  induction l as [| a l IH]; [discriminate |].
  destruct l as [| b l]; cbn in *.
  - intros [= ->]. reflexivity.
  - intros H. rewrite (IH H). reflexivity.
Qed.

Lemma history_is_a_path_committed t reason ts (e : ExecutionState) :
  allowed (current_state e) t = true →
  history_is_a_path e → history_is_a_path (committed t reason ts e).
Proof.
  intros Ha (Hhead & Hlast & Hpath). unfold history_is_a_path.
  rewrite history_states_committed. split; [| split].
  - destruct (history_states e); [discriminate | exact Hhead].
  - rewrite last_snoc. reflexivity.
  - unfold legal_path. rewrite (consecutive_snoc _ _ _ Hlast).
    apply Forall_app. split; [exact Hpath |].
    apply Forall_singleton. cbn. apply allowed_elem_of, Ha.
Qed.

Lemma history_is_a_path_initial d ts : history_is_a_path (initial_record d ts).
Proof. split; [| split]; try reflexivity. apply Forall_nil_2. Qed.

Lemma history_is_a_path_writes c : writes_keep history_is_a_path c.
Proof.
  destruct c as [op | | | |]; [destruct op |..]; cbn; auto.
  intros d ts. apply history_is_a_path_initial.
Qed.

(** X1: whatever calls are made on a manager after its construction or after
    a [reset], the history begins with Idle, its last entry is the current
    state, and every two successive entries are an edge of the transition
    table. *)
Theorem history_is_always_a_legal_path :
  (∀ d cs, history_is_a_path (executionState (run cs (constructor d))))
  ∧ (∀ w cs, history_is_a_path (executionState (run cs (world_of reset w)))).
Proof.
  split; intros; apply invariant_run;
    auto using history_is_a_path_writes, history_is_a_path_committed.
  - apply history_is_a_path_initial.
  - destruct (reset_eq w) as [_ ->]. apply history_is_a_path_initial.
Qed.

Lemma retry_count_after_invoke (P : nat → Prop) c w :
  (∀ n, n < 3 → P n → P (n + 1)) →
  c ≠ Guarded Reset →
  P (retry_count (executionState w)) →
  P (retry_count (executionState (after c w))).
Proof.
  intros Hstep Hc H. unfold after.
  apply (invariant_invoke (λ e, P (retry_count e))); auto.
  destruct c as [op | | | |]; [destruct op |..]; cbn; auto.
  congruence.
Qed.

(** X2: the retry counter never exceeds 3 on a manager driven through its
    methods, and no call other than [reset] ever lowers it. *)
Theorem retry_count_is_bounded_and_monotone :
  (∀ d cs, retry_count (executionState (run cs (constructor d))) ≤ 3)
  ∧ (∀ c w, c ≠ Guarded Reset →
            retry_count (executionState w)
            ≤ retry_count (executionState (after c w))).
Proof.
  split.
  - intros d cs. apply (invariant_run (λ e, retry_count e ≤ 3)); auto.
    intros c. destruct c as [op | | | |]; [destruct op |..]; cbn; auto.
    intros e H _. lia.
  - intros c w Hc.
    apply (retry_count_after_invoke (λ n, retry_count (executionState w) ≤ n));
      auto; lia.
Qed.

(** X3: the history is append-only: after any call other than [reset] the
    history is the history before the call followed by the entries the call
    appended. *)
Theorem history_is_append_only :
  ∀ c w, c ≠ Guarded Reset →
         ∃ appended,
           state_history (executionState (after c w))
           = state_history (executionState w) ++ appended.
Proof.
  intros c w Hc. unfold after.
  apply (invariant_invoke
           (λ e, ∃ appended,
                state_history e = state_history (executionState w) ++ appended)).
  - intros t reason ts e _ [s Hs]. cbn. rewrite Hs, <- app_assoc. eauto.
  - auto.
  - auto.
  - destruct c as [op | | | |]; [destruct op |..]; cbn; auto. congruence.
  - exists []. rewrite app_nil_r. reflexivity.
Qed.

(** ** Which call writes which field *)

Lemma field_kept {B} (f : ExecutionState → B) c w :
  (∀ t reason ts e, f (committed t reason ts e) = f e) →
  (∀ u e, f (set_final_understanding u e) = f e) →
  (∀ b e, f (set_workflow_blueprint b e) = f e) →
  writes_keep (λ e, f e = f (executionState w)) c →
  f (executionState (after c w)) = f (executionState w).
Proof.
  intros Hc Hu Hb Hw. unfold after.
  apply (invariant_invoke (λ e, f e = f (executionState w))); auto.
  - intros t reason ts e _ H. rewrite Hc. exact H.
  - intros u e _ H. rewrite Hu. exact H.
  - intros b e H. rewrite Hb. exact H.
Qed.

Lemma void_world (m : M unit) w :
  executionState (world_of (void m) w) = executionState (world_of m w).
Proof.
  unfold world_of, void, bind, ret. destruct (m w) as [[[] | msg] w1]; reflexivity.
Qed.

(** X4: apart from [reset], each of these data fields has one writer:
    [user_prompt] changes only through [setUserPrompt] called in Idle,
    [clarifying_questions], [clarifying_answers], [credentials_required] and
    [credentials_provided] only through their setters, [last_error] only
    through [handleError], and [retry_count] only through [retryBuilding]. *)
Theorem data_fields_have_one_writer :
  ∀ c w,
    c ≠ Guarded Reset →
    let e := executionState w in
    let e' := executionState (after c w) in
    ((∀ p, c ≠ Guarded (SetUserPrompt p)) ∨ current_state e ≠ STATE_0_IDLE →
     user_prompt e' = user_prompt e)
    ∧ ((∀ q, c ≠ Guarded (SetClarifyingQuestions q)) →
       clarifying_questions e' = clarifying_questions e)
    ∧ ((∀ a, c ≠ Guarded (SetClarifyingAnswers a)) →
       clarifying_answers e' = clarifying_answers e)
    ∧ ((∀ l, c ≠ Guarded (SetRequiredCredentials l)) →
       credentials_required e' = credentials_required e)
    ∧ ((∀ m, c ≠ Guarded (SetProvidedCredentials m)) →
       credentials_provided e' = credentials_provided e)
    ∧ ((∀ err, c ≠ Guarded (HandleError err)) → last_error e' = last_error e)
    ∧ (c ≠ Guarded RetryBuilding → retry_count e' = retry_count e).
Proof.
  intros c w Hreset e e'. subst e e'.
  split_and!; intros H.
  - destruct c as [[p | | | | | | | | | | | | |] | | | |];
      try (apply field_kept; cbn; auto; congruence).
    destruct H as [H | H]; [exfalso; exact (H p eq_refl) |].
    destruct (setUserPrompt_eq p w) as [_ S]. cbn zeta in S.
    unfold after. cbn [invoke invoke_op].
    change ((void (setUserPrompt p) w).2) with (world_of (void (setUserPrompt p)) w).
    rewrite void_world, S. case_bool_decide; [contradiction | reflexivity].
  - apply field_kept; auto.
    destruct c as [op | | | |]; [destruct op |..]; cbn; auto; congruence.
  - apply field_kept; auto.
    destruct c as [op | | | |]; [destruct op |..]; cbn; auto; congruence.
  - apply field_kept; auto.
    destruct c as [op | | | |]; [destruct op |..]; cbn; auto; congruence.
  - apply field_kept; auto.
    destruct c as [op | | | |]; [destruct op |..]; cbn; auto; congruence.
  - apply field_kept; auto.
    destruct c as [op | | | |]; [destruct op |..]; cbn; auto; congruence.
  - apply field_kept; auto.
    destruct c as [op | | | |]; [destruct op |..]; cbn; auto; congruence.
Qed.

(** ** WorkflowReady is final *)

Lemma nothing_allowed_from_ready t : allowed STATE_7_WORKFLOW_READY t = false.
Proof. destruct t; vm_compute; reflexivity. Qed.

(** X5: once the machine is in WorkflowReady, no call other than [reset]
    moves it or appends to the history. *)
Theorem workflow_ready_is_left_only_by_reset :
  ∀ c w,
    c ≠ Guarded Reset →
    current_state (executionState w) = STATE_7_WORKFLOW_READY →
    current_state (executionState (after c w)) = STATE_7_WORKFLOW_READY
    ∧ state_history (executionState (after c w))
      = state_history (executionState w).
Proof.
  intros c w Hc Hs. unfold after.
  apply (invariant_invoke
           (λ e, current_state e = STATE_7_WORKFLOW_READY
                 ∧ state_history e = state_history (executionState w))); auto.
  - intros t reason ts e Ha [He _]. rewrite He, nothing_allowed_from_ready in Ha.
    discriminate.
  - destruct c as [op | | | |]; [destruct op |..]; cbn; auto; congruence.
Qed.

(** ** The operations one by one *)

(** X6: in Idle, [setUserPrompt] stores the prompt and moves to
    PromptReceived, appending one entry; in every other state it throws and
    changes nothing.  So of two calls in a row the second always throws and
    the prompt of the first stands. *)
Theorem setUserPrompt_works_once :
  (∀ w p,
     current_state (executionState w) = STATE_0_IDLE →
     let e' := executionState (world_of (setUserPrompt p) w) in
     result_of (setUserPrompt p) w = Normal ()
     ∧ user_prompt e' = p
     ∧ current_state e' = STATE_1_USER_PROMPT_RECEIVED
     ∧ history_states e'
       = history_states (executionState w) ++ [ STATE_1_USER_PROMPT_RECEIVED ])
  ∧ (∀ w p,
       current_state (executionState w) ≠ STATE_0_IDLE →
       result_of (setUserPrompt p) w
       = Throw "Can only set user prompt from IDLE state"
       ∧ executionState (world_of (setUserPrompt p) w) = executionState w)
  ∧ (∀ w p q,
       let w1 := world_of (setUserPrompt p) w in
       result_of (setUserPrompt q) w1
       = Throw "Can only set user prompt from IDLE state"
       ∧ executionState (world_of (setUserPrompt q) w1) = executionState w1).
Proof.
  split_and!.
  - intros w p Hs e'. subst e'.
    destruct (setUserPrompt_eq p w) as [R S]. cbn zeta in R, S.
    rewrite R, S, Hs. table_facts. split_and!; try reflexivity.
    rewrite history_states_committed. reflexivity.
  - intros w p Hs. destruct (setUserPrompt_eq p w) as [R S]. cbn zeta in R, S.
    rewrite R, S. case_bool_decide; [contradiction | split; reflexivity].
  - intros w p q w1.
    destruct (setUserPrompt_eq p w) as [_ S1]. cbn zeta in S1. fold w1 in S1.
    destruct (setUserPrompt_eq q w1) as [R S]. cbn zeta in R, S.
    rewrite R, S, S1.
    destruct (bool_decide (current_state (executionState w) = STATE_0_IDLE)) eqn:E.
    + cbn [current_state committed set_current_state]. table_facts.
      split; reflexivity.
    + rewrite E. split; reflexivity.
Qed.

(** X7: [setClarifyingQuestions] always replaces the questions and never
    fails.  In PromptReceived it also moves to ClarificationActive, appending
    one entry; in every other state it changes nothing but the questions. *)
Theorem setClarifyingQuestions_replaces_and_moves_once :
  (∀ w q,
     result_of (setClarifyingQuestions q) w = Normal ()
     ∧ clarifying_questions (executionState (world_of (setClarifyingQuestions q) w))
       = q)
  ∧ (∀ w q,
       current_state (executionState w) = STATE_1_USER_PROMPT_RECEIVED →
       let e' := executionState (world_of (setClarifyingQuestions q) w) in
       current_state e' = STATE_2_CLARIFICATION_ACTIVE
       ∧ history_states e'
         = history_states (executionState w) ++ [ STATE_2_CLARIFICATION_ACTIVE ])
  ∧ (∀ w q,
       current_state (executionState w) ≠ STATE_1_USER_PROMPT_RECEIVED →
       executionState (world_of (setClarifyingQuestions q) w)
       = set_clarifying_questions q (executionState w)).
Proof.
  split_and!.
  - intros w q. destruct (setClarifyingQuestions_eq q w) as [R S]. cbn zeta in S.
    rewrite R, S. split; [reflexivity |]. destruct (bool_decide _); reflexivity.
  - intros w q Hs e'. subst e'.
    destruct (setClarifyingQuestions_eq q w) as [_ S]. cbn zeta in S.
    rewrite S, Hs. table_facts. split; [reflexivity |].
    rewrite history_states_committed. reflexivity.
  - intros w q Hs. destruct (setClarifyingQuestions_eq q w) as [_ S]. cbn zeta in S.
    rewrite S. case_bool_decide; [contradiction | reflexivity].
Qed.

(** X8: in ClarificationActive, [confirmUnderstanding] succeeds whatever the
    text, the empty text included, and moves to UnderstandingConfirmed.  But
    after confirming the empty text, [startBuilding] fails and the machine
    stays in UnderstandingConfirmed. *)
Theorem confirmUnderstanding_accepts_any_text :
  (∀ w u,
     current_state (executionState w) = STATE_2_CLARIFICATION_ACTIVE →
     let e' := executionState (world_of (confirmUnderstanding u) w) in
     result_of (confirmUnderstanding u) w = Normal ok
     ∧ final_understanding e' = u
     ∧ current_state e' = STATE_3_UNDERSTANDING_CONFIRMED
     ∧ history_states e'
       = history_states (executionState w) ++ [ STATE_3_UNDERSTANDING_CONFIRMED ])
  ∧ (∀ w,
       current_state (executionState w) = STATE_2_CLARIFICATION_ACTIVE →
       let w1 := world_of (confirmUnderstanding "") w in
       (∃ msg, result_of startBuilding w1 = Normal (failure msg))
       ∧ executionState (world_of startBuilding w1) = executionState w1
       ∧ current_state (executionState w1) = STATE_3_UNDERSTANDING_CONFIRMED).
Proof.
  split.
  - intros w u Hs e'. subst e'.
    destruct (confirmUnderstanding_eq u w) as [R S]. cbn zeta in R, S.
    rewrite R, S, Hs. table_facts. split_and!; try reflexivity.
    rewrite history_states_committed. reflexivity.
  - intros w Hs w1.
    destruct (confirmUnderstanding_eq "" w) as [_ S1]. cbn zeta in S1.
    fold w1 in S1. rewrite (bool_decide_eq_true_2 _ Hs) in S1.
    destruct (startBuilding_eq w1) as [R S]. cbn zeta in R, S.
    rewrite S1 in R, S.
    cbn [final_understanding committed set_current_state set_state_history
         set_final_understanding truthy negb] in R, S.
    match type of R with context [if ?g then _ else _] => destruct g end.
    all: rewrite R, S, S1; split_and!; try reflexivity; eexists; reflexivity.
Qed.

Lemma provided_credentials_are_not_missing (provided : gmap string string) l :
  Forall (λ cred, truthy (provided !! cred) = true) l →
  List.filter (is_missing provided) l = [].
Proof.
  induction 1 as [| cred l H _ IH]; [reflexivity |].
  cbn. unfold is_missing at 1, get_property at 1.
  destruct (provided !! cred) as [value |]; [| discriminate H].
  cbn [truthy_value]. rewrite H. cbn. exact IH.
Qed.

(** X9: [setRequiredCredentials] always replaces the list and never fails.
    In UnderstandingConfirmed and in WorkflowBuilding it also moves to
    CredentialCollection; in every other state it changes nothing but the
    list.  When credentials turn up during building and every one of them
    has a non-empty value provided, [startBuilding] then leads back to
    WorkflowBuilding. *)
Theorem setRequiredCredentials_has_two_triggers :
  (∀ w l,
     result_of (setRequiredCredentials l) w = Normal ()
     ∧ credentials_required (executionState (world_of (setRequiredCredentials l) w))
       = l)
  ∧ (∀ w l,
       current_state (executionState w) = STATE_3_UNDERSTANDING_CONFIRMED
       ∨ current_state (executionState w) = STATE_5_WORKFLOW_BUILDING →
       let e' := executionState (world_of (setRequiredCredentials l) w) in
       current_state e' = STATE_4_CREDENTIAL_COLLECTION
       ∧ history_states e'
         = history_states (executionState w) ++ [ STATE_4_CREDENTIAL_COLLECTION ])
  ∧ (∀ w l,
       current_state (executionState w) ≠ STATE_3_UNDERSTANDING_CONFIRMED →
       current_state (executionState w) ≠ STATE_5_WORKFLOW_BUILDING →
       executionState (world_of (setRequiredCredentials l) w)
       = set_credentials_required l (executionState w))
  ∧ (∀ w l,
       current_state (executionState w) = STATE_5_WORKFLOW_BUILDING →
       final_understanding (executionState w) ≠ "" →
       Forall (λ cred,
                 truthy (credentials_provided (executionState w) !! cred) = true) l →
       let w1 := world_of (setRequiredCredentials l) w in
       result_of startBuilding w1 = Normal ok
       ∧ history_states (executionState (world_of startBuilding w1))
         = history_states (executionState w)
           ++ [ STATE_4_CREDENTIAL_COLLECTION; STATE_5_WORKFLOW_BUILDING ]).
Proof.
  split_and!.
  - intros w l. destruct (setRequiredCredentials_eq l w) as [R S]. cbn zeta in S.
    rewrite R, S. split; [reflexivity |].
    repeat destruct (bool_decide _); reflexivity.
  - intros w l Hs e'. subst e'.
    destruct (setRequiredCredentials_eq l w) as [_ S]. cbn zeta in S. rewrite S.
    destruct Hs as [Hs | Hs]; rewrite Hs; table_facts; split; try reflexivity;
      rewrite history_states_committed; reflexivity.
  - intros w l H1 H2. destruct (setRequiredCredentials_eq l w) as [_ S].
    cbn zeta in S. rewrite S. repeat case_bool_decide; try contradiction.
    reflexivity.
  - intros w l Hs Hu Hp w1.
    destruct (setRequiredCredentials_eq l w) as [_ S1]. cbn zeta in S1.
    fold w1 in S1.
    destruct (startBuilding_eq w1) as [R S]. cbn zeta in R, S.
    rewrite R, S, S1, Hs. table_facts. unfold missingCredentials.
    cbn [credentials_required credentials_provided committed set_current_state
         set_state_history set_credentials_required final_understanding
         current_state].
    rewrite (provided_credentials_are_not_missing _ _ Hp), andb_false_r.
    destruct (final_understanding (executionState w)); [congruence |].
    cbn [truthy negb].
    change (allowed STATE_4_CREDENTIAL_COLLECTION STATE_5_WORKFLOW_BUILDING)
      with true.
    split; [reflexivity |].
    rewrite !history_states_committed, <- app_assoc. reflexivity.
Qed.

(** X10: [setWorkflowBlueprint] always stores the blueprint and never fails.
    It moves to WorkflowValidation only from WorkflowBuilding; in every other
    state the rejected transition goes unreported and nothing but the
    blueprint changes. *)
Theorem setWorkflowBlueprint_always_writes :
  (∀ w b,
     result_of (setWorkflowBlueprint b) w = Normal ()
     ∧ workflow_blueprint (executionState (world_of (setWorkflowBlueprint b) w))
       = b)
  ∧ (∀ w b,
       current_state (executionState w) = STATE_5_WORKFLOW_BUILDING →
       let e' := executionState (world_of (setWorkflowBlueprint b) w) in
       current_state e' = STATE_6_WORKFLOW_VALIDATION
       ∧ history_states e'
         = history_states (executionState w) ++ [ STATE_6_WORKFLOW_VALIDATION ])
  ∧ (∀ w b,
       current_state (executionState w) ≠ STATE_5_WORKFLOW_BUILDING →
       executionState (world_of (setWorkflowBlueprint b) w)
       = set_workflow_blueprint b (executionState w)).
Proof.
  split_and!.
  - intros w b. destruct (setWorkflowBlueprint_eq b w) as [R S]. cbn zeta in S.
    rewrite R, S. split; [reflexivity |]. destruct (bool_decide _); reflexivity.
  - intros w b Hs e'. subst e'.
    destruct (setWorkflowBlueprint_eq b w) as [_ S]. cbn zeta in S.
    rewrite S, Hs. table_facts. split; [reflexivity |].
    rewrite history_states_committed. reflexivity.
  - intros w b Hs. destruct (setWorkflowBlueprint_eq b w) as [_ S]. cbn zeta in S.
    rewrite S. case_bool_decide; [contradiction | reflexivity].
Qed.

(** X11: from any state, the terminal ones included, [reset] brings the
    aggregate back to what the constructor builds, keeping the debug flag;
    a [setUserPrompt] right after it succeeds. *)
Theorem reset_makes_the_manager_new :
  ∀ w p,
    let w1 := world_of reset w in
    let e' := executionState (world_of (setUserPrompt p) w1) in
    executionState w1 = initial_record (debugMode w) (clock (dates w))
    ∧ debugMode w1 = debugMode w
    ∧ result_of (setUserPrompt p) w1 = Normal ()
    ∧ user_prompt e' = p
    ∧ history_states e' = [ STATE_0_IDLE; STATE_1_USER_PROMPT_RECEIVED ].
Proof.
  intros w p w1 e'. subst e'.
  destruct (reset_eq w) as [_ S1]. fold w1 in S1.
  destruct (setUserPrompt_eq p w1) as [R S]. cbn zeta in R, S.
  rewrite R, S, S1. split_and!; try reflexivity.
  subst w1. unfold world_of, reset, initializeState, when_debug, get_debugMode,
    new_Date_toISOString, console_call, bind, ret, modify.
  cbn. destruct (debugMode w); reflexivity.
Qed.

(** X12: after [addValidationError], [markWorkflowReady] fails in every
    state, reporting one error more than there were, and changes nothing;
    after [clearValidationErrors], a manager in WorkflowValidation whose
    blueprint has a node becomes ready, however many errors it had. *)
Theorem validation_errors_gate_readiness :
  (∀ w err,
     let w1 := world_of (addValidationError err) w in
     validation_errors (executionState w1)
     = validation_errors (executionState w) ++ [ err ]
     ∧ result_of markWorkflowReady w1
       = Normal (failure
                   ("Cannot mark workflow as ready: "
                    +:+ pretty (S (length (validation_errors (executionState w))))
                    +:+ " validation errors remain"))
     ∧ executionState (world_of markWorkflowReady w1) = executionState w1)
  ∧ (∀ w node rest,
       current_state (executionState w) = STATE_6_WORKFLOW_VALIDATION →
       nodes (workflow_blueprint (executionState w)) = Some (node :: rest) →
       let w1 := world_of clearValidationErrors w in
       validation_errors (executionState w1) = []
       ∧ result_of markWorkflowReady w1 = Normal ok
       ∧ current_state (executionState (world_of markWorkflowReady w1))
         = STATE_7_WORKFLOW_READY).
Proof.
  split.
  - intros w err w1.
    assert (S1 : executionState w1
                 = set_validation_errors
                     (validation_errors (executionState w) ++ [ err ])
                     (executionState w)) by reflexivity.
    destruct (markWorkflowReady_eq w1) as [R S]. cbn zeta in R, S.
    rewrite R, S, S1. cbn [validation_errors set_validation_errors].
    rewrite length_app. cbn [length]. rewrite Nat.add_1_r.
    split_and!; reflexivity.
  - intros w node rest Hs Hn w1.
    assert (S1 : executionState w1 = set_validation_errors [] (executionState w))
      by reflexivity.
    destruct (markWorkflowReady_eq w1) as [R S]. cbn zeta in R, S.
    rewrite R, S, S1.
    cbn [validation_errors set_validation_errors length Nat.ltb Nat.leb
         workflow_blueprint current_state].
    unfold no_nodes. rewrite Hn, Hs. split_and!; reflexivity.
Qed.

(** ** The orchestration helpers *)

(** Runs a method body on a world, rewriting with what is known of it by
    [rw] and splitting on the tests of the data fields as they come up. *)
Ltac exec_with rw :=
  repeat (progress (exec_step; rw));
  try match goal with
    | |- context [if ?b then _ else _] =>
        lazymatch b with
        | debugMode _ => fail
        | _ => destruct b eqn:?; exec_with rw
        end
    end.

Ltac exec E := exec_with ltac:(rewrite ?E).

(** Closes a goal whose hypothesis [H] puts a concrete state in a list of
    other states. *)
Ltac not_listed H :=
  exfalso; apply (bool_decide_pack _) in H; vm_compute in H; exact H.

Ltac listed := apply (bool_decide_unpack _); vm_compute; exact I.

Lemma truthy_nonempty s : s ≠ "" → truthy (Some s) = true.
Proof. destruct s; [congruence | reflexivity]. Qed.

Lemma ensureStateForBuilding_post w :
  ∃ r, result_of ensureStateForBuilding w = Normal r
       ∧ (success r = true →
          current_state (executionState (world_of ensureStateForBuilding w))
          ∈ [ STATE_5_WORKFLOW_BUILDING; STATE_6_WORKFLOW_VALIDATION;
              STATE_7_WORKFLOW_READY ]).
Proof.
  unfold ensureStateForBuilding, confirmUnderstanding, startBuilding.
  destruct (current_state (executionState w)) eqn:E; exec E.
  all: eexists; split; [reflexivity | cbn; try discriminate].
  all: intros _; listed.
Qed.

Lemma ensureStateForBuilding_noop w :
  current_state (executionState w)
  ∈ [ STATE_5_WORKFLOW_BUILDING; STATE_6_WORKFLOW_VALIDATION;
      STATE_7_WORKFLOW_READY ] →
  result_of ensureStateForBuilding w = Normal ok
  ∧ executionState (world_of ensureStateForBuilding w) = executionState w.
Proof.
  intros H. unfold ensureStateForBuilding, confirmUnderstanding, startBuilding.
  destruct (current_state (executionState w)) eqn:E;
    try (not_listed H); exec E; split; reflexivity.
Qed.

(** X13: [ensureStateForBuilding] never throws; when it reports success the
    machine is in WorkflowBuilding, WorkflowValidation or WorkflowReady, and
    a second call then succeeds again without changing anything.  From
    Idle, PromptReceived and ErrorHandling, and from ClarificationActive with
    an empty final understanding, it fails and changes nothing. *)
Theorem ensureStateForBuilding_is_idempotent :
  (∀ w, ∃ r,
     result_of ensureStateForBuilding w = Normal r
     ∧ (success r = true →
        let w1 := world_of ensureStateForBuilding w in
        current_state (executionState w1)
        ∈ [ STATE_5_WORKFLOW_BUILDING; STATE_6_WORKFLOW_VALIDATION;
            STATE_7_WORKFLOW_READY ]
        ∧ result_of ensureStateForBuilding w1 = Normal ok
        ∧ executionState (world_of ensureStateForBuilding w1) = executionState w1))
  ∧ (∀ w,
       current_state (executionState w)
       ∈ [ STATE_0_IDLE; STATE_1_USER_PROMPT_RECEIVED; STATE_ERROR_HANDLING ]
       ∨ (current_state (executionState w) = STATE_2_CLARIFICATION_ACTIVE
          ∧ final_understanding (executionState w) = "") →
       (∃ msg, result_of ensureStateForBuilding w = Normal (failure msg))
       ∧ executionState (world_of ensureStateForBuilding w) = executionState w).
Proof.
  split.
  - intros w. destruct (ensureStateForBuilding_post w) as (r & R & H).
    exists r. split; [exact R |]. intros Hr w1. specialize (H Hr).
    split; [exact H |]. apply ensureStateForBuilding_noop, H.
  - intros w H. unfold ensureStateForBuilding, confirmUnderstanding, startBuilding.
    destruct H as [H | [E Hu]].
    + destruct (current_state (executionState w)) eqn:E;
        try (not_listed H); exec E; split; eauto.
    + exec_with ltac:(rewrite ?E, ?Hu; cbn [truthy]). split; eauto.
Qed.

(** X14: from ClarificationActive with a final understanding already set,
    [ensureStateForBuilding] drives the machine to WorkflowBuilding: through
    UnderstandingConfirmed alone when no credentials are required, and
    through CredentialCollection as well when some are and none is missing.
    When a required credential is missing it returns the failure of
    [startBuilding], and the machine is left in CredentialCollection, two
    entries further in its history. *)
Theorem ensureStateForBuilding_from_clarification :
  ∀ w,
    current_state (executionState w) = STATE_2_CLARIFICATION_ACTIVE →
    final_understanding (executionState w) ≠ "" →
    let e := executionState w in
    let e' := executionState (world_of ensureStateForBuilding w) in
    (credentials_required e = [] →
     result_of ensureStateForBuilding w = Normal ok
     ∧ current_state e' = STATE_5_WORKFLOW_BUILDING
     ∧ history_states e'
       = history_states e
         ++ [ STATE_3_UNDERSTANDING_CONFIRMED; STATE_5_WORKFLOW_BUILDING ])
    ∧ (credentials_required e ≠ [] → missingCredentials e = [] →
       result_of ensureStateForBuilding w = Normal ok
       ∧ current_state e' = STATE_5_WORKFLOW_BUILDING
       ∧ history_states e'
         = history_states e
           ++ [ STATE_3_UNDERSTANDING_CONFIRMED; STATE_4_CREDENTIAL_COLLECTION;
                STATE_5_WORKFLOW_BUILDING ])
    ∧ (missingCredentials e ≠ [] →
       result_of ensureStateForBuilding w
       = Normal (failure ("Cannot build workflow: Missing required credentials: "
                          +:+ join ", " (missingCredentials e)))
       ∧ current_state e' = STATE_4_CREDENTIAL_COLLECTION
       ∧ history_states e'
         = history_states e
           ++ [ STATE_3_UNDERSTANDING_CONFIRMED; STATE_4_CREDENTIAL_COLLECTION ]).
Proof.
  intros w E Hu e e'. subst e e'. apply truthy_nonempty in Hu.
  unfold ensureStateForBuilding, confirmUnderstanding, startBuilding.
  split_and!.
  - intros Hr.
    assert (Hr' : (0 <? length (credentials_required (executionState w)))%nat
                  = false) by (rewrite Hr; reflexivity).
    exec_with ltac:(rewrite ?E, ?Hu, ?Hr').
    split_and!; try reflexivity.
    rewrite !history_states_committed, <- app_assoc. reflexivity.
  - intros Hr Hm. apply positive_length_nonempty in Hr.
    assert (Hm' : (0 <? length (missingCredentials (executionState w)))%nat
                  = false) by (rewrite Hm; reflexivity).
    unfold missingCredentials in *.
    exec_with ltac:(rewrite ?E, ?Hu, ?Hr, ?Hm').
    split_and!; try reflexivity.
    rewrite !history_states_committed, <- !app_assoc. reflexivity.
  - intros Hm.
    assert (Hr : (0 <? length (credentials_required (executionState w)))%nat = true).
    { apply positive_length_nonempty. intros Hr. apply Hm.
      unfold missingCredentials. rewrite Hr. reflexivity. }
    apply positive_length_nonempty in Hm.
    unfold missingCredentials in *.
    exec_with ltac:(rewrite ?E, ?Hu, ?Hr, ?Hm).
    split_and!; try reflexivity.
    rewrite !history_states_committed, <- !app_assoc. reflexivity.
Qed.

(** X15: [moveToValidation] never throws; when it reports success the
    machine is in WorkflowValidation and holds the blueprint passed.  From
    WorkflowBuilding it always succeeds, appending one entry.  From
    WorkflowValidation and WorkflowReady it fails, and yet the blueprint
    passed has replaced the one held; from Idle, PromptReceived and
    ErrorHandling it fails and changes nothing. *)
Theorem moveToValidation_stores_the_blueprint :
  (∀ w b, ∃ r,
     result_of (moveToValidation b) w = Normal r
     ∧ (success r = true →
        let e' := executionState (world_of (moveToValidation b) w) in
        current_state e' = STATE_6_WORKFLOW_VALIDATION
        ∧ workflow_blueprint e' = b))
  ∧ (∀ w b,
       current_state (executionState w) = STATE_5_WORKFLOW_BUILDING →
       result_of (moveToValidation b) w = Normal ok
       ∧ history_states (executionState (world_of (moveToValidation b) w))
         = history_states (executionState w) ++ [ STATE_6_WORKFLOW_VALIDATION ])
  ∧ (∀ w b,
       current_state (executionState w)
       ∈ [ STATE_6_WORKFLOW_VALIDATION; STATE_7_WORKFLOW_READY ] →
       result_of (moveToValidation b) w
       = Normal (failure (invalid_transition (current_state (executionState w))
                            STATE_6_WORKFLOW_VALIDATION))
       ∧ executionState (world_of (moveToValidation b) w)
         = set_workflow_blueprint b (executionState w))
  ∧ (∀ w b,
       current_state (executionState w)
       ∈ [ STATE_0_IDLE; STATE_1_USER_PROMPT_RECEIVED; STATE_ERROR_HANDLING ] →
       (∃ msg, result_of (moveToValidation b) w = Normal (failure msg))
       ∧ executionState (world_of (moveToValidation b) w) = executionState w).
Proof.
  split_and!.
  - intros w b.
    unfold moveToValidation, ensureStateForBuilding, confirmUnderstanding,
      startBuilding.
    destruct (current_state (executionState w)) eqn:E; exec E.
    all: eexists; split; [reflexivity | cbn; try discriminate].
    all: intros _; split; reflexivity.
  - intros w b E.
    unfold moveToValidation, ensureStateForBuilding, confirmUnderstanding,
      startBuilding.
    exec E. split; [reflexivity |].
    rewrite history_states_committed. reflexivity.
  - intros w b H.
    unfold moveToValidation, ensureStateForBuilding, confirmUnderstanding,
      startBuilding.
    destruct (current_state (executionState w)) eqn:E;
      try (not_listed H); exec E; split; reflexivity.
  - intros w b H.
    unfold moveToValidation, ensureStateForBuilding, confirmUnderstanding,
      startBuilding.
    destruct (current_state (executionState w)) eqn:E;
      try (not_listed H); exec E; split; eauto.
Qed.


(** ** ErrorHandling *)

(** X17: in ErrorHandling [isTerminalState] answers true, and no call other
    than [transitionTo] and [reset] moves the machine or appends to its
    history; yet [transitionTo] still leads out of it, to ClarificationActive
    and to Idle. *)
Theorem error_handling_is_left_only_by_transitionTo_or_reset :
  ∀ w,
    current_state (executionState w) = STATE_ERROR_HANDLING →
    isTerminalState w = (Normal true, w)
    ∧ (∀ c, c ≠ Guarded Reset → (∀ t reason, c ≠ TransitionTo t reason) →
            current_state (executionState (after c w)) = STATE_ERROR_HANDLING
            ∧ state_history (executionState (after c w))
              = state_history (executionState w))
    ∧ (∀ reason,
         result_of (transitionTo STATE_2_CLARIFICATION_ACTIVE reason) w = Normal ok
         ∧ result_of (transitionTo STATE_0_IDLE reason) w = Normal ok).
Proof.
  intros w E. split_and!.
  - unfold isTerminalState. exec E. reflexivity.
  - intros c Hr Ht. unfold after.
    destruct c as [op | t reason | | b |];
      [destruct op | exfalso; exact (Ht t reason eq_refl) |..];
      try congruence;
      cbn [invoke invoke_op]; unfold void, returning.
    + unfold setUserPrompt. exec E. split; first [reflexivity | exact E].
    + unfold setClarifyingQuestions. exec E. split; first [reflexivity | exact E].
    + unfold setClarifyingAnswers. exec E. split; first [reflexivity | exact E].
    + unfold confirmUnderstanding. exec E. split; first [reflexivity | exact E].
    + unfold setRequiredCredentials. exec E. split; first [reflexivity | exact E].
    + unfold setProvidedCredentials. exec E. split; first [reflexivity | exact E].
    + unfold startBuilding. exec E; split; first [reflexivity | exact E].
    + unfold setWorkflowBlueprint. exec E. split; first [reflexivity | exact E].
    + unfold addValidationError. exec E. split; first [reflexivity | exact E].
    + unfold clearValidationErrors. exec E. split; first [reflexivity | exact E].
    + unfold retryBuilding, clearValidationErrors, when_debug, get_debugMode,
        console_call.
      exec E; try (split; first [reflexivity | exact E]).
      all: destruct (debugMode w); exec E; split; first [reflexivity | exact E].
    + unfold markWorkflowReady. exec E; split; first [reflexivity | exact E].
    + unfold handleError. exec E. split; first [reflexivity | exact E].
    + unfold ensureStateForBuilding, confirmUnderstanding, startBuilding.
      exec E. split; first [reflexivity | exact E].
    + unfold moveToValidation, ensureStateForBuilding, confirmUnderstanding,
        startBuilding.
      exec E. split; first [reflexivity | exact E].
    + unfold moveToReady, moveToValidation, markWorkflowReady.
      exec E. split; first [reflexivity | exact E].
  - intros reason. rewrite !transitionTo_result, E. split; reflexivity.
Qed.

(** ** Sequences of calls *)

Lemma after_guarded_void (m : M unit) (op : GuardedOp) w :
  invoke_op op = void m →
  executionState (after (Guarded op) w) = executionState (world_of m w).
Proof.
  intros H. unfold after. cbn [invoke]. rewrite H. apply void_world.
Qed.

Lemma after_guarded_returning (m : M OpResult) (op : GuardedOp) w :
  invoke_op op = returning m →
  executionState (after (Guarded op) w) = executionState (world_of m w).
Proof.
  intros H. unfold after. cbn [invoke]. rewrite H. apply returning_world.
Qed.

Lemma after_setUserPrompt p w :
  executionState (after (Guarded (SetUserPrompt p)) w)
  = (if bool_decide (current_state (executionState w) = STATE_0_IDLE)
     then committed STATE_1_USER_PROMPT_RECEIVED (Some "User prompt received")
            (clock (dates w)) (set_user_prompt p (executionState w))
     else executionState w).
Proof.
  rewrite (after_guarded_void (setUserPrompt p)) by reflexivity.
  apply setUserPrompt_eq.
Qed.

Lemma after_setClarifyingQuestions q w :
  executionState (after (Guarded (SetClarifyingQuestions q)) w)
  = (if bool_decide (current_state (executionState w)
                     = STATE_1_USER_PROMPT_RECEIVED)
     then committed STATE_2_CLARIFICATION_ACTIVE
            (Some "Clarifying questions generated") (clock (dates w))
            (set_clarifying_questions q (executionState w))
     else set_clarifying_questions q (executionState w)).
Proof.
  rewrite (after_guarded_void (setClarifyingQuestions q)) by reflexivity.
  apply setClarifyingQuestions_eq.
Qed.

Lemma after_confirmUnderstanding u w :
  executionState (after (Guarded (ConfirmUnderstanding u)) w)
  = (if bool_decide (current_state (executionState w)
                     = STATE_2_CLARIFICATION_ACTIVE)
     then committed STATE_3_UNDERSTANDING_CONFIRMED
            (Some "Understanding confirmed by user") (clock (dates w))
            (set_final_understanding u (executionState w))
     else executionState w).
Proof.
  rewrite (after_guarded_returning (confirmUnderstanding u)) by reflexivity.
  apply confirmUnderstanding_eq.
Qed.

Lemma after_startBuilding w :
  executionState (after (Guarded StartBuilding) w)
  = (let e := executionState w in
     if (0 <? length (credentials_required e))%nat
        && (0 <? length (missingCredentials e))%nat
     then e
     else if negb (truthy (Some (final_understanding e))) then e
     else if allowed (current_state e) STATE_5_WORKFLOW_BUILDING
          then committed STATE_5_WORKFLOW_BUILDING
                 (Some "Workflow building started") (clock (dates w)) e
          else e).
Proof.
  rewrite (after_guarded_returning startBuilding) by reflexivity.
  apply startBuilding_eq.
Qed.

Lemma after_setWorkflowBlueprint b w :
  executionState (after (Guarded (SetWorkflowBlueprint b)) w)
  = (if bool_decide (current_state (executionState w)
                     = STATE_5_WORKFLOW_BUILDING)
     then committed STATE_6_WORKFLOW_VALIDATION
            (Some "Workflow blueprint generated") (clock (dates w))
            (set_workflow_blueprint b (executionState w))
     else set_workflow_blueprint b (executionState w)).
Proof.
  rewrite (after_guarded_void (setWorkflowBlueprint b)) by reflexivity.
  apply setWorkflowBlueprint_eq.
Qed.

Lemma after_markWorkflowReady w :
  executionState (after (Guarded MarkWorkflowReady) w)
  = (let e := executionState w in
     if (0 <? length (validation_errors e))%nat then e
     else if no_nodes (workflow_blueprint e) then e
     else if allowed (current_state e) STATE_7_WORKFLOW_READY
          then committed STATE_7_WORKFLOW_READY
                 (Some "Workflow validated and ready") (clock (dates w)) e
          else e).
Proof.
  rewrite (after_guarded_returning markWorkflowReady) by reflexivity.
  apply markWorkflowReady_eq.
Qed.

Lemma after_retryBuilding w :
  executionState (after (Guarded RetryBuilding) w)
  = (let e := executionState w in
     if (3 <=? retry_count e)%nat then e
     else if allowed (current_state e) STATE_5_WORKFLOW_BUILDING
          then committed STATE_5_WORKFLOW_BUILDING
                 (Some ("Retry " +:+ pretty (retry_count e + 1) +:+ "/3"))
                 (clock (dates w)) (retry_writes e)
          else retry_writes e).
Proof.
  rewrite (after_guarded_returning retryBuilding) by reflexivity.
  apply retryBuilding_eq.
Qed.

Lemma after_handleError err w :
  executionState (after (Guarded (HandleError err)) w)
  = (let e := set_last_error (Some err) (executionState w) in
     if allowed (current_state (executionState w)) STATE_ERROR_HANDLING
     then committed STATE_ERROR_HANDLING (Some ("Error: " +:+ err))
            (clock (dates w)) e
     else e).
Proof.
  rewrite (after_guarded_void (handleError err)) by reflexivity.
  apply handleError_state.
Qed.

Lemma after_transitionTo t reason w :
  executionState (after (TransitionTo t reason) w)
  = (if allowed (current_state (executionState w)) t
     then committed t reason (clock (dates w)) (executionState w)
     else executionState w).
Proof.
  unfold after. cbn [invoke].
  change ((returning (transitionTo t reason) w).2)
    with (world_of (returning (transitionTo t reason)) w).
  rewrite returning_world. apply transitionTo_state.
Qed.

(** Simplifies a state expression with what [rw] knows of the data. *)
Ltac simp_state rw :=
  repeat (progress
            (cbn [executionState constructor initial_record retry_writes
                  missingCredentials List.filter empty_blueprint
                  current_state committed set_current_state set_state_history
                  set_final_understanding set_workflow_blueprint set_retry_count
                  set_validation_errors set_last_error set_user_prompt
                  set_clarifying_questions set_clarifying_answers
                  set_credentials_required set_credentials_provided
                  user_prompt clarifying_questions clarifying_answers
                  final_understanding credentials_required credentials_provided
                  workflow_blueprint validation_errors retry_count last_error
                  state_history length Nat.ltb Nat.leb Nat.add negb andb orb];
             table_facts; rw)).

Ltac rewrite_after :=
  first [ rewrite after_setUserPrompt | rewrite after_setClarifyingQuestions
        | rewrite after_confirmUnderstanding | rewrite after_startBuilding
        | rewrite after_setWorkflowBlueprint | rewrite after_markWorkflowReady
        | rewrite after_retryBuilding | rewrite after_handleError
        | rewrite after_transitionTo ].

(** Proves that a history of states is an older one with states appended. *)
Ltac history_goal :=
  unfold history_states;
  cbn [state_history committed set_state_history set_current_state
       set_final_understanding set_workflow_blueprint set_retry_count
       set_validation_errors set_last_error retry_writes];
  rewrite ?fmap_app, <- ?app_assoc; reflexivity.

(** Walks through the calls of a sequence from the first one on, recording
    the execution state after each call. *)
Ltac walk rw :=
  repeat match goal with
    | |- context [after ?c ?w] =>
        is_var w;
        let w' := fresh "w" in
        let S' := fresh "S" in
        set (w' := after c w);
        eassert (S' : executionState w' = _);
        [ subst w'; rewrite_after; cbn zeta;
          repeat match goal with
            | H : executionState w = _ |- _ => rewrite H
            end;
          simp_state rw; reflexivity
        | clearbody w' ]
    end.

(** X18: on a new manager, the calls [setUserPrompt], [setClarifyingQuestions],
    [confirmUnderstanding] with a non-empty text, [startBuilding],
    [setWorkflowBlueprint] with a blueprint that has a node, and
    [markWorkflowReady], in this order, lead to WorkflowReady through the
    seven states of the pipeline without credentials, keeping the data they
    were given. *)
Theorem pipeline_without_credentials_reaches_ready :
  ∀ d prompt questions u b node rest,
    u ≠ "" →
    nodes b = Some (node :: rest) →
    let e :=
      executionState
        (run [ Guarded (SetUserPrompt prompt);
               Guarded (SetClarifyingQuestions questions);
               Guarded (ConfirmUnderstanding u);
               Guarded StartBuilding;
               Guarded (SetWorkflowBlueprint b);
               Guarded MarkWorkflowReady ] (constructor d)) in
    current_state e = STATE_7_WORKFLOW_READY
    ∧ history_states e
      = [ STATE_0_IDLE; STATE_1_USER_PROMPT_RECEIVED;
          STATE_2_CLARIFICATION_ACTIVE; STATE_3_UNDERSTANDING_CONFIRMED;
          STATE_5_WORKFLOW_BUILDING; STATE_6_WORKFLOW_VALIDATION;
          STATE_7_WORKFLOW_READY ]
    ∧ user_prompt e = prompt
    ∧ clarifying_questions e = questions
    ∧ final_understanding e = u
    ∧ workflow_blueprint e = b
    ∧ validation_errors e = []
    ∧ retry_count e = 0.
Proof.
  intros d prompt questions u b node rest Hu Hb e. subst e.
  apply truthy_nonempty in Hu.
  assert (Hn : no_nodes b = false) by (unfold no_nodes; rewrite Hb; reflexivity).
  cbn [run foldl]. set (w0 := constructor d).
  assert (S0 : executionState w0 = initial_record d (clock 0)) by reflexivity.
  clearbody w0. walk ltac:(rewrite ?Hu, ?Hn).
  match goal with H : executionState ?w = _ |- context [executionState ?w] =>
    rewrite H
  end.
  split_and!; reflexivity.
Qed.

(** X19: from WorkflowValidation with an unused retry budget, three rounds of
    [retryBuilding] followed by [setWorkflowBlueprint] all go through,
    alternating between WorkflowBuilding and WorkflowValidation; a fourth
    [retryBuilding] is then refused for the exhausted budget and leaves the
    third blueprint in place. *)
Theorem three_retry_rounds_then_exhaustion :
  ∀ w b1 b2 b3,
    current_state (executionState w) = STATE_6_WORKFLOW_VALIDATION →
    retry_count (executionState w) = 0 →
    let w' :=
      run [ Guarded RetryBuilding; Guarded (SetWorkflowBlueprint b1);
            Guarded RetryBuilding; Guarded (SetWorkflowBlueprint b2);
            Guarded RetryBuilding; Guarded (SetWorkflowBlueprint b3) ] w in
    let e' := executionState w' in
    retry_count e' = 3
    ∧ current_state e' = STATE_6_WORKFLOW_VALIDATION
    ∧ workflow_blueprint e' = b3
    ∧ history_states e'
      = history_states (executionState w)
        ++ [ STATE_5_WORKFLOW_BUILDING; STATE_6_WORKFLOW_VALIDATION;
             STATE_5_WORKFLOW_BUILDING; STATE_6_WORKFLOW_VALIDATION;
             STATE_5_WORKFLOW_BUILDING; STATE_6_WORKFLOW_VALIDATION ]
    ∧ result_of retryBuilding w' = Normal (failure retry_exhausted)
    ∧ executionState (world_of retryBuilding w') = e'.
Proof.
  intros w b1 b2 b3 E Hn w' e'. subst e' w'.
  cbn [run foldl]. walk ltac:(rewrite ?E, ?Hn).
  match goal with
  | H : executionState ?w = _ |- context [result_of retryBuilding ?w] =>
    destruct (retryBuilding_eq w) as [Rlast Slast]; cbn zeta in Rlast, Slast;
    rewrite Rlast, Slast, H
  end.
  simp_state ltac:(rewrite ?E, ?Hn). split_and!; try reflexivity. history_goal.
Qed.

Lemma ensureStateForBuilding_direct w :
  current_state (executionState w) = STATE_2_CLARIFICATION_ACTIVE →
  final_understanding (executionState w) ≠ "" →
  credentials_required (executionState w) = [] →
  executionState (world_of ensureStateForBuilding w)
  = committed STATE_5_WORKFLOW_BUILDING (Some "Workflow building started")
      (clock (S (dates w)))
      (committed STATE_3_UNDERSTANDING_CONFIRMED
         (Some "Understanding confirmed by user") (clock (dates w))
         (set_final_understanding (final_understanding (executionState w))
            (executionState w))).
Proof.
  intros E Hu Hr. apply truthy_nonempty in Hu.
  assert (Hr' : (0 <? length (credentials_required (executionState w)))%nat
                = false) by (rewrite Hr; reflexivity).
  unfold ensureStateForBuilding, confirmUnderstanding, startBuilding.
  exec_with ltac:(rewrite ?E, ?Hu, ?Hr'). reflexivity.
Qed.

(** X20: a manager that hits an error in WorkflowValidation can resume:
    after [handleError], a [transitionTo] ClarificationActive and
    [ensureStateForBuilding], a manager with a final understanding and no
    required credentials is back in WorkflowBuilding, with the error message
    kept in [last_error] and its retry counter and prompt untouched. *)
Theorem resume_after_an_error_in_validation :
  ∀ w err reason,
    current_state (executionState w) = STATE_6_WORKFLOW_VALIDATION →
    final_understanding (executionState w) ≠ "" →
    credentials_required (executionState w) = [] →
    let e' :=
      executionState
        (run [ Guarded (HandleError err);
               TransitionTo STATE_2_CLARIFICATION_ACTIVE reason;
               EnsureStateForBuilding ] w) in
    current_state e' = STATE_5_WORKFLOW_BUILDING
    ∧ history_states e'
      = history_states (executionState w)
        ++ [ STATE_ERROR_HANDLING; STATE_2_CLARIFICATION_ACTIVE;
             STATE_3_UNDERSTANDING_CONFIRMED; STATE_5_WORKFLOW_BUILDING ]
    ∧ last_error e' = Some err
    ∧ retry_count e' = retry_count (executionState w)
    ∧ user_prompt e' = user_prompt (executionState w).
Proof.
  intros w err reason E Hu Hr e'. subst e'.
  cbn [run foldl].
  change (after EnsureStateForBuilding ?x)
    with (world_of (returning ensureStateForBuilding) x).
  rewrite returning_world.
  walk ltac:(rewrite ?E).
  match goal with H : executionState ?x = _ |- context [ensureStateForBuilding] =>
    rewrite (ensureStateForBuilding_direct x);
      rewrite ?H; simp_state idtac; try reflexivity; try assumption
  end.
  split_and!; try reflexivity. history_goal.
Qed.

(** ** The console *)

Section Quiet.

Variable c0 : list ConsoleCall.

Lemma keeps_ret {A} (a : A) : keeps (quiet c0) (ret a).
Proof. intros w H. exact H. Qed.

Lemma keeps_throw {A} msg : keeps (quiet c0) (throw (A := A) msg).
Proof. intros w H. exact H. Qed.

Lemma keeps_bind {A B} (m : M A) (k : A → M B) :
  keeps (quiet c0) m → (∀ a, keeps (quiet c0) (k a)) →
  keeps (quiet c0) (bind m k).
Proof.
  intros Hm Hk w H. unfold bind. specialize (Hm w H).
  destruct (m w) as [[a | msg] w1]; cbn in *; [apply Hk, Hm | exact Hm].
Qed.

Lemma keeps_get_state : keeps (quiet c0) get_state.
Proof. intros w H. exact H. Qed.

Lemma keeps_modify f : keeps (quiet c0) (modify f).
Proof. intros w H. exact H. Qed.

Lemma keeps_new_Date : keeps (quiet c0) new_Date_toISOString.
Proof. intros w H. exact H. Qed.

Lemma keeps_when_debug body : keeps (quiet c0) (when_debug body).
Proof.
  intros w [Hd Hc]. unfold when_debug, bind, get_debugMode. rewrite Hd.
  split; assumption.
Qed.

Lemma keeps_transitionTo t reason : keeps (quiet c0) (transitionTo t reason).
Proof.
  intros w [Hd Hc]. rewrite transitionTo_eq. cbn. rewrite Hd.
  split; [reflexivity | exact Hc].
Qed.

End Quiet.

Ltac keep :=
  repeat match goal with
    | |- keeps _ (ret _) => apply keeps_ret
    | |- keeps _ (throw _) => apply keeps_throw
    | |- keeps _ get_state => apply keeps_get_state
    | |- keeps _ new_Date_toISOString => apply keeps_new_Date
    | |- keeps _ (modify _) => apply keeps_modify
    | |- keeps _ (when_debug _) => apply keeps_when_debug
    | |- keeps _ (transitionTo _ _) => apply keeps_transitionTo
    | |- keeps _ (bind _ _) => apply keeps_bind; [| intros ?]
    | |- keeps _ (if ?b then _ else _) => destruct b
    | |- keeps _ (match ?o with Some _ => _ | None => _ end) => destruct o
    end.

Lemma keeps_quiet_invoke c0 c : keeps (quiet c0) (invoke c).
Proof.
  destruct c as [op | t reason | | b |]; [destruct op |..];
    cbn [invoke invoke_op];
    unfold void, returning, setUserPrompt, setClarifyingQuestions,
      setClarifyingAnswers, setRequiredCredentials, setProvidedCredentials,
      setWorkflowBlueprint, addValidationError, retryBuilding,
      clearValidationErrors, handleError, reset, initializeState,
      moveToReady, moveToValidation, markWorkflowReady,
      ensureStateForBuilding, confirmUnderstanding, startBuilding;
    keep.
  all: intros w H; exact H.
Qed.

(** X21: a manager constructed without debug mode is silent: no call writes
    to the console or changes the debug flag.  With debug mode on, every
    [transitionTo] writes exactly one console line, a log line for an
    accepted transition and an error line for a rejected one. *)
Theorem console_is_written_only_in_debug_mode :
  (∀ c w,
     debugMode w = false →
     console (after c w) = console w ∧ debugMode (after c w) = false)
  ∧ (∀ w t reason,
       debugMode w = true →
       ∃ line,
         console (world_of (transitionTo t reason) w) = console w ++ [ line ]
         ∧ c_level line
           = (if allowed (current_state (executionState w)) t
              then ConsoleLog else ConsoleError)).
Proof.
  split.
  - intros c w Hd.
    destruct (keeps_quiet_invoke (console w) c w) as [H1 H2];
      [split; [exact Hd | reflexivity] |].
    split; assumption.
  - intros w t reason Hd. unfold world_of. rewrite transitionTo_eq. cbn.
    rewrite Hd. eexists. split; [reflexivity |].
    unfold transition_trace. destruct (allowed _ t); reflexivity.
Qed.

(** X23: a read of [credentials_provided] under a name that the object does
    not hold itself, but [Object.prototype] does, gives the inherited member,
    which is truthy.  So a required credential is never missing when its
    name, or its lower-cased name, is such a name; and with nothing provided,
    required credentials so named do not keep [startBuilding] from
    succeeding. *)
Theorem inherited_names_are_never_missing :
  (∀ (provided : gmap string string) (cred : string),
     (provided !! cred = None ∧ cred ∈ Object_prototype)
     ∨ (provided !! toLowerCase cred = None
        ∧ toLowerCase cred ∈ Object_prototype) →
     is_missing provided cred = false)
  ∧ (∀ w : World,
       credentials_provided (executionState w) = ∅ →
       Forall (λ cred, cred ∈ Object_prototype)
         (credentials_required (executionState w)) →
       final_understanding (executionState w) ≠ "" →
       current_state (executionState w) = STATE_4_CREDENTIAL_COLLECTION →
       missingCredentials (executionState w) = []
       ∧ result_of startBuilding w = Normal ok
       ∧ current_state (executionState (world_of startBuilding w))
         = STATE_5_WORKFLOW_BUILDING).
Proof.
  assert (Hread : ∀ (provided : gmap string string) key,
            provided !! key = None → key ∈ Object_prototype →
            truthy_value (get_property provided key) = true).
  { intros provided key Hnone Hin. unfold get_property.
    rewrite Hnone, (bool_decide_eq_true_2 _ Hin). reflexivity. }
  assert (Hone : ∀ (provided : gmap string string) (cred : string),
            (provided !! cred = None ∧ cred ∈ Object_prototype)
            ∨ (provided !! toLowerCase cred = None
               ∧ toLowerCase cred ∈ Object_prototype) →
            is_missing provided cred = false).
  { intros provided cred [[Hnone Hin] | [Hnone Hin]]; unfold is_missing.
    - rewrite (Hread _ _ Hnone Hin). reflexivity.
    - rewrite replace_underscores_id, (Hread _ _ Hnone Hin).
      apply andb_false_r. }
  split; [exact Hone |].
  intros w Hprov Hreq Hu Hs.
  assert (Hm : missingCredentials (executionState w) = []).
  { unfold missingCredentials. rewrite Hprov.
    induction Hreq as [| cred l Hin _ IH]; [reflexivity |].
    cbn [List.filter]. rewrite Hone; [exact IH |].
    left. split; [apply lookup_empty | exact Hin]. }
  split; [exact Hm |].
  destruct (startBuilding_eq w) as [R S]. cbn zeta in R, S.
  rewrite R, S, (missing_guard_passes _ Hm), Hs.
  destruct (final_understanding (executionState w)); [congruence |].
  cbn [truthy negb]. table_facts. split; reflexivity.
Qed.

End Manager.

(** ** The wizard-step mappings *)

(** C9: mapping a step to a state and back gives the step again for idle,
    building and complete; questioning and refining both come back as
    questioning; WorkflowValidation and WorkflowBuilding both map to
    building, and ErrorHandling maps to idle.  On these five steps
    [mapWizardStepToState] returns a state, which [data] hands to
    [mapStateToWizardStep]. *)
Theorem wizard_step_round_trip :
  mapStateToWizardStep <$> data (mapWizardStepToState "idle") = Some "idle"
  ∧ mapStateToWizardStep <$> data (mapWizardStepToState "building") = Some "building"
  ∧ mapStateToWizardStep <$> data (mapWizardStepToState "complete") = Some "complete"
  ∧ mapStateToWizardStep <$> data (mapWizardStepToState "questioning")
    = Some "questioning"
  ∧ mapStateToWizardStep <$> data (mapWizardStepToState "refining")
    = Some "questioning"
  ∧ mapStateToWizardStep STATE_6_WORKFLOW_VALIDATION = "building"
  ∧ mapStateToWizardStep STATE_5_WORKFLOW_BUILDING = "building"
  ∧ mapStateToWizardStep STATE_ERROR_HANDLING = "idle".
Proof. repeat split; vm_compute; reflexivity. Qed.

(** C10: [mapWizardStepToState] returns without failing on every string, but
    not always a state.  A string that is neither one of the eight wizard
    steps nor the name of a member of [Object.prototype] is mapped to Idle;
    the name of such a member, [constructor] for one, is not one of the eight
    steps and yet is not mapped to Idle: the inherited member is returned. *)
Theorem unknown_step_maps_to_idle_unless_inherited :
  (∀ step : string,
     step ∉ wizard_steps → step ∉ Object_prototype →
     mapWizardStepToState step = Data STATE_0_IDLE)
  ∧ (∀ step : string,
       step ∈ Object_prototype →
       (step ∉ wizard_steps)
       ∧ mapWizardStepToState step = Inherited step
       ∧ mapWizardStepToState step ≠ Data STATE_0_IDLE)
  ∧ mapWizardStepToState "constructor" = Inherited "constructor".
Proof.
  split_and!.
  - intros step H1 H2. unfold mapWizardStepToState, get_property, stepMap.
    rewrite not_elem_of_list_to_map_1 by exact H1.
    rewrite (bool_decide_eq_false_2 _ H2). reflexivity.
  - intros step H. unfold Object_prototype in H.
    repeat (apply elem_of_cons in H as [-> | H]);
      [.. | apply elem_of_nil in H; contradiction];
      (split_and!;
         [ apply (bool_decide_unpack _); vm_compute; exact I
         | vm_compute; reflexivity
         | vm_compute; discriminate ]).
  - vm_compute. reflexivity.
Qed.

Lemma unknown_step_maps_to_idle_unless_inherited_witness :
  (("review" ∉ wizard_steps) ∧ ("review" ∉ Object_prototype)
   ∧ mapWizardStepToState "review" = Data STATE_0_IDLE)
  ∧ ("toString" ∈ Object_prototype
     ∧ mapWizardStepToState "toString" = Inherited "toString").
Proof.
  assert (H1 : "review" ∉ wizard_steps).
  { apply (bool_decide_unpack ("review" ∉ wizard_steps)). vm_compute. exact I. }
  assert (H2 : "review" ∉ Object_prototype).
  { apply (bool_decide_unpack ("review" ∉ Object_prototype)). vm_compute. exact I. }
  assert (H3 : "toString" ∈ Object_prototype).
  { apply (bool_decide_unpack ("toString" ∈ Object_prototype)). vm_compute. exact I. }
  destruct unknown_step_maps_to_idle_unless_inherited as (A & B & _).
  split.
  - split; [exact H1 | split; [exact H2 | exact (A "review" H1 H2)]].
  - split; [exact H3 | exact (proj1 (proj2 (B "toString" H3)))].
Defined.

(** * The claims on concrete runs

    The runs below use the clock [sample_clock], the ASCII lower-casing, and
    blueprint nodes that carry no data. *)

(** C2, counterexample: [retryBuilding] on a fresh manager fails, since Idle
    does not lead to WorkflowBuilding, and yet [retry_count] has gone from 0
    to 1. *)
Lemma failed_retry_keeps_its_writes :
  let w := fresh (any := unit) sample_clock in
  let retry := invoke_op ascii_toLowerCase sample_clock RetryBuilding in
  failed (result_of retry w) = true
  ∧ retry_count (executionState w) = 0
  ∧ retry_count (executionState (world_of retry w)) = 1
  ∧ executionState (world_of retry w) ≠ executionState w.
Proof.
  intros w retry. split_and!; try (vm_compute; reflexivity).
  intros H. apply (f_equal retry_count) in H. vm_compute in H. discriminate H.
Qed.

Lemma failed_operation_changes_nothing_but_retry_writes_witness :
  let w := fresh (any := unit) sample_clock in
  let retry := invoke_op ascii_toLowerCase sample_clock RetryBuilding in
  failed (result_of retry w) = true
  ∧ retry_count (executionState w) < 3
  ∧ executionState (world_of retry w) = retry_writes (executionState w).
Proof.
  intros w retry.
  assert (Hfail : failed (result_of retry w) = true) by (vm_compute; reflexivity).
  assert (Hlt : retry_count (executionState w) < 3) by (vm_compute; lia).
  destruct (failed_operation_changes_nothing_but_retry_writes
              ascii_toLowerCase sample_clock w RetryBuilding Hfail)
    as (_ & _ & H).
  destruct (H eq_refl Hlt) as [H' _].
  split; [exact Hfail | split; [exact Hlt | exact H']].
Defined.

(** C3, counterexample: the second of two consecutive retries from
    WorkflowValidation does not succeed. *)
Lemma second_consecutive_retry_is_rejected :
  let w := in_validation ascii_toLowerCase sample_clock () in
  let w1 := world_of (retryBuilding sample_clock) w in
  current_state (executionState w) = STATE_6_WORKFLOW_VALIDATION
  ∧ retry_count (executionState w) = 0
  ∧ result_of (retryBuilding sample_clock) w = Normal ok
  ∧ result_of (retryBuilding sample_clock) w1
    = Normal (failure (invalid_transition STATE_5_WORKFLOW_BUILDING
                         STATE_5_WORKFLOW_BUILDING)).
Proof. intros w w1. split_and!; vm_compute; reflexivity. Qed.

Lemma four_consecutive_retries_witness :
  let w := in_validation ascii_toLowerCase sample_clock () in
  let w1 := world_of (retryBuilding sample_clock) w in
  let w2 := world_of (retryBuilding sample_clock) w1 in
  let w3 := world_of (retryBuilding sample_clock) w2 in
  let w4 := world_of (retryBuilding sample_clock) w3 in
  current_state (executionState w) = STATE_6_WORKFLOW_VALIDATION
  ∧ retry_count (executionState w) = 0
  ∧ retry_count (executionState w3) = 3
  ∧ result_of (retryBuilding sample_clock) w3 = Normal (failure retry_exhausted)
  ∧ executionState w4 = executionState w3.
Proof.
  intros w w1 w2 w3 w4.
  assert (Hs : current_state (executionState w) = STATE_6_WORKFLOW_VALIDATION)
    by (vm_compute; reflexivity).
  assert (Hn : retry_count (executionState w) = 0) by (vm_compute; reflexivity).
  destruct (four_consecutive_retries sample_clock w Hs Hn)
    as (_ & _ & (_ & H3 & _) & (H4 & _ & H5)).
  split; [exact Hs | split; [exact Hn | split; [exact H3 |]]].
  split; [exact H4 | exact H5].
Defined.

(** C4, counterexample: from UnderstandingConfirmed, [canTransitionTo]
    accepts ClarificationActive, an edge that is not among the edges the
    specification lists; and the table lists ErrorHandling as a successor of
    WorkflowValidation. *)
Lemma table_has_edges_beyond_the_specified :
  let w := in_confirmed (any := unit) ascii_toLowerCase sample_clock in
  current_state (executionState w) = STATE_3_UNDERSTANDING_CONFIRMED
  ∧ result_of (canTransitionTo STATE_2_CLARIFICATION_ACTIVE) w
    = Normal {| valid := true; v_reason := None |}
  ∧ ((STATE_3_UNDERSTANDING_CONFIRMED, STATE_2_CLARIFICATION_ACTIVE)
     ∉ specified_edges)
  ∧ STATE_ERROR_HANDLING ∈ ALLOWED_TRANSITIONS STATE_6_WORKFLOW_VALIDATION.
Proof.
  intros w. split_and!; try (vm_compute; reflexivity).
  - apply (bool_decide_unpack
             ((STATE_3_UNDERSTANDING_CONFIRMED, STATE_2_CLARIFICATION_ACTIVE)
              ∉ specified_edges)).
    vm_compute. exact I.
  - apply (bool_decide_unpack
             (STATE_ERROR_HANDLING
              ∈ ALLOWED_TRANSITIONS STATE_6_WORKFLOW_VALIDATION)).
    vm_compute. exact I.
Qed.

(** C5, counterexample: [Google] is required and [credentials_provided] has
    no entry under that name, yet [startBuilding] succeeds, because a token
    is stored under [google]; and in WorkflowReady both guards pass, yet
    [startBuilding] fails and the machine stays in WorkflowReady. *)
Lemma startBuilding_accepts_lower_case_and_needs_the_table :
  let build := startBuilding (any := unit) ascii_toLowerCase sample_clock in
  let w := google_capitalised (any := unit) ascii_toLowerCase sample_clock in
  let r := in_ready ascii_toLowerCase sample_clock () in
  ("Google" ∈ credentials_required (executionState w)
   ∧ credentials_provided (executionState w) !! "Google" = None
   ∧ result_of build w = Normal ok
   ∧ current_state (executionState (world_of build w)) = STATE_5_WORKFLOW_BUILDING)
  ∧ (missingCredentials ascii_toLowerCase (executionState r) = []
     ∧ final_understanding (executionState r) ≠ ""
     ∧ result_of build r
       = Normal (failure (invalid_transition STATE_7_WORKFLOW_READY
                            STATE_5_WORKFLOW_BUILDING))
     ∧ current_state (executionState (world_of build r)) = STATE_7_WORKFLOW_READY).
Proof.
  intros build w r. split; split_and!; try (vm_compute; reflexivity).
  - apply (bool_decide_unpack ("Google" ∈ credentials_required (executionState w))).
    vm_compute. exact I.
  - vm_compute. discriminate.
Qed.

Lemma startBuilding_guards_witness :
  let build := startBuilding (any := unit) ascii_toLowerCase sample_clock in
  let w := slack_missing (any := unit) ascii_toLowerCase sample_clock in
  let w0 := fresh (any := unit) sample_clock in
  let g := google_capitalised (any := unit) ascii_toLowerCase sample_clock in
  (ascii_toLowerCase "slack" = "slack"
   ∧ credentials_required (executionState w) = [ "google"; "slack" ]
   ∧ credentials_provided (executionState w) = {[ "google" := "token" ]}
   ∧ missingCredentials ascii_toLowerCase (executionState w) = [ "slack" ]
   ∧ result_of build w
     = Normal (failure "Cannot build workflow: Missing required credentials: slack"))
  ∧ (Forall (λ cred, (cred ∉ Object_prototype)
                     ∧ (ascii_toLowerCase cred ∉ Object_prototype))
       (credentials_required (executionState w))
     ∧ missingCredentials ascii_toLowerCase (executionState w)
       = List.filter
           (λ cred,
              negb (truthy (credentials_provided (executionState w) !! cred))
              && negb (truthy (credentials_provided (executionState w)
                               !! ascii_toLowerCase cred)))
           (credentials_required (executionState w)))
  ∧ (missingCredentials ascii_toLowerCase (executionState w) ≠ []
     ∧ executionState (world_of build w) = executionState w)
  ∧ (final_understanding (executionState w0) = ""
     ∧ executionState (world_of build w0) = executionState w0)
  ∧ (missingCredentials ascii_toLowerCase (executionState g) = []
     ∧ final_understanding (executionState g) ≠ ""
     ∧ result_of build g = Normal ok
     ∧ current_state (executionState (world_of build g))
       = STATE_5_WORKFLOW_BUILDING).
Proof.
  intros build w w0 g.
  assert (Hlow : ascii_toLowerCase "slack" = "slack") by reflexivity.
  assert (Hreq : credentials_required (executionState w) = [ "google"; "slack" ])
    by reflexivity.
  assert (Hprov : credentials_provided (executionState w)
                  = {[ "google" := "token" ]}) by reflexivity.
  assert (Hplain : Forall (λ cred, (cred ∉ Object_prototype)
                                   ∧ (ascii_toLowerCase cred ∉ Object_prototype))
                     (credentials_required (executionState w))).
  { rewrite Hreq.
    repeat constructor; apply (bool_decide_unpack _); vm_compute; exact I. }
  assert (Hmiss : missingCredentials ascii_toLowerCase (executionState w) ≠ [])
    by (vm_compute; discriminate).
  assert (Hu0 : final_understanding (executionState w0) = "")
    by (vm_compute; reflexivity).
  assert (Hmg : missingCredentials ascii_toLowerCase (executionState g) = [])
    by (vm_compute; reflexivity).
  assert (Hug : final_understanding (executionState g) ≠ "")
    by (vm_compute; discriminate).
  assert (Hsg : bool_decide (current_state (executionState g)
                             ∈ [ STATE_3_UNDERSTANDING_CONFIRMED;
                                 STATE_4_CREDENTIAL_COLLECTION;
                                 STATE_6_WORKFLOW_VALIDATION ]) = true)
    by (vm_compute; reflexivity).
  destruct (startBuilding_guards (any := unit) ascii_toLowerCase sample_clock)
    as (A & B & C & D & E).
  destruct (C Hlow w Hreq Hprov) as (Hm & Hr & _).
  pose proof (E g Hmg Hug) as Hg. cbn zeta in Hg. rewrite Hsg in Hg.
  split; [| split; [| split; [| split]]].
  - split; [exact Hlow | split; [exact Hreq | split; [exact Hprov |]]].
    split; [exact Hm | exact Hr].
  - split; [exact Hplain | exact (A (executionState w) Hplain)].
  - split; [exact Hmiss | exact (proj2 (B w Hmiss))].
  - split; [exact Hu0 | exact (proj2 (D w0 Hu0))].
  - split; [exact Hmg | split; [exact Hug |]].
    split; [exact (proj1 Hg) | exact (proj1 (proj2 Hg))].
Defined.

(** C7, counterexample: in ClarificationActive, before anything is
    confirmed, the binding of [q1] made by a first call is gone after a second
    call that only mentions [q2]. *)
Lemma later_answers_drop_earlier_ones :
  let first := setClarifyingAnswers (any := unit) {[ "q1" := "weekly" ]} in
  let second := setClarifyingAnswers (any := unit) {[ "q2" := "by email" ]} in
  let w := in_clarification (any := unit) ascii_toLowerCase sample_clock in
  let w1 := world_of first w in
  let w2 := world_of second w1 in
  current_state (executionState w) = STATE_2_CLARIFICATION_ACTIVE
  ∧ final_understanding (executionState w) = ""
  ∧ clarifying_answers (executionState w1) !! "q1" = Some "weekly"
  ∧ ({[ "q2" := "by email" ]} : gmap string string) !! "q1" = None
  ∧ clarifying_answers (executionState w2) !! "q1" = None
  ∧ current_state (executionState w2) = STATE_2_CLARIFICATION_ACTIVE
  ∧ final_understanding (executionState w2) = "".
Proof. intros first second w w1 w2. split_and!; vm_compute; reflexivity. Qed.

Lemma markWorkflowReady_guards_witness :
  let ready := markWorkflowReady (any := unit) sample_clock in
  let with_error := in_validation_with_error ascii_toLowerCase sample_clock () in
  let without_nodes :=
    in_validation_without_nodes (any := unit) ascii_toLowerCase sample_clock in
  let w := in_validation ascii_toLowerCase sample_clock () in
  (validation_errors (executionState with_error) ≠ []
   ∧ result_of ready with_error
     = Normal (failure "Cannot mark workflow as ready: 1 validation errors remain")
   ∧ executionState (world_of ready with_error) = executionState with_error)
  ∧ (validation_errors (executionState without_nodes) = []
     ∧ nodes (workflow_blueprint (executionState without_nodes)) = None
     ∧ result_of ready without_nodes
       = Normal (failure "Cannot mark workflow as ready: No workflow blueprint")
     ∧ executionState (world_of ready without_nodes) = executionState without_nodes)
  ∧ (validation_errors (executionState w) = []
     ∧ nodes (workflow_blueprint (executionState w)) = Some [ () ]
     ∧ current_state (executionState w) = STATE_6_WORKFLOW_VALIDATION
     ∧ result_of ready w = Normal ok
     ∧ current_state (executionState (world_of ready w)) = STATE_7_WORKFLOW_READY).
Proof.
  intros ready with_error without_nodes w.
  destruct (markWorkflowReady_guards (any := unit) sample_clock)
    as (Herrors & Hnodes & _ & Hready).
  assert (He : validation_errors (executionState with_error) ≠ [])
    by (vm_compute; discriminate).
  assert (Hn0 : validation_errors (executionState without_nodes) = [])
    by (vm_compute; reflexivity).
  assert (Hn1 : nodes (workflow_blueprint (executionState without_nodes)) = None)
    by (vm_compute; reflexivity).
  assert (Hv0 : validation_errors (executionState w) = [])
    by (vm_compute; reflexivity).
  assert (Hv1 : nodes (workflow_blueprint (executionState w)) = Some [ () ])
    by (vm_compute; reflexivity).
  assert (Hv2 : current_state (executionState w) = STATE_6_WORKFLOW_VALIDATION)
    by (vm_compute; reflexivity).
  destruct (Herrors with_error He) as [R1 S1].
  destruct (Hnodes without_nodes Hn0 (or_introl Hn1)) as [R2 S2].
  destruct (Hready w () [] Hv0 Hv1 Hv2) as (R3 & S3 & _).
  split; [| split].
  - split; [exact He | split; [| exact S1]].
    etransitivity; [exact R1 | vm_compute; reflexivity].
  - split; [exact Hn0 | split; [exact Hn1 | split; [exact R2 | exact S2]]].
  - split; [exact Hv0 | split; [exact Hv1 | split; [exact Hv2 |]]].
    split; [exact R3 | exact S3].
Defined.

(** * Further properties on concrete runs *)

(** X22: mapping a state to its wizard step and back gives the state again,
    except for WorkflowValidation, which comes back as WorkflowBuilding, and
    ErrorHandling, which comes back as Idle; and the step of a state is
    always one of the eight wizard steps, never [refining]. *)
Theorem state_round_trip_through_wizard_steps :
  ∀ s,
    mapWizardStepToState (mapStateToWizardStep s)
    = Data match s with
           | STATE_6_WORKFLOW_VALIDATION => STATE_5_WORKFLOW_BUILDING
           | STATE_ERROR_HANDLING => STATE_0_IDLE
           | _ => s
           end
    ∧ mapStateToWizardStep s ∈ wizard_steps
    ∧ mapStateToWizardStep s ≠ "refining".
Proof.
  intros s. destruct s; split_and!; try (vm_compute; reflexivity);
    try (apply (bool_decide_unpack _); vm_compute; exact I);
    vm_compute; discriminate.
Qed.

Lemma retry_count_is_bounded_and_monotone_witness :
  let w := in_validation (any := unit) ascii_toLowerCase sample_clock () in
  Guarded (any := unit) RetryBuilding ≠ Guarded Reset
  ∧ retry_count (executionState w)
    ≤ retry_count
        (executionState (after ascii_toLowerCase sample_clock
                           (Guarded RetryBuilding) w)).
Proof.
  intros w.
  assert (H : Guarded (any := unit) RetryBuilding ≠ Guarded Reset) by discriminate.
  split; [exact H |].
  exact (proj2 (retry_count_is_bounded_and_monotone ascii_toLowerCase sample_clock)
           _ w H).
Defined.

Lemma history_is_append_only_witness :
  let w := in_confirmed (any := unit) ascii_toLowerCase sample_clock in
  Guarded (any := unit) StartBuilding ≠ Guarded Reset
  ∧ ∃ appended,
      state_history
        (executionState (after ascii_toLowerCase sample_clock
                           (Guarded StartBuilding) w))
      = state_history (executionState w) ++ appended.
Proof.
  intros w.
  assert (H : Guarded (any := unit) StartBuilding ≠ Guarded Reset) by discriminate.
  split; [exact H |].
  exact (history_is_append_only ascii_toLowerCase sample_clock _ w H).
Defined.

Lemma data_fields_have_one_writer_witness :
  let w := in_confirmed (any := unit) ascii_toLowerCase sample_clock in
  let w' := after ascii_toLowerCase sample_clock (Guarded StartBuilding) w in
  Guarded (any := unit) StartBuilding ≠ Guarded Reset
  ∧ user_prompt (executionState w') = user_prompt (executionState w)
  ∧ last_error (executionState w') = last_error (executionState w)
  ∧ retry_count (executionState w') = retry_count (executionState w).
Proof.
  intros w w'.
  assert (H : Guarded (any := unit) StartBuilding ≠ Guarded Reset) by discriminate.
  destruct (data_fields_have_one_writer ascii_toLowerCase sample_clock _ w H)
    as (H1 & _ & _ & _ & _ & H6 & H7).
  split; [exact H |]. split; [| split].
  - apply H1. left. intros p. discriminate.
  - apply H6. intros err. discriminate.
  - apply H7. discriminate.
Defined.

Lemma workflow_ready_is_left_only_by_reset_witness :
  let w := in_ready ascii_toLowerCase sample_clock () in
  let c := Guarded (any := unit) (HandleError "too late") in
  c ≠ Guarded Reset
  ∧ current_state (executionState w) = STATE_7_WORKFLOW_READY
  ∧ current_state (executionState (after ascii_toLowerCase sample_clock c w))
    = STATE_7_WORKFLOW_READY.
Proof.
  intros w c.
  assert (H : c ≠ Guarded Reset) by discriminate.
  assert (Hs : current_state (executionState w) = STATE_7_WORKFLOW_READY)
    by (vm_compute; reflexivity).
  split; [exact H |]. split; [exact Hs |].
  exact (proj1 (workflow_ready_is_left_only_by_reset ascii_toLowerCase
                  sample_clock c w H Hs)).
Defined.

Lemma setUserPrompt_works_once_witness :
  let w := fresh (any := unit) sample_clock in
  let w1 := in_prompt_received (any := unit) ascii_toLowerCase sample_clock in
  (current_state (executionState w) = STATE_0_IDLE
   ∧ result_of (setUserPrompt sample_clock "again") w = Normal ())
  ∧ (current_state (executionState w1) ≠ STATE_0_IDLE
     ∧ result_of (setUserPrompt sample_clock "again") w1
       = Throw "Can only set user prompt from IDLE state").
Proof.
  intros w w1.
  assert (H0 : current_state (executionState w) = STATE_0_IDLE)
    by (vm_compute; reflexivity).
  assert (H1 : current_state (executionState w1) ≠ STATE_0_IDLE)
    by (vm_compute; discriminate).
  destruct (setUserPrompt_works_once (any := unit) sample_clock) as (A & B & _).
  split; (split; [assumption |]).
  - exact (proj1 (A w "again" H0)).
  - exact (proj1 (B w1 "again" H1)).
Defined.

Lemma setClarifyingQuestions_replaces_and_moves_once_witness :
  let w := in_prompt_received (any := unit) ascii_toLowerCase sample_clock in
  let w1 := in_confirmed (any := unit) ascii_toLowerCase sample_clock in
  (current_state (executionState w) = STATE_1_USER_PROMPT_RECEIVED
   ∧ current_state
       (executionState (world_of (setClarifyingQuestions sample_clock []) w))
     = STATE_2_CLARIFICATION_ACTIVE)
  ∧ (current_state (executionState w1) ≠ STATE_1_USER_PROMPT_RECEIVED
     ∧ executionState (world_of (setClarifyingQuestions sample_clock []) w1)
       = set_clarifying_questions [] (executionState w1)).
Proof.
  intros w w1.
  assert (H0 : current_state (executionState w) = STATE_1_USER_PROMPT_RECEIVED)
    by (vm_compute; reflexivity).
  assert (H1 : current_state (executionState w1) ≠ STATE_1_USER_PROMPT_RECEIVED)
    by (vm_compute; discriminate).
  destruct (setClarifyingQuestions_replaces_and_moves_once (any := unit)
              sample_clock) as (_ & A & B).
  split; (split; [assumption |]).
  - exact (proj1 (A w [] H0)).
  - exact (B w1 [] H1).
Defined.

Lemma confirmUnderstanding_accepts_any_text_witness :
  let w := in_clarification (any := unit) ascii_toLowerCase sample_clock in
  let w1 := world_of (confirmUnderstanding sample_clock "") w in
  current_state (executionState w) = STATE_2_CLARIFICATION_ACTIVE
  ∧ result_of (confirmUnderstanding sample_clock "") w = Normal ok
  ∧ ∃ msg, result_of (startBuilding ascii_toLowerCase sample_clock) w1
           = Normal (failure msg).
Proof.
  intros w w1.
  assert (H0 : current_state (executionState w) = STATE_2_CLARIFICATION_ACTIVE)
    by (vm_compute; reflexivity).
  destruct (confirmUnderstanding_accepts_any_text (any := unit)
              ascii_toLowerCase sample_clock) as (A & B).
  split; [exact H0 |]. split.
  - exact (proj1 (A w "" H0)).
  - exact (proj1 (B w H0)).
Defined.

Lemma setRequiredCredentials_has_two_triggers_witness :
  let w := in_building (any := unit) ascii_toLowerCase sample_clock in
  let wp :=
    in_building_with_slack_provided (any := unit) ascii_toLowerCase sample_clock in
  let w0 := fresh (any := unit) sample_clock in
  let w1 := world_of (setRequiredCredentials sample_clock [ "slack" ]) wp in
  (current_state (executionState w) = STATE_5_WORKFLOW_BUILDING
   ∧ current_state
       (executionState (world_of (setRequiredCredentials sample_clock [ "gmail" ]) w))
     = STATE_4_CREDENTIAL_COLLECTION)
  ∧ (current_state (executionState wp) = STATE_5_WORKFLOW_BUILDING
     ∧ final_understanding (executionState wp) ≠ ""
     ∧ Forall (λ cred,
                 truthy (credentials_provided (executionState wp) !! cred) = true)
         [ "slack" ]
     ∧ credentials_required (executionState w1) = [ "slack" ]
     ∧ current_state (executionState w1) = STATE_4_CREDENTIAL_COLLECTION
     ∧ result_of (startBuilding ascii_toLowerCase sample_clock) w1 = Normal ok
     ∧ history_states
         (executionState (world_of (startBuilding ascii_toLowerCase sample_clock) w1))
       = history_states (executionState wp)
         ++ [ STATE_4_CREDENTIAL_COLLECTION; STATE_5_WORKFLOW_BUILDING ])
  ∧ (current_state (executionState w0) ≠ STATE_3_UNDERSTANDING_CONFIRMED
     ∧ current_state (executionState w0) ≠ STATE_5_WORKFLOW_BUILDING
     ∧ executionState (world_of (setRequiredCredentials sample_clock [ "slack" ]) w0)
       = set_credentials_required [ "slack" ] (executionState w0)).
Proof.
  intros w wp w0 w1.
  assert (H0 : current_state (executionState w) = STATE_5_WORKFLOW_BUILDING)
    by (vm_compute; reflexivity).
  assert (Hp0 : current_state (executionState wp) = STATE_5_WORKFLOW_BUILDING)
    by (vm_compute; reflexivity).
  assert (Hp1 : final_understanding (executionState wp) ≠ "")
    by (vm_compute; discriminate).
  assert (Hp2 : Forall (λ cred,
                   truthy (credentials_provided (executionState wp) !! cred) = true)
                  [ "slack" ]).
  { repeat constructor. }
  assert (H3 : current_state (executionState w0) ≠ STATE_3_UNDERSTANDING_CONFIRMED)
    by (vm_compute; discriminate).
  assert (H4 : current_state (executionState w0) ≠ STATE_5_WORKFLOW_BUILDING)
    by (vm_compute; discriminate).
  destruct (setRequiredCredentials_has_two_triggers (any := unit)
              ascii_toLowerCase sample_clock) as (W & A & B & C).
  split; [| split].
  - split; [exact H0 |]. exact (proj1 (A w [ "gmail" ] (or_intror H0))).
  - split; [exact Hp0 |]. split; [exact Hp1 |]. split; [exact Hp2 |].
    split; [exact (proj2 (W wp [ "slack" ])) |].
    split; [exact (proj1 (A wp [ "slack" ] (or_intror Hp0))) |].
    exact (C wp [ "slack" ] Hp0 Hp1 Hp2).
  - split; [exact H3 |]. split; [exact H4 |]. exact (B w0 [ "slack" ] H3 H4).
Defined.

Lemma setWorkflowBlueprint_always_writes_witness :
  let w := in_building (any := unit) ascii_toLowerCase sample_clock in
  let w0 := fresh (any := unit) sample_clock in
  (current_state (executionState w) = STATE_5_WORKFLOW_BUILDING
   ∧ current_state
       (executionState (world_of (setWorkflowBlueprint sample_clock (one_node ())) w))
     = STATE_6_WORKFLOW_VALIDATION)
  ∧ (current_state (executionState w0) ≠ STATE_5_WORKFLOW_BUILDING
     ∧ executionState (world_of (setWorkflowBlueprint sample_clock (one_node ())) w0)
       = set_workflow_blueprint (one_node ()) (executionState w0)).
Proof.
  intros w w0.
  assert (H0 : current_state (executionState w) = STATE_5_WORKFLOW_BUILDING)
    by (vm_compute; reflexivity).
  assert (H1 : current_state (executionState w0) ≠ STATE_5_WORKFLOW_BUILDING)
    by (vm_compute; discriminate).
  destruct (setWorkflowBlueprint_always_writes (any := unit) sample_clock)
    as (_ & A & B).
  split.
  - split; [exact H0 |]. exact (proj1 (A w (one_node ()) H0)).
  - split; [exact H1 |]. exact (B w0 (one_node ()) H1).
Defined.

Lemma validation_errors_gate_readiness_witness :
  let w := in_validation_with_error ascii_toLowerCase sample_clock () in
  let w1 := world_of clearValidationErrors w in
  current_state (executionState w) = STATE_6_WORKFLOW_VALIDATION
  ∧ nodes (workflow_blueprint (executionState w)) = Some [ () ]
  ∧ validation_errors (executionState w) ≠ []
  ∧ result_of (markWorkflowReady sample_clock) w1 = Normal ok.
Proof.
  intros w w1.
  assert (H0 : current_state (executionState w) = STATE_6_WORKFLOW_VALIDATION)
    by (vm_compute; reflexivity).
  assert (H1 : nodes (workflow_blueprint (executionState w)) = Some [ () ])
    by (vm_compute; reflexivity).
  assert (H2 : validation_errors (executionState w) ≠ [])
    by (vm_compute; discriminate).
  destruct (validation_errors_gate_readiness (any := unit) sample_clock)
    as (_ & A).
  split; [exact H0 |]. split; [exact H1 |]. split; [exact H2 |].
  exact (proj1 (proj2 (A w () [] H0 H1))).
Defined.

Lemma ensureStateForBuilding_is_idempotent_witness :
  let ensure := ensureStateForBuilding (any := unit) ascii_toLowerCase sample_clock in
  let w := editing (any := unit) ascii_toLowerCase sample_clock in
  let w0 := fresh (any := unit) sample_clock in
  (result_of ensure w = Normal ok
   ∧ result_of ensure (world_of ensure w) = Normal ok
   ∧ executionState (world_of ensure (world_of ensure w))
     = executionState (world_of ensure w))
  ∧ (current_state (executionState w0)
     ∈ [ STATE_0_IDLE; STATE_1_USER_PROMPT_RECEIVED; STATE_ERROR_HANDLING ]
     ∧ executionState (world_of ensure w0) = executionState w0).
Proof.
  intros ensure w w0.
  assert (H0 : result_of ensure w = Normal ok) by (vm_compute; reflexivity).
  assert (H1 : current_state (executionState w0)
               ∈ [ STATE_0_IDLE; STATE_1_USER_PROMPT_RECEIVED;
                   STATE_ERROR_HANDLING ])
    by (apply (bool_decide_unpack _); vm_compute; exact I).
  destruct (ensureStateForBuilding_is_idempotent (any := unit)
              ascii_toLowerCase sample_clock) as (A & B).
  split.
  - destruct (A w) as (r & R & H).
    assert (Hr : success r = true).
    { assert (Hok : Normal r = Normal ok)
        by (etransitivity; [symmetry; exact R | exact H0]).
      injection Hok as ->. reflexivity. }
    destruct (H Hr) as (_ & R1 & S1).
    split; [exact H0 |]. split; [exact R1 | exact S1].
  - split; [exact H1 |]. exact (proj2 (B w0 (or_introl H1))).
Defined.

Lemma ensureStateForBuilding_from_clarification_witness :
  let ensure := ensureStateForBuilding (any := unit) ascii_toLowerCase sample_clock in
  let w := editing (any := unit) ascii_toLowerCase sample_clock in
  let wp := editing_with_slack_provided (any := unit) ascii_toLowerCase sample_clock in
  let wm := editing_with_slack_missing (any := unit) ascii_toLowerCase sample_clock in
  (current_state (executionState w) = STATE_2_CLARIFICATION_ACTIVE
   ∧ final_understanding (executionState w) ≠ ""
   ∧ credentials_required (executionState w) = []
   ∧ current_state (executionState (world_of ensure w)) = STATE_5_WORKFLOW_BUILDING)
  ∧ (credentials_required (executionState wp) ≠ []
     ∧ missingCredentials ascii_toLowerCase (executionState wp) = []
     ∧ current_state (executionState (world_of ensure wp))
       = STATE_5_WORKFLOW_BUILDING)
  ∧ (missingCredentials ascii_toLowerCase (executionState wm) ≠ []
     ∧ current_state (executionState (world_of ensure wm))
       = STATE_4_CREDENTIAL_COLLECTION).
Proof.
  intros ensure w wp wm.
  assert (E : current_state (executionState w) = STATE_2_CLARIFICATION_ACTIVE)
    by (vm_compute; reflexivity).
  assert (Hu : final_understanding (executionState w) ≠ "")
    by (vm_compute; discriminate).
  assert (Hr : credentials_required (executionState w) = [])
    by (vm_compute; reflexivity).
  assert (Ep : current_state (executionState wp) = STATE_2_CLARIFICATION_ACTIVE)
    by (vm_compute; reflexivity).
  assert (Hup : final_understanding (executionState wp) ≠ "")
    by (vm_compute; discriminate).
  assert (Hrp : credentials_required (executionState wp) ≠ [])
    by (vm_compute; discriminate).
  assert (Hmp : missingCredentials ascii_toLowerCase (executionState wp) = [])
    by (vm_compute; reflexivity).
  assert (Em : current_state (executionState wm) = STATE_2_CLARIFICATION_ACTIVE)
    by (vm_compute; reflexivity).
  assert (Hum : final_understanding (executionState wm) ≠ "")
    by (vm_compute; discriminate).
  assert (Hmm : missingCredentials ascii_toLowerCase (executionState wm) ≠ [])
    by (vm_compute; discriminate).
  destruct (ensureStateForBuilding_from_clarification ascii_toLowerCase
              sample_clock w E Hu) as (A & _ & _).
  destruct (ensureStateForBuilding_from_clarification ascii_toLowerCase
              sample_clock wp Ep Hup) as (_ & B & _).
  destruct (ensureStateForBuilding_from_clarification ascii_toLowerCase
              sample_clock wm Em Hum) as (_ & _ & C).
  split; [| split].
  - split; [exact E |]. split; [exact Hu |]. split; [exact Hr |].
    exact (proj1 (proj2 (A Hr))).
  - split; [exact Hrp |]. split; [exact Hmp |]. exact (proj1 (proj2 (B Hrp Hmp))).
  - split; [exact Hmm |]. exact (proj1 (proj2 (C Hmm))).
Defined.

Lemma moveToValidation_stores_the_blueprint_witness :
  let w := in_building (any := unit) ascii_toLowerCase sample_clock in
  let r := in_ready ascii_toLowerCase sample_clock () in
  let w0 := fresh (any := unit) sample_clock in
  let move := moveToValidation ascii_toLowerCase sample_clock empty_blueprint in
  (current_state (executionState w) = STATE_5_WORKFLOW_BUILDING
   ∧ result_of move w = Normal ok)
  ∧ (current_state (executionState r)
     ∈ [ STATE_6_WORKFLOW_VALIDATION; STATE_7_WORKFLOW_READY ]
     ∧ executionState (world_of move r)
       = set_workflow_blueprint empty_blueprint (executionState r))
  ∧ (current_state (executionState w0)
     ∈ [ STATE_0_IDLE; STATE_1_USER_PROMPT_RECEIVED; STATE_ERROR_HANDLING ]
     ∧ executionState (world_of move w0) = executionState w0).
Proof.
  intros w r w0 move.
  assert (H0 : current_state (executionState w) = STATE_5_WORKFLOW_BUILDING)
    by (vm_compute; reflexivity).
  assert (H1 : current_state (executionState r)
               ∈ [ STATE_6_WORKFLOW_VALIDATION; STATE_7_WORKFLOW_READY ])
    by (apply (bool_decide_unpack _); vm_compute; exact I).
  assert (H2 : current_state (executionState w0)
               ∈ [ STATE_0_IDLE; STATE_1_USER_PROMPT_RECEIVED;
                   STATE_ERROR_HANDLING ])
    by (apply (bool_decide_unpack _); vm_compute; exact I).
  destruct (moveToValidation_stores_the_blueprint (any := unit)
              ascii_toLowerCase sample_clock) as (_ & A & B & C).
  split; [| split].
  - split; [exact H0 |]. exact (proj1 (A w empty_blueprint H0)).
  - split; [exact H1 |]. exact (proj2 (B r empty_blueprint H1)).
  - split; [exact H2 |]. exact (proj2 (C w0 empty_blueprint H2)).
Defined.


Lemma error_handling_is_left_only_by_transitionTo_or_reset_witness :
  let w := in_error ascii_toLowerCase sample_clock () in
  let c := Guarded (any := unit) (ConfirmUnderstanding "try again") in
  current_state (executionState w) = STATE_ERROR_HANDLING
  ∧ c ≠ Guarded Reset
  ∧ (∀ t reason, c ≠ TransitionTo t reason)
  ∧ current_state (executionState (after ascii_toLowerCase sample_clock c w))
    = STATE_ERROR_HANDLING.
Proof.
  intros w c.
  assert (H0 : current_state (executionState w) = STATE_ERROR_HANDLING)
    by (vm_compute; reflexivity).
  assert (H1 : c ≠ Guarded Reset) by discriminate.
  assert (H2 : ∀ t reason, c ≠ TransitionTo t reason) by (intros; discriminate).
  destruct (error_handling_is_left_only_by_transitionTo_or_reset
              ascii_toLowerCase sample_clock w H0) as (_ & A & _).
  split; [exact H0 |]. split; [exact H1 |]. split; [exact H2 |].
  exact (proj1 (A c H1 H2)).
Defined.

Lemma pipeline_without_credentials_reaches_ready_witness :
  let e :=
    executionState
      (run (any := unit) ascii_toLowerCase sample_clock
         [ Guarded (SetUserPrompt "mail me the weather");
           Guarded (SetClarifyingQuestions []);
           Guarded (ConfirmUnderstanding "send a daily weather mail");
           Guarded StartBuilding;
           Guarded (SetWorkflowBlueprint (one_node ()));
           Guarded MarkWorkflowReady ] (constructor sample_clock false)) in
  "send a daily weather mail" ≠ ""
  ∧ nodes (one_node ()) = Some [ () ]
  ∧ current_state e = STATE_7_WORKFLOW_READY
  ∧ user_prompt e = "mail me the weather".
Proof.
  intros e.
  assert (H0 : "send a daily weather mail" ≠ "") by discriminate.
  assert (H1 : nodes (one_node ()) = Some [ () ]) by reflexivity.
  destruct (pipeline_without_credentials_reaches_ready (any := unit)
              ascii_toLowerCase sample_clock false "mail me the weather" []
              "send a daily weather mail" (one_node ()) () [] H0 H1)
    as (A & _ & B & _).
  split; [exact H0 |]. split; [exact H1 |]. split; [exact A | exact B].
Defined.

Lemma three_retry_rounds_then_exhaustion_witness :
  let w := in_validation ascii_toLowerCase sample_clock () in
  let w' :=
    run ascii_toLowerCase sample_clock
      [ Guarded RetryBuilding; Guarded (SetWorkflowBlueprint (one_node ()));
        Guarded RetryBuilding; Guarded (SetWorkflowBlueprint (one_node ()));
        Guarded RetryBuilding; Guarded (SetWorkflowBlueprint (one_node ())) ] w in
  current_state (executionState w) = STATE_6_WORKFLOW_VALIDATION
  ∧ retry_count (executionState w) = 0
  ∧ retry_count (executionState w') = 3
  ∧ result_of (retryBuilding sample_clock) w' = Normal (failure retry_exhausted).
Proof.
  intros w w'.
  assert (H0 : current_state (executionState w) = STATE_6_WORKFLOW_VALIDATION)
    by (vm_compute; reflexivity).
  assert (H1 : retry_count (executionState w) = 0) by (vm_compute; reflexivity).
  destruct (three_retry_rounds_then_exhaustion ascii_toLowerCase sample_clock w
              (one_node ()) (one_node ()) (one_node ()) H0 H1)
    as (A & _ & _ & _ & B & _).
  split; [exact H0 |]. split; [exact H1 |]. split; [exact A | exact B].
Defined.

Lemma resume_after_an_error_in_validation_witness :
  let w := in_validation ascii_toLowerCase sample_clock () in
  let e' :=
    executionState
      (run ascii_toLowerCase sample_clock
         [ Guarded (HandleError "validation crashed");
           TransitionTo STATE_2_CLARIFICATION_ACTIVE None;
           EnsureStateForBuilding ] w) in
  current_state (executionState w) = STATE_6_WORKFLOW_VALIDATION
  ∧ final_understanding (executionState w) ≠ ""
  ∧ credentials_required (executionState w) = []
  ∧ current_state e' = STATE_5_WORKFLOW_BUILDING
  ∧ last_error e' = Some "validation crashed".
Proof.
  intros w e'.
  assert (H0 : current_state (executionState w) = STATE_6_WORKFLOW_VALIDATION)
    by (vm_compute; reflexivity).
  assert (H1 : final_understanding (executionState w) ≠ "")
    by (vm_compute; discriminate).
  assert (H2 : credentials_required (executionState w) = [])
    by (vm_compute; reflexivity).
  destruct (resume_after_an_error_in_validation ascii_toLowerCase sample_clock w
              "validation crashed" None H0 H1 H2) as (A & _ & B & _).
  split; [exact H0 |]. split; [exact H1 |]. split; [exact H2 |].
  split; [exact A | exact B].
Defined.

Lemma console_is_written_only_in_debug_mode_witness :
  let w := fresh (any := unit) sample_clock in
  let wd := fresh_debugging (any := unit) sample_clock in
  let c := Guarded (any := unit) (SetUserPrompt "mail me the weather") in
  (debugMode w = false
   ∧ console (after ascii_toLowerCase sample_clock c w) = console w)
  ∧ (debugMode wd = true
     ∧ ∃ line,
         console (world_of (transitionTo sample_clock STATE_7_WORKFLOW_READY None) wd)
         = console wd ++ [ line ]).
Proof.
  intros w wd c.
  assert (H0 : debugMode w = false) by reflexivity.
  assert (H1 : debugMode wd = true) by reflexivity.
  destruct (console_is_written_only_in_debug_mode (any := unit)
              ascii_toLowerCase sample_clock) as (A & B).
  split.
  - split; [exact H0 |]. exact (proj1 (A c w H0)).
  - split; [exact H1 |].
    destruct (B wd STATE_7_WORKFLOW_READY None H1) as (line & Hl & _).
    exists line. exact Hl.
Defined.

Lemma inherited_names_are_never_missing_witness :
  let w := constructor_required (any := unit) ascii_toLowerCase sample_clock in
  let build := startBuilding (any := unit) ascii_toLowerCase sample_clock in
  credentials_required (executionState w) = [ "constructor" ]
  ∧ credentials_provided (executionState w) = ∅
  ∧ final_understanding (executionState w) ≠ ""
  ∧ current_state (executionState w) = STATE_4_CREDENTIAL_COLLECTION
  ∧ is_missing ascii_toLowerCase (credentials_provided (executionState w))
      "constructor" = false
  ∧ result_of build w = Normal ok
  ∧ current_state (executionState (world_of build w)) = STATE_5_WORKFLOW_BUILDING.
Proof.
  intros w build.
  assert (Hr : credentials_required (executionState w) = [ "constructor" ])
    by (vm_compute; reflexivity).
  assert (Hp : credentials_provided (executionState w) = ∅)
    by (vm_compute; reflexivity).
  assert (Hu : final_understanding (executionState w) ≠ "")
    by (vm_compute; discriminate).
  assert (Hs : current_state (executionState w) = STATE_4_CREDENTIAL_COLLECTION)
    by (vm_compute; reflexivity).
  assert (Hin : "constructor" ∈ Object_prototype)
    by (apply (bool_decide_unpack _); vm_compute; exact I).
  assert (Hnone : credentials_provided (executionState w) !! "constructor" = None)
    by (vm_compute; reflexivity).
  assert (Hall : Forall (λ cred, cred ∈ Object_prototype)
                   (credentials_required (executionState w))).
  { rewrite Hr. constructor; [exact Hin | constructor]. }
  destruct (inherited_names_are_never_missing (any := unit) ascii_toLowerCase
              sample_clock) as [A B].
  destruct (B w Hp Hall Hu Hs) as (_ & R & S).
  split; [exact Hr |]. split; [exact Hp |]. split; [exact Hu |].
  split; [exact Hs |].
  split; [exact (A _ "constructor" (or_introl (conj Hnone Hin))) |].
  split; [exact R | exact S].
Defined.
